(** * Live-migration plugin of nvme-cli (plugins/lm/lm-nvme.c)

    A shallow embedding of the command encoders, their argument checks and
    the controller-state decoder, followed by the properties the
    specification states about them.

    Conventions.
    - C integers are [Z]; every conversion to a fixed-width type is written
      out ([u8], [u16], [u32], [u64], [s32]).  Operands narrower than [int]
      are promoted to [int] before arithmetic, as in C; a left shift on
      [int] wraps in two's complement ([int_shl]), which is what the
      compilers the tool is built with produce.
    - Everything outside the file (argument parsing, the allocator, the
      file system, the ioctl that carries a command) is a field of [world].
    - A command handler returns its C return value together with the list of
      externally visible events, in program order.  A handler that
      dereferences a null pointer or reads past the end of its buffer has
      outcome [Undefined]. *)

From Stdlib Require Import ZArith List String Bool Lia.
From Stdlib Require Import Strings.Byte.
Import ListNotations.
Local Open Scope Z_scope.

(* ------------------------------------------------------------------ *)
(** ** Fixed-width integers *)

Module CInt.

Definition u8  (x : Z) : Z := x mod 2 ^ 8.
Definition u16 (x : Z) : Z := x mod 2 ^ 16.
Definition u32 (x : Z) : Z := x mod 2 ^ 32.
Definition u64 (x : Z) : Z := x mod 2 ^ 64.

(** Conversion to [int] (32 bits, two's complement). *)
Definition s32 (x : Z) : Z := (x + 2 ^ 31) mod 2 ^ 32 - 2 ^ 31.

(** [x << n] on an [int] operand. *)
Definition int_shl (x n : Z) : Z := s32 (Z.shiftl x n).

(** [bool] promoted to [int]. *)
Definition int_of_bool (b : bool) : Z := if b then 1 else 0.

Definition is_u8  (x : Z) : Prop := 0 <= x < 2 ^ 8.
Definition is_u16 (x : Z) : Prop := 0 <= x < 2 ^ 16.
Definition is_u32 (x : Z) : Prop := 0 <= x < 2 ^ 32.
Definition is_u64 (x : Z) : Prop := 0 <= x < 2 ^ 64.
Definition is_s32 (x : Z) : Prop := - 2 ^ 31 <= x < 2 ^ 31.

End CInt.
Import CInt.

(** errno values (Linux, asm-generic/errno-base.h). *)
Definition ENOMEM : Z := 12.
Definition EINVAL : Z := 22.

(* ------------------------------------------------------------------ *)
(** ** Commands, events, the outside world *)

(** [struct nvme_passthru_cmd], the fields the plugin sets.  A designated
    initializer leaves every field it does not name at zero. *)
Record nvme_passthru_cmd : Type := mk_cmd {
  opcode   : Z;
  cdw10    : Z;
  cdw11    : Z;
  cdw12    : Z;
  cdw13    : Z;
  cdw14    : Z;
  cdw15    : Z;
  addr     : Z;
  data_len : Z
}.

(** [struct nvme_set_features_args] / [struct nvme_get_features_args]. *)
Record nvme_features_args : Type := mk_fargs {
  fid        : Z;
  f_cdw11    : Z;
  f_cdw12    : Z;
  f_cdw13    : Z;
  f_data_len : Z
}.

(** [enum nvme_print_flags]: the handlers only test single bits of it and
    compare it with NORMAL (no bit set), so a flag word is the triple of the
    bits they test. *)
Record nvme_print_flags : Type := mk_flags {
  VERBOSE : bool;
  JSON    : bool;
  BINARY  : bool
}.

Definition NORMAL : nvme_print_flags := mk_flags false false false.

Definition is_NORMAL (f : nvme_print_flags) : bool :=
  negb (VERBOSE f) && negb (JSON f) && negb (BINARY f).

(** The tree built through the json_object_* calls. *)
#[warnings="-register-all"] Inductive json : Type :=
| JUint    (v : Z)
| JUint64  (v : Z)
| JUint128 (v : Z)
| JObject  (fields : list (string * json))
| JArray   (items : list json).

Inductive arg : Type :=
| AInt (z : Z)
| AStr (s : string).

Inductive event : Type :=
| Submit      (cmd : nvme_passthru_cmd)          (* nvme_submit_admin_passthru *)
| SetFeatures (a : nvme_features_args)           (* nvme_set_features *)
| GetFeatures (a : nvme_features_args)           (* nvme_get_features *)
| Printf      (fmt : string) (args : list arg)   (* stdout *)
| Eprintf     (fmt : string) (args : list arg)   (* fprintf(stderr, ...) *)
| ShowError   (fmt : string) (args : list arg)   (* nvme_show_error *)
| ShowPerror  (s : string)                       (* nvme_show_perror *)
| ShowStatus  (err : Z)                          (* nvme_show_status *)
| DRaw        (bytes : list byte)                (* d_raw *)
| JsonPrint   (root : json)                      (* json_print_object *)
| FWrite      (bytes : list byte).               (* fwrite to the output file *)

Inductive outcome : Type :=
| Return (err : Z)
| Undefined.

Definition result : Type := outcome * list event.

Record world : Type := mk_world {
  (** return value of parse_and_open(&dev, argc, argv, desc, opts) *)
  parse_and_open : Z;
  (** validate_output_format(fmt, &flags): return value and flags *)
  validate_output_format : option string -> Z * nvme_print_flags;
  (** nvme_alloc_huge(len, &mh): the pointer, 0 for NULL *)
  nvme_alloc_huge : Z -> Z;
  (** fopen(path, mode) != NULL *)
  fopen : string -> string -> bool;
  (** fread(data, 1, n, file) *)
  fread : string -> Z -> Z;
  (** fwrite(data, 1, n, fd) *)
  fwrite : Z -> Z;
  errno : Z;
  strerror : Z -> string;
  nvme_strerror : Z -> string;
  (** nvme_submit_admin_passthru(fd, &cmd, NULL): return value and cmd.result *)
  nvme_submit_admin_passthru : nvme_passthru_cmd -> Z * Z;
  (** the bytes at cmd.addr once the command has completed *)
  buffer_after : nvme_passthru_cmd -> list byte;
  nvme_set_features : nvme_features_args -> Z;
  (** nvme_get_features(&args): return value and the bytes written to args.data *)
  nvme_get_features : nvme_features_args -> Z * list byte
}.

(** The commands a run handed to the transport. *)
Fixpoint submitted (t : list event) : list nvme_passthru_cmd :=
  match t with
  | [] => []
  | Submit c :: t' => c :: submitted t'
  | _ :: t' => submitted t'
  end.

(** The [if (!err) ... else if (err > 0) ... else ...] that follows a submit. *)
Definition report_submit (err : Z) (ok failed : list event) : list event :=
  if err =? 0 then ok
  else if 0 <? err then [ShowStatus err]
  else failed.

(** [arg_str] and the ARGSTR macro. *)
Definition arg_str (strings : list string) (idx : Z) : string :=
  if idx <? Z.of_nat (List.length strings)
  then nth (Z.to_nat idx) strings "unrecognized"%string
  else "unrecognized"%string.

(* ------------------------------------------------------------------ *)
(** ** Create / delete CDQ *)

(** [sizeof(struct lba_migration_queue_entry_type_0)]: nsid, nlb, slba,
    rsvd16[15] and one byte of bit-fields. *)
Definition sizeof_lba_migration_queue_entry_type_0 : Z := 4 + 4 + 8 + 15 + 1.

Definition NVME_ADMIN_TRACK_SEND            : Z := 0x3D.
Definition NVME_ADMIN_TRACK_RECEIVE         : Z := 0x3E.
Definition NVME_ADMIN_MIGRATION_SEND        : Z := 0x41.
Definition NVME_ADMIN_MIGRATION_RECEIVE     : Z := 0x42.
Definition NVME_ADMIN_CONTROLLER_DATA_QUEUE : Z := 0x45.

Definition CREATE_CONTROLLER_DATA_QUEUE : Z := 0.
Definition DELETE_CONTROLLER_DATA_QUEUE : Z := 1.

Module CreateCdq.

Record config : Type := mk_config {
  sz      : Z;      (* __u32 *)
  cntlid  : Z;      (* __u16 *)
  qt      : Z;      (* __u8  *)
  consent : bool
}.

Definition config_ok (cfg : config) : Prop :=
  is_u32 (sz cfg) /\ is_u16 (cntlid cfg) /\ is_u8 (qt cfg).

Definition make_cmd (cfg : config) (queue : Z) : nvme_passthru_cmd :=
  {| opcode   := NVME_ADMIN_CONTROLLER_DATA_QUEUE;
     cdw10    := u32 (Z.lor (int_shl (qt cfg) 16) CREATE_CONTROLLER_DATA_QUEUE);
     cdw11    := u32 (Z.lor (int_shl (cntlid cfg) 16) 0x1);
     cdw12    := sz cfg;
     cdw13    := 0;
     cdw14    := 0;
     cdw15    := 0;
     addr     := u64 queue;
     data_len := u32 (Z.shiftl (sz cfg) 2) |}.

Definition lm_create_cdq (w : world) (cfg : config) : result :=
  let err := parse_and_open w in
  if negb (err =? 0) then (Return err, [])
  else if negb (sz cfg mod (Z.shiftr sizeof_lba_migration_queue_entry_type_0 2) =? 0)
  then (Return EINVAL,
        [ShowError "ERROR: Size must be dword multiple of queue entry size" []])
  else
    let queue := nvme_alloc_huge w (u32 (Z.shiftl (sz cfg) 2)) in
    if queue =? 0
    then (Return (- ENOMEM),
          [ShowError "ERROR: nvme_alloc of size %dB failed %s"
             [AInt (u32 (Z.shiftl (sz cfg) 2)); AStr (strerror w (errno w))]])
    else
      let cmd := make_cmd cfg queue in
      let '(err, res) := nvme_submit_admin_passthru w cmd in
      (Return err,
       Submit cmd ::
       report_submit err
         [Printf "Create CDQ Successful: CDQID=0x%04x\n" [AInt (Z.land res 0xFFFF)]]
         [ShowError "ERROR: nvme_submit_admin_passthru() failed: %s"
            [AStr (nvme_strerror w (errno w))]]).

End CreateCdq.

Module DeleteCdq.

Record config : Type := mk_config {
  cdqid : Z         (* __u16 *)
}.

Definition make_cmd (cfg : config) : nvme_passthru_cmd :=
  {| opcode   := NVME_ADMIN_CONTROLLER_DATA_QUEUE;
     cdw10    := DELETE_CONTROLLER_DATA_QUEUE;
     cdw11    := cdqid cfg;
     cdw12    := 0;
     cdw13    := 0;
     cdw14    := 0;
     cdw15    := 0;
     addr     := 0;
     data_len := 0 |}.

Definition lm_delete_cdq (w : world) (cfg : config) : result :=
  let err := parse_and_open w in
  if negb (err =? 0) then (Return err, [])
  else
    let cmd := make_cmd cfg in
    let '(err, _) := nvme_submit_admin_passthru w cmd in
    (Return err,
     Submit cmd ::
     report_submit err
       [Printf "Delete CDQ Successful: CDQID=0x%04x\n" [AInt (cdqid cfg)]]
       [ShowError "ERROR: nvme_submit_admin_passthru() failed: %s"
          [AStr (nvme_strerror w (errno w))]]).

End DeleteCdq.

(* ------------------------------------------------------------------ *)
(** ** Track Send *)

Definition TRACK_SEND_SELECT_LOG_USER_DATA_CHANGES : Z := 0.
Definition TRACK_SEND_SELECT_TRACK_MEMORY_CHANGES  : Z := 1.

Definition lm_track_send_select_argstr : list string :=
  ["Log User Data Changes"; "Track Memory Changes"]%string.

Definition TRACK_SEND_MANAGEMENT_OPERATION_STOP_LOGGING  : Z := 0.
Definition TRACK_SEND_MANAGEMENT_OPERATION_START_LOGGING : Z := 1.

Module TrackSend.

Record config : Type := mk_config {
  select : Z;       (* __u8  *)
  mos    : Z;       (* __u8  *)
  cdqid  : Z;       (* __u16 *)
  start  : bool;
  stop   : bool
}.

(** [struct config cfg = { .select = -1, ... }]: the initializer is
    converted to [__u8]. *)
Definition default : config :=
  {| select := u8 (-1); mos := 0; cdqid := 0; start := false; stop := false |}.

Definition config_ok (cfg : config) : Prop :=
  is_u8 (select cfg) /\ is_u8 (mos cfg) /\ is_u16 (cdqid cfg).

(** The value of [cfg.mos] after the start/stop block. *)
Definition effective_mos (cfg : config) : Z :=
  if select cfg =? TRACK_SEND_SELECT_LOG_USER_DATA_CHANGES then
    if start cfg then TRACK_SEND_MANAGEMENT_OPERATION_START_LOGGING
    else if stop cfg then TRACK_SEND_MANAGEMENT_OPERATION_STOP_LOGGING
    else mos cfg
  else mos cfg.

Definition make_cmd (cfg : config) : nvme_passthru_cmd :=
  {| opcode   := NVME_ADMIN_TRACK_SEND;
     cdw10    := u32 (Z.lor (select cfg) (int_shl (effective_mos cfg) 16));
     cdw11    := cdqid cfg;
     cdw12    := 0;
     cdw13    := 0;
     cdw14    := 0;
     cdw15    := 0;
     addr     := 0;
     data_len := 0 |}.

Definition lm_track_send (w : world) (cfg : config) : result :=
  let err := parse_and_open w in
  if negb (err =? 0) then (Return err, [])
  else if select cfg =? -1
  then (Return (- EINVAL), [ShowError "Select field required" []])
  else if negb (select cfg =? TRACK_SEND_SELECT_LOG_USER_DATA_CHANGES)
  then (Return (- EINVAL),
        [ShowError "Unsupported select option %d (%s)"
           [AInt (select cfg);
            AStr (arg_str lm_track_send_select_argstr (select cfg))]])
  else if start cfg && stop cfg
  then (Return (- EINVAL),
        [ShowError "Must select one of start & stop, not both" []])
  else
    let cmd := make_cmd cfg in
    let '(err, _) := nvme_submit_admin_passthru w cmd in
    (Return err,
     Submit cmd ::
     report_submit err
       [Printf "Track Send (%s) Successful\n"
          [AStr (arg_str lm_track_send_select_argstr (select cfg))]]
       [ShowError "ERROR: nvme_submit_admin_passthru() failed %s"
          [AStr (strerror w (errno w))]]).

End TrackSend.

(* ------------------------------------------------------------------ *)
(** ** Migration Send *)

Definition MIGRATION_SEND_SUSPEND              : Z := 0.
Definition MIGRATION_SEND_RESUME               : Z := 1.
Definition MIGRATION_SEND_SET_CONTROLLER_STATE : Z := 2.

Definition lm_migration_send_select_argstr : list string :=
  ["Suspend"; "Resume"; "Set Controller State"]%string.

Module MigrationSend.

Record config : Type := mk_config {
  sel     : Z;               (* __u8  *)
  stype   : Z;               (* __u8  *)
  seqind  : Z;               (* __u8  *)
  csuuidi : Z;               (* __u8  *)
  csvi    : Z;               (* __u8  *)
  cntlid  : Z;               (* __u16 *)
  offset  : Z;               (* __u64 *)
  numd    : Z;               (* __u32 *)
  input   : option string;   (* char *, None for NULL *)
  delete  : bool
}.

(** [struct config cfg = { .sel = -1, ... }]. *)
Definition default : config :=
  {| sel := u8 (-1); stype := 0; seqind := 0; csuuidi := 0; csvi := 0;
     cntlid := 0; offset := 0; numd := 0; input := None; delete := false |}.

Definition config_ok (cfg : config) : Prop :=
  is_u8 (sel cfg) /\ is_u8 (stype cfg) /\ is_u8 (seqind cfg) /\
  is_u8 (csuuidi cfg) /\ is_u8 (csvi cfg) /\ is_u16 (cntlid cfg) /\
  is_u64 (offset cfg) /\ is_u32 (numd cfg).

Definition unexpected_fields (cfg : config) : result :=
  (Return (- EINVAL),
   [ShowError "Unexpected fields for %s"
      [AStr (arg_str lm_migration_send_select_argstr (sel cfg))]]).

(** The block under "Sanity check input parameters": [Some r] when it
    returns [r], [None] when control falls through. *)
Definition sanity_check (cfg : config) : option result :=
  if (sel cfg =? MIGRATION_SEND_SUSPEND) || (sel cfg =? MIGRATION_SEND_RESUME) then
    if negb (csuuidi cfg =? 0) || negb (csvi cfg =? 0)
    then Some (unexpected_fields cfg)
    else None
  else if sel cfg =? MIGRATION_SEND_SET_CONTROLLER_STATE then
    if delete cfg || negb (stype cfg =? 0)
    then Some (unexpected_fields cfg)
    else
      match input cfg with
      | None => Some (Undefined, [])             (* strlen(NULL) *)
      | Some path =>
          if (String.length path =? 0)%nat
          then Some (Return (- EINVAL),
                     [ShowError "Expected file for %s"
                        [AStr (arg_str lm_migration_send_select_argstr (sel cfg))]])
          else None
      end
  else None.

(** The block that reads the input file: [inl r] when it returns [r],
    [inr data] with the value of [data] when control falls through. *)
Definition load_input (w : world) (cfg : config) : result + Z :=
  match input cfg with
  | None => inr 0
  | Some path =>
      if (String.length path =? 0)%nat then inr 0
      else if negb (fopen w path "r")
      then inl (Return (- EINVAL), [ShowPerror path])
      else
        let data := nvme_alloc_huge w (u32 (Z.shiftl (numd cfg) 2)) in
        if data =? 0 then inl (Return (- ENOMEM), [])
        else
          let n_data := fread w path (u32 (Z.shiftl (numd cfg) 2)) in
          if negb (n_data =? u32 (Z.shiftl (numd cfg) 2))
          then inl (Return (- errno w),
                    [ShowError "failed to read controller state data %s"
                       [AStr (strerror w (errno w))]])
          else inr data
  end.

Definition make_cmd (cfg : config) (data : Z) : nvme_passthru_cmd :=
  {| opcode   := NVME_ADMIN_MIGRATION_SEND;
     cdw10    := u32 (Z.lor (int_shl (seqind cfg) 16) (sel cfg));
     cdw11    := u32 (if sel cfg =? MIGRATION_SEND_SET_CONTROLLER_STATE
                      then Z.lor (Z.lor (int_shl (csuuidi cfg) 24)
                                        (int_shl (csvi cfg) 16))
                                 (cntlid cfg)
                      else Z.lor (Z.lor (int_shl (int_of_bool (delete cfg)) 31)
                                        (int_shl (stype cfg) 16))
                                 (cntlid cfg));
     cdw12    := u32 (offset cfg);
     cdw13    := u32 (Z.shiftr (offset cfg) 32);
     cdw14    := 0;
     cdw15    := numd cfg;
     addr     := u64 data;
     data_len := u32 (Z.shiftl (numd cfg) 2) |}.

Definition lm_migration_send (w : world) (cfg : config) : result :=
  let err := parse_and_open w in
  if negb (err =? 0) then (Return err, [])
  else if sel cfg =? -1
  then (Return (- EINVAL), [ShowError "Select field required" []])
  else
    match sanity_check cfg with
    | Some r => r
    | None =>
        match load_input w cfg with
        | inl r => r
        | inr data =>
            let cmd := make_cmd cfg data in
            let '(err, _) := nvme_submit_admin_passthru w cmd in
            (Return err,
             Submit cmd ::
             report_submit err
               [Printf "Migration Send (%s) Successful\n"
                  [AStr (arg_str lm_migration_send_select_argstr (sel cfg))]]
               [ShowError "ERROR: nvme_submit_admin_passthru() failed %s"
                  [AStr (strerror w (errno w))]])
        end
    end.

End MigrationSend.

(* ------------------------------------------------------------------ *)
(** ** Reading the wire structures *)

(** Byte order of the machine the tool runs on. *)
Inductive byte_order : Type :=
| LittleEndian
| BigEndian.

Notation "'let?' x ':=' c 'in' k" :=
  (match c with Some x => k | None => None end)
  (at level 10, x pattern, c at level 100, k at level 200, only parsing).

Module Wire.

Definition byte_val (b : byte) : Z := Z.of_N (Byte.to_N b).

Fixpoint le_value (bs : list byte) : Z :=
  match bs with
  | [] => 0
  | b :: t => byte_val b + 2 ^ 8 * le_value t
  end.

Definition be_value (bs : list byte) : Z := le_value (rev bs).

(** The value an integer object made of the bytes [bs] has on [host]. *)
Definition native (host : byte_order) (bs : list byte) : Z :=
  match host with
  | LittleEndian => le_value bs
  | BigEndian => be_value bs
  end.

(** Bytes [off .. off + n) of the buffer; [None] past its end. *)
Definition bytes_at (data : list byte) (off n : Z) : option (list byte) :=
  if (0 <=? off) && (0 <=? n) && (off + n <=? Z.of_nat (List.length data))
  then Some (firstn (Z.to_nat n) (skipn (Z.to_nat off) data))
  else None.

(** A load of an [n]-byte integer member at byte offset [off]. *)
Definition load (host : byte_order) (data : list byte) (off n : Z) : option Z :=
  option_map (native host) (bytes_at data off n).

(** Byte reversal of an [n]-byte value (__swab16, __swab32, __swab64). *)
Fixpoint swab (n : nat) (x : Z) : Z :=
  match n with
  | O => 0
  | S n' => (x mod 2 ^ 8) * 2 ^ (8 * Z.of_nat n') + swab n' (x / 2 ^ 8)
  end.

Definition le16_to_cpu (host : byte_order) (x : Z) : Z :=
  match host with
  | LittleEndian => u16 x
  | BigEndian => swab 2 (u16 x)
  end.

Definition le32_to_cpu (host : byte_order) (x : Z) : Z :=
  match host with
  | LittleEndian => u32 x
  | BigEndian => swab 4 (u32 x)
  end.

Definition le64_to_cpu (host : byte_order) (x : Z) : Z :=
  match host with
  | LittleEndian => u64 x
  | BigEndian => swab 8 (u64 x)
  end.

(** [le128_to_cpu] takes the sixteen bytes themselves. *)
Definition le128_to_cpu (bs : list byte) : Z := le_value bs.

(** [for (int i = start; i < start + n; i++) body(i)], collecting results. *)
Fixpoint for_loop {A : Type} (n : nat) (i : Z) (body : Z -> option A)
  : option (list A) :=
  match n with
  | O => Some []
  | S n' =>
      let? x := body i in
      let? xs := for_loop n' (i + 1) body in
      Some (x :: xs)
  end.

Definition byte_of_Z (z : Z) : byte :=
  match Byte.of_N (Z.to_N (z mod 2 ^ 8)) with
  | Some b => b
  | None => x00
  end.

(** [n] bytes of [x], least significant first. *)
Fixpoint le_bytes (n : nat) (x : Z) : list byte :=
  match n with
  | O => []
  | S n' => byte_of_Z x :: le_bytes n' (x / 2 ^ 8)
  end.

End Wire.
Import Wire.

(* ------------------------------------------------------------------ *)
(** ** Controller state data: layout *)

Definition sizeof_nvme_io_submission_queue_data : Z := 8 + 2 + 2 + 2 + 2 + 2 + 2 + 4.
Definition sizeof_nvme_io_completion_queue_data : Z := 8 + 2 + 2 + 2 + 2 + 4 + 4.
Definition sizeof_nvme_controller_state_header  : Z := 2 + 2 + 2 + 2.
Definition sizeof_controller_state_data_header  : Z := 2 + 1 + 13 + 16 + 16.

(** [struct controller_state_data_header], members as loaded on the host. *)
Record controller_state_data_header : Type := mk_csd_hdr {
  hdr_ver     : Z;            (* __u16, offset 0   *)
  hdr_csattr  : Z;            (* __u8,  offset 2   *)
  hdr_nvmecss : list byte;    (* __u8[16], offset 16 *)
  hdr_vss     : list byte     (* __u8[16], offset 32 *)
}.

(** [struct nvme_controller_state_header]. *)
Record nvme_controller_state_header : Type := mk_ncs_hdr {
  ncs_ver   : Z;              (* __u16, offset 0 *)
  ncs_niosq : Z;              (* __u16, offset 2 *)
  ncs_niocq : Z               (* __u16, offset 4 *)
}.

(** [struct nvme_io_submission_queue_data]. *)
Record nvme_io_submission_queue_data : Type := mk_sq {
  sq_prp1  : Z;               (* __u64, offset 0  *)
  sq_qsize : Z;               (* __u16, offset 8  *)
  sq_qid   : Z;               (* __u16, offset 10 *)
  sq_cqid  : Z;               (* __u16, offset 12 *)
  sq_attrs : Z;               (* __u16, offset 14 *)
  sq_hp    : Z;               (* __u16, offset 16 *)
  sq_tp    : Z                (* __u16, offset 18 *)
}.

(** [struct nvme_io_completion_queue_data]. *)
Record nvme_io_completion_queue_data : Type := mk_cq {
  cq_prp1  : Z;               (* __u64, offset 0  *)
  cq_qsize : Z;               (* __u16, offset 8  *)
  cq_qid   : Z;               (* __u16, offset 10 *)
  cq_hp    : Z;               (* __u16, offset 12 *)
  cq_tp    : Z;               (* __u16, offset 14 *)
  cq_attrs : Z                (* __u32, offset 16 *)
}.

Module Layout.

(** [data->hdr] *)
Definition hdr (host : byte_order) (data : list byte)
  : option controller_state_data_header :=
  let? ver := load host data 0 2 in
  let? csattr := load host data 2 1 in
  let? nvmecss := bytes_at data 16 16 in
  let? vss := bytes_at data 32 16 in
  Some (mk_csd_hdr ver csattr nvmecss vss).

(** Offset of [data->sdata] and of the flexible arrays [sdata.sq] and
    [sdata.cq], which share one address through the anonymous union. *)
Definition offsetof_sdata : Z := sizeof_controller_state_data_header.
Definition offsetof_queues : Z :=
  offsetof_sdata + sizeof_nvme_controller_state_header.

(** [data->sdata.hdr] *)
Definition sdata_hdr (host : byte_order) (data : list byte)
  : option nvme_controller_state_header :=
  let? ver := load host data (offsetof_sdata + 0) 2 in
  let? niosq := load host data (offsetof_sdata + 2) 2 in
  let? niocq := load host data (offsetof_sdata + 4) 2 in
  Some (mk_ncs_hdr ver niosq niocq).

(** [data->sdata.sq[i]] *)
Definition sq (host : byte_order) (data : list byte) (i : Z)
  : option nvme_io_submission_queue_data :=
  let base := offsetof_queues + i * sizeof_nvme_io_submission_queue_data in
  let? prp1 := load host data (base + 0) 8 in
  let? qsize := load host data (base + 8) 2 in
  let? qid := load host data (base + 10) 2 in
  let? cqid := load host data (base + 12) 2 in
  let? attrs := load host data (base + 14) 2 in
  let? hp := load host data (base + 16) 2 in
  let? tp := load host data (base + 18) 2 in
  Some (mk_sq prp1 qsize qid cqid attrs hp tp).

(** [data->sdata.cq[i]] *)
Definition cq (host : byte_order) (data : list byte) (i : Z)
  : option nvme_io_completion_queue_data :=
  let base := offsetof_queues + i * sizeof_nvme_io_completion_queue_data in
  let? prp1 := load host data (base + 0) 8 in
  let? qsize := load host data (base + 8) 2 in
  let? qid := load host data (base + 10) 2 in
  let? hp := load host data (base + 12) 2 in
  let? tp := load host data (base + 14) 2 in
  let? attrs := load host data (base + 16) 4 in
  Some (mk_cq prp1 qsize qid hp tp attrs).

End Layout.

(* ------------------------------------------------------------------ *)
(** ** Controller state data: the structured rendering *)

Module JsonState.

Definition sq_obj (host : byte_order) (sq : nvme_io_submission_queue_data) : json :=
  JObject
    [("io submission prp entry 1",        JUint64 (le64_to_cpu host (sq_prp1 sq)));
     ("io submission queue size",         JUint (le16_to_cpu host (sq_qsize sq)));
     ("io submission queue identifier",   JUint (le16_to_cpu host (sq_qid sq)));
     ("io completion queue identifier",   JUint (le16_to_cpu host (sq_cqid sq)));
     ("io submission queue attributes",   JUint (le16_to_cpu host (sq_attrs sq)));
     ("io submission queue head pointer", JUint (le16_to_cpu host (sq_hp sq)));
     ("io submission queue tail pointer", JUint (le16_to_cpu host (sq_tp sq)))]%string.

Definition cq_obj (host : byte_order) (cq : nvme_io_completion_queue_data) : json :=
  JObject
    [("io completion prp entry 1",        JUint64 (le64_to_cpu host (cq_prp1 cq)));
     ("io completion queue size",         JUint (le16_to_cpu host (cq_qsize cq)));
     ("io completion queue identifier",   JUint (le16_to_cpu host (cq_qid cq)));
     ("io completion queue head pointer", JUint (le16_to_cpu host (cq_hp cq)));
     ("io completion queue tail pointer", JUint (le16_to_cpu host (cq_tp cq)));
     ("io completion queue attributes",   JUint (le32_to_cpu host (cq_attrs cq)))]%string.

(** The object tree at the time it is printed.  [len] is a parameter of the
    C function and is not used by it. *)
Definition tree (host : byte_order) (data : list byte) (len : Z) : option json :=
  let? h := Layout.hdr host data in
  let? s := Layout.sdata_hdr host data in
  let? iosqs :=
    for_loop (Z.to_nat (ncs_niosq s)) 0
      (fun i => let? sq := Layout.sq host data i in Some (sq_obj host sq)) in
  let? iocqs :=
    for_loop (Z.to_nat (ncs_niocq s)) 0
      (fun i => let? cq := Layout.cq host data i in Some (cq_obj host cq)) in
  Some
    (JObject
       [("version",                      JUint (le16_to_cpu host (hdr_ver h)));
        ("controller state attributes",  JUint (hdr_csattr h));
        ("nvme controller state size",   JUint128 (le128_to_cpu (hdr_nvmecss h)));
        ("vendor specific size",         JUint128 (le128_to_cpu (hdr_vss h)));
        ("nvme controller state",
         JObject
           [("version",                         JUint (le16_to_cpu host (ncs_ver s)));
            ("number of io submission queues",  JUint (le16_to_cpu host (ncs_niosq s)));
            ("number of io completion queues",  JUint (le16_to_cpu host (ncs_niocq s)));
            ("io submission queue list",        JArray iosqs);
            ("io completion queue list",        JArray iocqs)])])%string.

Definition json_controller_state_data (host : byte_order) (data : list byte)
  (len : Z) : option (list event) :=
  let? root := tree host data len in
  Some [JsonPrint root; Printf "\n" []].

End JsonState.

(* ------------------------------------------------------------------ *)
(** ** Controller state data: the text rendering *)

Module TextState.

(** [printf("%-45s: 0x%x\n", label, v)] and its variants. *)
Definition field (fmt label : string) (v : Z) : event :=
  Printf fmt [AStr label; AInt v].

Definition not_unless (bit : Z) : arg :=
  AStr (if negb (bit =? 0) then ""%string else "NOT "%string).

(** The two 128-bit sizes are printed through uint128_t_to_string; the
    event records the number that string denotes. *)
Definition show_hdr (h : controller_state_data_header) (human : bool) : list event :=
  [Printf "Header:\n" [];
   field "%-45s: 0x%x\n" "Version (VER)" (hdr_ver h);
   field "%-45s: 0x%x\n" "Controller State Attributes (CSATTR)" (hdr_csattr h)]
  ++ (if human
      then [Printf "  [0:0] : 0x%x Controller %sSuspended\n"
              [AInt (Z.land (hdr_csattr h) 1);
               not_unless (Z.land (hdr_csattr h) 1)]]
      else [])
  ++ [field "%-45s: %s\n" "NVMe Controller State Size (NVMECSS)"
        (le128_to_cpu (hdr_nvmecss h));
      field "%-45s: %s\n" "Vendor Specific Size (VSS)"
        (le128_to_cpu (hdr_vss h))].

Definition show_sq (host : byte_order) (sq : nvme_io_submission_queue_data)
  (i : Z) (human : bool) : list event :=
  let attrs := le16_to_cpu host (sq_attrs sq) in
  [Printf "\nNVMe I/O Submission Queue Data [%d]:\n" [AInt i];
   field "%-45s: 0x%lx\n" "PRP Entry 1 (IOSQPRP1)" (le64_to_cpu host (sq_prp1 sq));
   field "%-45s: 0x%x\n" "Queue Size (IOSQQSIZE)" (le16_to_cpu host (sq_qsize sq));
   field "%-45s: 0x%x\n" "Identifier (IOSQQID)" (le16_to_cpu host (sq_qid sq));
   field "%-45s: 0x%x\n" "Completion Queue Identifier (IOSQCQID)"
     (le16_to_cpu host (sq_cqid sq));
   field "%-45s: 0x%x\n" "Attributes (IOSQA)" attrs]
  ++ (if human
      then [Printf "  [2:1] : 0x%x Queue Priority (IOSQQPRIO)\n"
              [AInt (Z.shiftr (Z.land attrs 0x6) 1)];
            Printf "  [0:0] : 0x%x Queue %sPhysically Contiguous (IOSQPC)\n"
              [AInt (Z.land attrs 1); not_unless (Z.land attrs 1)]]
      else [])
  ++ [field "%-45s: 0x%x\n" "I/O Submission Queue Head Pointer (IOSQHP)"
        (le16_to_cpu host (sq_hp sq));
      field "%-45s: 0x%x\n" "I/O Submission Queue Tail Pointer (IOSQTP)"
        (le16_to_cpu host (sq_tp sq))].

Definition show_cq (host : byte_order) (cq : nvme_io_completion_queue_data)
  (i : Z) (human : bool) : list event :=
  let attrs := le32_to_cpu host (cq_attrs cq) in
  [Printf "\nNVMe I/O Completion Queue Data [%d]:\n" [AInt i];
   field "%-45s: 0x%lx\n" "I/O Completion PRP Entry 1 (IOCQPRP1)"
     (le64_to_cpu host (cq_prp1 cq));
   field "%-45s: 0x%x\n" "I/O Completion Queue Size (IOCQQSIZE)"
     (le16_to_cpu host (cq_qsize cq));
   field "%-45s: 0x%x\n" "I/O Completion Queue Identifier"
     (le16_to_cpu host (cq_qid cq));
   field "%-45s: 0x%x\n" "I/O Completion Queue Head Pointer (IOSQHP)"
     (le16_to_cpu host (cq_hp cq));
   field "%-45s: 0x%x\n" "I/O Completion Queue Tail Pointer (IOSQTP)"
     (le16_to_cpu host (cq_tp cq));
   field "%-45s: 0x%x\n" "I/O Completion Queue Attributes (IOCQA)" attrs]
  ++ (if human
      then [Printf "  [31:16] : 0x%x I/O Completion Queue Interrupt Vector (IOCQIV)\n"
              [AInt (Z.shiftr attrs 16)];
            Printf "  [2:2] : 0x%x Slot 0 Phase Tag\n"
              [AInt (Z.land (Z.shiftr attrs 2) 1)];
            Printf "  [1:1] : 0x%x Interrupts %sEnabled (IOCQIEN)\n"
              [AInt (Z.land (Z.shiftr attrs 1) 1); not_unless (Z.land attrs 0x2)];
            Printf "  [0:0] : 0x%x Queue %sPhysically Contiguous (IOCQPC)\n"
              [AInt (Z.land (Z.shiftr attrs 0) 1); not_unless (Z.land attrs 0x1)]]
      else []).

(** The count the loop over a queue array runs to, and the warning printed
    when the remaining length does not hold [n] records of [size] bytes. *)
Definition sq_count (len niosq : Z) : Z :=
  if len <? niosq * sizeof_nvme_io_submission_queue_data
  then len / sizeof_nvme_io_submission_queue_data
  else niosq.

Definition sq_warning (len niosq : Z) : list event :=
  if len <? niosq * sizeof_nvme_io_submission_queue_data
  then [Eprintf "WARNING: I/O Submission Queues truncated\n" []]
  else [].

Definition cq_count (len niocq : Z) : Z :=
  if len <? niocq * sizeof_nvme_io_completion_queue_data
  then len / sizeof_nvme_io_completion_queue_data
  else niocq.

Definition cq_warning (len niocq : Z) : list event :=
  if len <? niocq * sizeof_nvme_io_completion_queue_data
  then [Eprintf "WARNING: I/O Completion Queues truncated\n" []]
  else [].

(** The branch taken when the NVMe controller state header fits in [len]
    (the length left after the outer header). *)
Definition show_sdata (host : byte_order) (data : list byte) (len : Z)
  (human : bool) : option (list event) :=
  let? s := Layout.sdata_hdr host data in
  let niosq := ncs_niosq s in
  let niocq := ncs_niocq s in
  let head :=
    [Printf "\nNVMe Controller State Data Structure:\n" [];
     field "%-45s: 0x%x\n" "Version (VER)" (le16_to_cpu host (ncs_ver s));
     field "%-45s: %d\n" "Number of I/O Submission Queues (NIOSQ)"
       (le16_to_cpu host niosq);
     field "%-45s: %d\n" "Number of I/O Completion Queues (NIOCQ)"
       (le16_to_cpu host niocq)] in
  let len := len - sizeof_nvme_controller_state_header in
  let sq_warn := sq_warning len niosq in
  let niosq := sq_count len niosq in
  let? sqs :=
    for_loop (Z.to_nat niosq) 0
      (fun i => let? sq := Layout.sq host data i in Some (show_sq host sq i human)) in
  let len := len - niosq * sizeof_nvme_io_submission_queue_data in
  let cq_warn := cq_warning len niocq in
  let niocq := cq_count len niocq in
  let? cqs :=
    for_loop (Z.to_nat niocq) 0
      (fun i => let? cq := Layout.cq host data (niosq + i) in
                Some (show_cq host cq i human)) in
  Some (head ++ sq_warn ++ List.concat sqs ++ cq_warn ++ List.concat cqs).

(** The part of show_controller_state_data after the BINARY, offset and
    JSON exits. *)
Definition show_text (host : byte_order) (data : list byte) (len : Z)
  (human : bool) : option (list event) :=
  let? (out, len) :=
    if sizeof_controller_state_data_header <=? len
    then let? h := Layout.hdr host data in
         Some (show_hdr h human, len - sizeof_controller_state_data_header)
    else Some ([Eprintf "WARNING: Header truncated\n" []], 0) in
  if len =? 0 then Some out
  else if sizeof_nvme_controller_state_header <=? len
  then let? rest := show_sdata host data len human in Some (out ++ rest)
  else Some (out ++
             [Eprintf "WARNING: NVMe Controller State Data Structure truncated\n" []]).

End TextState.

Definition show_controller_state_data (host : byte_order) (data : list byte)
  (len : Z) (offset : Z) (flags : nvme_print_flags) : option (list event) :=
  if BINARY flags
  then let? raw := bytes_at data 0 len in Some [DRaw raw]
  else if negb (offset =? 0)
  then Some [ShowError "Cannot parse non-zero offset" []]
  else if JSON flags
  then JsonState.json_controller_state_data host data len
  else TextState.show_text host data len (VERBOSE flags).

(* ------------------------------------------------------------------ *)
(** ** Migration Receive *)

Definition MIGRATION_RECV_GET_CONTROLLER_STATE : Z := 0.

(** [s && strlen(s)] *)
Definition nonempty (s : option string) : bool :=
  match s with
  | Some p => negb (String.length p =? 0)%nat
  | None => false
  end.

(** [s] as a condition: the pointer is not NULL. *)
Definition non_null (s : option string) : bool :=
  match s with
  | Some _ => true
  | None => false
  end.

Module MigrationRecv.

Record config : Type := mk_config {
  cntlid         : Z;               (* __u16 *)
  csuuidi        : Z;               (* __u8  *)
  csvi           : Z;               (* __u8  *)
  offset         : Z;               (* __u64 *)
  numd           : Z;               (* __u32 *)
  output         : option string;   (* char * *)
  output_format  : option string;   (* char * *)
  human_readable : bool
}.

Definition default : config :=
  {| cntlid := 0; csuuidi := 0; csvi := 0; offset := 0; numd := 0;
     output := None; output_format := Some "normal"%string;
     human_readable := false |}.

Definition config_ok (cfg : config) : Prop :=
  is_u16 (cntlid cfg) /\ is_u8 (csuuidi cfg) /\ is_u8 (csvi cfg) /\
  is_u64 (offset cfg) /\ is_u32 (numd cfg).

(** [(cfg.numd + 1) << 2] in [__u32] arithmetic. *)
Definition buffer_len (cfg : config) : Z :=
  u32 (Z.shiftl (u32 (numd cfg + 1)) 2).

Definition make_cmd (cfg : config) (data : Z) : nvme_passthru_cmd :=
  {| opcode   := NVME_ADMIN_MIGRATION_RECEIVE;
     cdw10    := u32 (Z.lor (int_shl (csvi cfg) 16) MIGRATION_RECV_GET_CONTROLLER_STATE);
     cdw11    := u32 (Z.lor (int_shl (csuuidi cfg) 16) (cntlid cfg));
     cdw12    := u32 (offset cfg);
     cdw13    := u32 (Z.shiftr (offset cfg) 32);
     cdw14    := 0;
     cdw15    := numd cfg;
     addr     := u64 data;
     data_len := buffer_len cfg |}.

(** The line printed first when the submit returned zero. *)
Definition cdw0_line (flags : nvme_print_flags) (res : Z) : list event :=
  if is_NORMAL flags
  then [Printf "CDW0: 0x%x: Controller %sSuspended\n"
          [AInt res;
           AStr (if Z.land res 0x1 =? 0x1 then ""%string else "NOT "%string)]]
  else [].

(** What follows that line in the [else] branch taken when the submit
    returned zero: the write to the output file or the rendering of the
    buffer.  [fd_ok] tells whether [fd] is a stream; [fd < 0] never holds,
    so a failed fopen goes unnoticed until the stream is written to.
    [None] when the fwrite or the rendering is undefined (a null stream, a
    read past the end of the buffer). *)
Definition on_success (host : byte_order) (w : world) (cfg : config)
  (flags : nvme_print_flags) (fd_ok : bool) (cmd : nvme_passthru_cmd)
  : option (list event) :=
  let data := buffer_after w cmd in
  if nonempty (output cfg) then
    if fd_ok then
      let n := u32 (Z.shiftl (numd cfg) 2) in
      let? bytes := bytes_at data 0 n in
      Some ([FWrite bytes] ++
            (if negb (fwrite w n =? n)
             then [ShowError "ERROR: %s: failed to write buffer to output file"
                     [AStr (strerror w (errno w))]]
             else []))
    else None
  else
    show_controller_state_data host data (buffer_len cfg) (u32 (offset cfg)) flags.

(** An undefined run keeps in its trace what was output before the call
    that is undefined. *)
Definition lm_migration_recv (host : byte_order) (w : world) (cfg : config)
  : result :=
  let err := parse_and_open w in
  if negb (err =? 0) then (Return err, [])
  else
    let '(err, flags) := validate_output_format w (output_format cfg) in
    if err <? 0 then (Return err, [ShowError "Invalid output format" []])
    else if non_null (output_format cfg)
            && negb (offset cfg =? 0) && negb (BINARY flags)
    then (Return (- EINVAL), [ShowError "cannot parse non-zero offset" []])
    else
      let flags :=
        if human_readable cfg
        then mk_flags true (JSON flags) (BINARY flags)
        else flags in
      let fd_ok :=
        match output cfg with
        | Some path => nonempty (output cfg) && fopen w path "w"
        | None => false
        end in
      let data := nvme_alloc_huge w (buffer_len cfg) in
      if data =? 0 then (Return (- ENOMEM), [])
      else
        let cmd := make_cmd cfg data in
        let '(err, res) := nvme_submit_admin_passthru w cmd in
        if err <? 0
        then (Return 0,
              [Submit cmd;
               ShowError "ERROR: nvme_submit_admin_passthru() failed %s"
                 [AStr (nvme_strerror w (errno w))]])
        else if negb (err =? 0)
        then (Return 0, [Submit cmd; ShowStatus err])
        else
          match on_success host w cfg flags fd_ok cmd with
          | Some out => (Return 0, Submit cmd :: cdw0_line flags res ++ out)
          | None => (Undefined, Submit cmd :: cdw0_line flags res)
          end.

End MigrationRecv.

(* ------------------------------------------------------------------ *)
(** ** The CDQ feature *)

Definition lm_cdq_feature_id : Z := 0x21.

Module SetCdq.

Record config : Type := mk_config {
  cdqid : Z;        (* __u16 *)
  hp    : Z;        (* __u32 *)
  tpt   : Z         (* __s32 *)
}.

Definition default : config := {| cdqid := 0; hp := 0; tpt := -1 |}.

Definition config_ok (cfg : config) : Prop :=
  is_u16 (cdqid cfg) /\ is_u32 (hp cfg) /\ is_s32 (tpt cfg).

Definition make_args (cfg : config) : nvme_features_args :=
  {| fid        := lm_cdq_feature_id;
     f_cdw11    := u32 (Z.lor (cdqid cfg)
                              (if 0 <=? tpt cfg then int_shl 1 31 else 0));
     f_cdw12    := hp cfg;
     f_cdw13    := u32 (tpt cfg);
     f_data_len := 0 |}.

Definition lm_set_cdq (w : world) (cfg : config) : result :=
  let err := parse_and_open w in
  if negb (err =? 0) then (Return err, [])
  else
    let args := make_args cfg in
    let err := nvme_set_features w args in
    (Return err,
     SetFeatures args ::
     report_submit err
       [Printf "Success. Head Pointer: %d\n" [AInt (hp cfg)]]
       [ShowError "ERROR: nvme_set_features() failed %s"
          [AStr (nvme_strerror w (errno w))]]).

End SetCdq.

Module GetCdq.

(** [sizeof(struct controller_data_queue_fid_data)]: hp, tpt, rsvd8[504]. *)
Definition sizeof_controller_data_queue_fid_data : Z := 4 + 4 + 504.

Record config : Type := mk_config {
  cdqid         : Z;                (* __u16 *)
  output_format : option string
}.

Definition default : config :=
  {| cdqid := 0; output_format := Some "normal"%string |}.

Definition json_lm_controller_data_queue (host : byte_order) (data : list byte)
  : option (list event) :=
  let? hp := load host data 0 4 in
  let? tpt := load host data 4 4 in
  Some [JsonPrint
          (JObject [("head_pointer", JUint (le32_to_cpu host hp));
                    ("tail_pointer_trigger", JUint (le32_to_cpu host tpt))]%string);
        Printf "\n" []].

Definition lm_show_controller_data_queue (host : byte_order) (data : list byte)
  (flags : nvme_print_flags) : option (list event) :=
  if JSON flags then json_lm_controller_data_queue host data
  else if BINARY flags
  then let? raw := bytes_at data 0 sizeof_controller_data_queue_fid_data in
       Some [DRaw raw]
  else
    let? hp := load host data 0 4 in
    let? tpt := load host data 4 4 in
    Some [Printf "Head Pointer: 0x%x\n" [AInt (le32_to_cpu host hp)];
          Printf "Tail Pointer Trigger: 0x%x\n" [AInt (le32_to_cpu host tpt)]].

Definition make_args (cfg : config) : nvme_features_args :=
  {| fid        := lm_cdq_feature_id;
     f_cdw11    := cdqid cfg;
     f_cdw12    := 0;
     f_cdw13    := 0;
     f_data_len := sizeof_controller_data_queue_fid_data |}.

Definition lm_get_cdq (host : byte_order) (w : world) (cfg : config) : result :=
  let err := parse_and_open w in
  if negb (err =? 0) then (Return err, [])
  else
    let '(err, flags) := validate_output_format w (output_format cfg) in
    if err <? 0 then (Return err, [ShowError "Invalid output format" []])
    else
      let args := make_args cfg in
      let '(err, data) := nvme_get_features w args in
      if err =? 0 then
        match lm_show_controller_data_queue host data flags with
        | Some out => (Return err, GetFeatures args :: out)
        | None => (Undefined, [GetFeatures args])
        end
      else
        (Return err,
         GetFeatures args ::
         report_submit err []
           [ShowError "ERROR: nvme_get_features() failed %s"
              [AStr (nvme_strerror w (errno w))]]).

End GetCdq.

(* ------------------------------------------------------------------ *)
(** ** Concrete worlds and buffers used in the examples *)

Module Examples.

(** A world in which every collaborator succeeds: the allocator returns
    0x1000, files open and are read in full, and the device completes a
    command with status [status] and result word 0, leaving [buf] in the
    data buffer. *)
Definition world_of (status : Z) (buf : list byte) : world :=
  {| parse_and_open := 0;
     validate_output_format := fun _ => (0, NORMAL);
     nvme_alloc_huge := fun _ => 0x1000;
     fopen := fun _ _ => true;
     fread := fun _ n => n;
     fwrite := fun n => n;
     errno := 0;
     strerror := fun _ => EmptyString;
     nvme_strerror := fun _ => EmptyString;
     nvme_submit_admin_passthru := fun _ => (status, 0);
     buffer_after := fun _ => buf;
     nvme_set_features := fun _ => status;
     nvme_get_features := fun _ => (status, buf) |}.

Definition w0 : world := world_of 0 [].

(** The same world with another output format selected. *)
Definition with_flags (w : world) (f : nvme_print_flags) : world :=
  {| parse_and_open := parse_and_open w;
     validate_output_format := fun _ => (0, f);
     nvme_alloc_huge := nvme_alloc_huge w;
     fopen := fopen w;
     fread := fread w;
     fwrite := fwrite w;
     errno := errno w;
     strerror := strerror w;
     nvme_strerror := nvme_strerror w;
     nvme_submit_admin_passthru := nvme_submit_admin_passthru w;
     buffer_after := buffer_after w;
     nvme_set_features := nvme_set_features w;
     nvme_get_features := nvme_get_features w |}.

Definition json_flags : nvme_print_flags := mk_flags false true false.

Definition zeros (n : nat) : list byte := repeat x00 n.

(** Device-side images of the wire structures, little-endian as the
    protocol prescribes. *)
Definition outer_header (ver csattr : Z) : list byte :=
  le_bytes 2 ver ++ le_bytes 1 csattr ++ zeros 13 ++ zeros 16 ++ zeros 16.

Definition state_header (ver niosq niocq : Z) : list byte :=
  le_bytes 2 ver ++ le_bytes 2 niosq ++ le_bytes 2 niocq ++ zeros 2.

Definition sq_record (prp1 qsize qid cqid attrs hp tp : Z) : list byte :=
  le_bytes 8 prp1 ++ le_bytes 2 qsize ++ le_bytes 2 qid ++ le_bytes 2 cqid ++
  le_bytes 2 attrs ++ le_bytes 2 hp ++ le_bytes 2 tp ++ zeros 4.

Definition cq_record (prp1 qsize qid hp tp attrs : Z) : list byte :=
  le_bytes 8 prp1 ++ le_bytes 2 qsize ++ le_bytes 2 qid ++ le_bytes 2 hp ++
  le_bytes 2 tp ++ le_bytes 4 attrs ++ zeros 4.

(** 48 + 8 + 24 bytes declaring niosq = 2, niocq = 0. *)
Definition one_of_two : list byte :=
  outer_header 1 0 ++ state_header 1 2 0 ++ sq_record 0xA000 64 1 1 1 3 7.

(** One submission queue followed by one completion queue. *)
Definition sq_then_cq : list byte :=
  outer_header 1 0 ++ state_header 1 1 1 ++
  sq_record 0x1111 64 1 1 1 3 7 ++ cq_record 0x2222 32 1 2 5 0x00030003.

(** The outer header alone, version 1. *)
Definition header_only : list byte := outer_header 1 1.

(** Header, state header declaring one submission queue, and that queue. *)
Definition one_sq : list byte :=
  outer_header 1 0 ++ state_header 1 1 0 ++ sq_record 0xA000 64 1 1 1 3 7.

(** Migration Send requests. *)
Definition set_state_request : MigrationSend.config :=
  MigrationSend.mk_config MIGRATION_SEND_SET_CONTROLLER_STATE 0 3 1 2 5 0 4
    (Some "state.bin"%string) false.

Definition suspend_with_payload : MigrationSend.config :=
  MigrationSend.mk_config MIGRATION_SEND_SUSPEND 1 0 0 0 5 0 1
    (Some "state.bin"%string) false.

Definition suspend_with_numd : MigrationSend.config :=
  MigrationSend.mk_config MIGRATION_SEND_SUSPEND 1 0 0 0 5 0 1 None false.

Definition select_3 : MigrationSend.config :=
  MigrationSend.mk_config 3 0 0 0 0 5 0 0 None false.

End Examples.

(** Number of submission-queue records in a text report. *)
Fixpoint sq_records (t : list event) : nat :=
  match t with
  | [] => 0
  | Printf fmt _ :: t' =>
      if String.eqb fmt "\nNVMe I/O Submission Queue Data [%d]:\n"
      then S (sq_records t') else sq_records t'
  | _ :: t' => sq_records t'
  end.

(** Number of completion-queue records in a text report. *)
Fixpoint cq_records (t : list event) : nat :=
  match t with
  | [] => 0
  | Printf fmt _ :: t' =>
      if String.eqb fmt "\nNVMe I/O Completion Queue Data [%d]:\n"
      then S (cq_records t') else cq_records t'
  | _ :: t' => cq_records t'
  end.

(** The standard-error lines of a report. *)
Fixpoint warnings (t : list event) : list string :=
  match t with
  | [] => []
  | Eprintf fmt _ :: t' => fmt :: warnings t'
  | _ :: t' => warnings t'
  end.

(** Member [k] of a JSON object. *)
Fixpoint assoc (k : string) (fields : list (string * json)) : option json :=
  match fields with
  | [] => None
  | (k', v) :: rest => if String.eqb k k' then Some v else assoc k rest
  end.

Definition member (k : string) (j : json) : option json :=
  match j with
  | JObject fields => assoc k fields
  | _ => None
  end.

Definition items (j : json) : list json :=
  match j with
  | JArray l => l
  | _ => []
  end.

(** The array stored under [k] in the "nvme controller state" object. *)
Definition state_list (k : string) (root : json) : list json :=
  match member "nvme controller state" root with
  | Some st =>
      match member k st with
      | Some l => items l
      | None => []
      end
  | None => []
  end.

(** The value printed under [label] by the first line that carries it. *)
Fixpoint printed (label : string) (t : list event) : option Z :=
  match t with
  | [] => None
  | Printf _ [AStr l; AInt v] :: t' =>
      if String.eqb l label then Some v else printed label t'
  | _ :: t' => printed label t'
  end.

(* ================================================================== *)
(** * Properties *)

(** Range conditions on closed terms. *)
Ltac solve_ranges :=
  vm_compute; repeat split; try discriminate; try (intro; discriminate).

(** ** Integer conversions *)

Section Conversions.

Local Ltac unfold_ranges :=
  unfold is_u8, is_u16, is_u32, is_u64, is_s32 in *.

Lemma u32_small (x : Z) : is_u32 x -> u32 x = x.
Proof. unfold_ranges; intros H; unfold u32; apply Z.mod_small; exact H. Qed.

Lemma u32_s32 (x : Z) : u32 (s32 x) = u32 x.
Proof.
  unfold u32, s32.
  rewrite Zminus_mod, Zmod_mod, <- Zminus_mod.
  f_equal; lia.
Qed.

Lemma u32_lor (x y : Z) : u32 (Z.lor x y) = Z.lor (u32 x) (u32 y).
Proof.
  unfold u32.
  rewrite <- !Z.land_ones by lia.
  apply Z.land_lor_distr_l.
Qed.

Lemma u32_int_shl (x n : Z) :
  0 <= n -> 0 <= x -> x * 2 ^ n < 2 ^ 32 -> u32 (int_shl x n) = Z.shiftl x n.
Proof.
  intros Hn Hx Hlt.
  unfold int_shl; rewrite u32_s32.
  apply u32_small; unfold_ranges.
  rewrite Z.shiftl_mul_pow2 by exact Hn.
  split; [ | exact Hlt].
  apply Z.mul_nonneg_nonneg; [exact Hx | apply Z.pow_nonneg; lia].
Qed.

Lemma u32_int_shl_u8_24 (x : Z) : is_u8 x -> u32 (int_shl x 24) = Z.shiftl x 24.
Proof. unfold_ranges; intros H; apply u32_int_shl; lia. Qed.

Lemma u32_int_shl_u8_16 (x : Z) : is_u8 x -> u32 (int_shl x 16) = Z.shiftl x 16.
Proof. unfold_ranges; intros H; apply u32_int_shl; lia. Qed.

Lemma u32_int_shl_u16_16 (x : Z) : is_u16 x -> u32 (int_shl x 16) = Z.shiftl x 16.
Proof. unfold_ranges; intros H; apply u32_int_shl; lia. Qed.

Lemma u32_u16 (x : Z) : is_u16 x -> u32 x = x.
Proof. unfold_ranges; intros H; apply u32_small; unfold_ranges; lia. Qed.

Lemma u32_u8 (x : Z) : is_u8 x -> u32 x = x.
Proof. unfold_ranges; intros H; apply u32_small; unfold_ranges; lia. Qed.

(** A [__u8] never compares equal to the [int] -1. *)
Lemma u8_never_minus_one (x : Z) : is_u8 x -> (x =? -1) = false.
Proof. unfold_ranges; intros H; apply Z.eqb_neq; lia. Qed.

End Conversions.

(** ** Reporting *)

Lemma report_submit_submits_nothing (err : Z) (ok failed : list event) :
  submitted ok = [] -> submitted failed = [] ->
  submitted (report_submit err ok failed) = [].
Proof.
  intros Hok Hfailed; unfold report_submit.
  destruct (err =? 0); [exact Hok | ].
  destruct (0 <? err); [reflexivity | exact Hfailed].
Qed.

(** ** Create CDQ *)

Section CreateCdqFacts.
Import CreateCdq.

Lemma entry_size_in_dwords :
  Z.shiftr sizeof_lba_migration_queue_entry_type_0 2 = 8.
Proof. reflexivity. Qed.

(** C8.  A Create CDQ request whose size is not a multiple of 8 dwords is
    answered with EINVAL and hands nothing to the transport; a size that is
    a multiple of 8 passes the check: the handler goes on to allocate the
    queue and, unless the allocation fails, submits the command built from
    the request. *)
Theorem create_cdq_size_multiple_of_8 (w : world) (cfg : config) :
  parse_and_open w = 0 ->
  (sz cfg mod 8 <> 0 ->
     lm_create_cdq w cfg =
       (Return EINVAL,
        [ShowError "ERROR: Size must be dword multiple of queue entry size" []])
     /\ submitted (snd (lm_create_cdq w cfg)) = [])
  /\
  (sz cfg mod 8 = 0 ->
     let queue := nvme_alloc_huge w (u32 (Z.shiftl (sz cfg) 2)) in
     (queue = 0 ->
        fst (lm_create_cdq w cfg) = Return (- ENOMEM)
        /\ submitted (snd (lm_create_cdq w cfg)) = [])
     /\
     (queue <> 0 ->
        fst (lm_create_cdq w cfg)
          = Return (fst (nvme_submit_admin_passthru w (make_cmd cfg queue)))
        /\ submitted (snd (lm_create_cdq w cfg)) = [make_cmd cfg queue])).
Proof.
  intros Hparse.
  unfold lm_create_cdq.
  rewrite Hparse, entry_size_in_dwords; cbn [negb Z.eqb].
  split.
  - intros Hmod.
    apply Z.eqb_neq in Hmod; rewrite Hmod; cbn.
    split; reflexivity.
  - intros Hmod.
    apply Z.eqb_eq in Hmod; rewrite Hmod; cbn [negb].
    set (queue := nvme_alloc_huge w (u32 (Z.shiftl (sz cfg) 2))).
    split; intros Hq.
    + rewrite Hq; cbn; split; reflexivity.
    + apply Z.eqb_neq in Hq; rewrite Hq.
      destruct (nvme_submit_admin_passthru w (make_cmd cfg queue)) as [err res].
      cbn [fst snd submitted].
      split; [reflexivity | ].
      f_equal; apply report_submit_submits_nothing; reflexivity.
Qed.

(** Size 7 is refused, size 8 goes through to the transport. *)
Lemma create_cdq_size_7_and_8 :
  (lm_create_cdq Examples.w0 (mk_config 7 0 0 false) =
     (Return EINVAL,
      [ShowError "ERROR: Size must be dword multiple of queue entry size" []])
   /\ submitted (snd (lm_create_cdq Examples.w0 (mk_config 7 0 0 false))) = [])
  /\
  (fst (lm_create_cdq Examples.w0 (mk_config 8 0 0 false)) = Return 0
   /\ submitted (snd (lm_create_cdq Examples.w0 (mk_config 8 0 0 false)))
      = [make_cmd (mk_config 8 0 0 false) 0x1000]).
Proof.
  split.
  - apply (create_cdq_size_multiple_of_8 Examples.w0 (mk_config 7 0 0 false));
      [reflexivity | discriminate].
  - apply (create_cdq_size_multiple_of_8 Examples.w0 (mk_config 8 0 0 false));
      [reflexivity | reflexivity | discriminate].
Defined.

End CreateCdqFacts.

(** ** Track Send *)

Section TrackSendFacts.
Import TrackSend.

(** C9.  A Track Send request with both the start and the stop flag is
    answered with -EINVAL whatever its other fields are, and nothing is
    handed to the transport; with the one supported select code the answer
    is the start/stop diagnostic itself. *)
Theorem track_send_start_and_stop_rejected (w : world) (cfg : config) :
  parse_and_open w = 0 ->
  start cfg = true ->
  stop cfg = true ->
  fst (lm_track_send w cfg) = Return (- EINVAL)
  /\ submitted (snd (lm_track_send w cfg)) = []
  /\ (select cfg = TRACK_SEND_SELECT_LOG_USER_DATA_CHANGES ->
      lm_track_send w cfg =
        (Return (- EINVAL),
         [ShowError "Must select one of start & stop, not both" []])).
Proof.
  intros Hparse Hstart Hstop.
  unfold lm_track_send.
  rewrite Hparse, Hstart, Hstop; cbn [negb Z.eqb andb].
  destruct (select cfg =? -1) eqn:Hm1.
  - repeat split; try reflexivity.
    intros H0; rewrite H0 in Hm1; discriminate.
  - destruct (select cfg =? TRACK_SEND_SELECT_LOG_USER_DATA_CHANGES) eqn:Hsel;
      cbn [negb].
    + repeat split; reflexivity.
    + repeat split; try reflexivity.
      intros H0; rewrite H0 in Hsel; discriminate.
Qed.

Lemma track_send_start_and_stop_rejected_witness :
  lm_track_send Examples.w0 (mk_config 0 0 3 true true) =
    (Return (- EINVAL),
     [ShowError "Must select one of start & stop, not both" []]).
Proof.
  apply (track_send_start_and_stop_rejected Examples.w0 (mk_config 0 0 3 true true));
    reflexivity.
Defined.

(** X29.  A Track Send request with select 0 and at most one of start
    and stop always reaches the transport: exactly one command is
    submitted, and the handler returns the status of that submit. *)
Lemma track_send_one_flag_submits (w : world) (cfg : config) :
  parse_and_open w = 0 ->
  select cfg = TRACK_SEND_SELECT_LOG_USER_DATA_CHANGES ->
  start cfg && stop cfg = false ->
  submitted (snd (lm_track_send w cfg)) = [make_cmd cfg]
  /\ fst (lm_track_send w cfg)
     = Return (fst (nvme_submit_admin_passthru w (make_cmd cfg))).
Proof.
  intros Hparse Hsel Hflags.
  unfold lm_track_send.
  rewrite Hparse, Hsel, Hflags; cbn [negb Z.eqb].
  change (TRACK_SEND_SELECT_LOG_USER_DATA_CHANGES =? -1) with false.
  change (TRACK_SEND_SELECT_LOG_USER_DATA_CHANGES
          =? TRACK_SEND_SELECT_LOG_USER_DATA_CHANGES) with true.
  cbn [negb].
  destruct (nvme_submit_admin_passthru w (make_cmd cfg)) as [err res].
  cbn [fst snd submitted].
  split; [ | reflexivity].
  f_equal; apply report_submit_submits_nothing; reflexivity.
Qed.

End TrackSendFacts.

(** ** The CDQ feature *)

Section SetCdqFacts.
Import SetCdq.

Lemma set_cdq_issues (w : world) (cfg : config) :
  parse_and_open w = 0 ->
  exists rest,
    lm_set_cdq w cfg
    = (Return (nvme_set_features w (make_args cfg)),
       SetFeatures (make_args cfg) :: rest).
Proof.
  intros Hparse; unfold lm_set_cdq; rewrite Hparse; cbn [negb Z.eqb].
  eexists; reflexivity.
Qed.

(** The has-trigger bit is set exactly for a non-negative trigger, and
    cdw13 carries the 32 bits of the trigger either way. *)
Lemma set_cdq_trigger_bit (cfg : config) :
  is_u16 (cdqid cfg) ->
  Z.testbit (f_cdw11 (make_args cfg)) 31 = (0 <=? tpt cfg)
  /\ f_cdw13 (make_args cfg) = u32 (tpt cfg)
  /\ f_cdw12 (make_args cfg) = hp cfg.
Proof.
  intros Hid; unfold make_args; cbn [f_cdw11 f_cdw12 f_cdw13].
  repeat split.
  rewrite u32_lor, (u32_u16 _ Hid).
  rewrite Z.lor_spec.
  assert (Hlow : Z.testbit (cdqid cfg) 31 = false).
  { unfold is_u16 in Hid.
    destruct (Z.eq_dec (cdqid cfg) 0) as [-> | Hnz]; [reflexivity | ].
    apply Z.bits_above_log2; [lia | ].
    assert (Z.log2 (cdqid cfg) < 16) by (apply Z.log2_lt_pow2; lia).
    lia. }
  rewrite Hlow.
  destruct (0 <=? tpt cfg); reflexivity.
Qed.

(** C10.  The Set Features arguments Set CDQ issues carry the trigger in
    cdw13 as its 32 bits whether or not a trigger was asked for, and tell
    the two cases apart by the has-trigger bit alone: cdw11 is the queue id
    with bit 31 set exactly when tpt >= 0.  With the trigger left at -1
    bit 31 is clear, cdw11 is just the queue id, and cdw13 is 0xFFFFFFFF,
    the sentinel converted to unsigned, not zero; with a trigger given,
    bit 31 is set and cdw13 is the trigger. *)
Theorem set_cdq_no_trigger_sentinel (w : world) (cfg : config) :
  parse_and_open w = 0 ->
  is_u16 (cdqid cfg) ->
  is_s32 (tpt cfg) ->
  exists args rest,
    snd (lm_set_cdq w cfg) = SetFeatures args :: rest
    /\ f_cdw11 args
       = Z.lor (cdqid cfg) (if 0 <=? tpt cfg then Z.shiftl 1 31 else 0)
    /\ Z.testbit (f_cdw11 args) 31 = (0 <=? tpt cfg)
    /\ f_cdw12 args = hp cfg
    /\ f_cdw13 args = tpt cfg mod 2 ^ 32
    /\ (tpt cfg = -1 ->
        Z.testbit (f_cdw11 args) 31 = false
        /\ f_cdw11 args = cdqid cfg
        /\ f_cdw13 args = 0xFFFFFFFF
        /\ f_cdw13 args <> 0)
    /\ (0 <= tpt cfg ->
        Z.testbit (f_cdw11 args) 31 = true
        /\ f_cdw13 args = tpt cfg).
Proof.
  intros Hparse Hid Htpt.
  destruct (set_cdq_issues w cfg Hparse) as [rest Hrun].
  exists (make_args cfg), rest.
  rewrite Hrun; cbn [snd].
  destruct (set_cdq_trigger_bit cfg Hid) as (Hbit & H13 & H12).
  assert (H11 : f_cdw11 (make_args cfg)
                = Z.lor (cdqid cfg) (if 0 <=? tpt cfg then Z.shiftl 1 31 else 0)).
  { unfold make_args; cbn [f_cdw11].
    rewrite u32_lor, (u32_u16 _ Hid).
    destruct (0 <=? tpt cfg); reflexivity. }
  split; [reflexivity | ].
  split; [exact H11 | ].
  split; [exact Hbit | ].
  split; [exact H12 | ].
  split; [exact H13 | ].
  split.
  - intros Hm1.
    rewrite Hbit, H11, H13, Hm1.
    repeat split; try discriminate.
    apply Z.lor_0_r.
  - intros Hpos.
    rewrite Hbit, H13.
    split; [apply Z.leb_le; exact Hpos | ].
    apply u32_small; unfold is_s32 in Htpt; unfold is_u32; lia.
Qed.

Lemma set_cdq_no_trigger_sentinel_witness :
  exists args rest,
    snd (lm_set_cdq Examples.w0 (mk_config 9 4 (-1))) = SetFeatures args :: rest
    /\ f_cdw11 args = Z.lor 9 0
    /\ Z.testbit (f_cdw11 args) 31 = false
    /\ f_cdw12 args = 4
    /\ f_cdw13 args = 0xFFFFFFFF
    /\ (-1 = -1 ->
        Z.testbit (f_cdw11 args) 31 = false
        /\ f_cdw11 args = 9
        /\ f_cdw13 args = 0xFFFFFFFF
        /\ f_cdw13 args <> 0)
    /\ (0 <= -1 ->
        Z.testbit (f_cdw11 args) 31 = true
        /\ f_cdw13 args = -1).
Proof.
  apply (set_cdq_no_trigger_sentinel Examples.w0 (mk_config 9 4 (-1)));
    [reflexivity | solve_ranges | solve_ranges].
Defined.

End SetCdqFacts.

(** ** Migration Send *)

Section MigrationSendFacts.
Import MigrationSend.

Lemma sanity_check_submits_nothing (cfg : config) (r : result) :
  sanity_check cfg = Some r -> submitted (snd r) = [].
Proof.
  unfold sanity_check, unexpected_fields.
  repeat match goal with
         | |- context [if ?c then _ else _] => destruct c
         | |- context [match ?o with Some _ => _ | None => _ end] => destruct o
         end;
    intros H; inversion H; reflexivity.
Qed.

Lemma load_input_submits_nothing (w : world) (cfg : config) (r : result) :
  load_input w cfg = inl r -> submitted (snd r) = [].
Proof.
  unfold load_input.
  repeat match goal with
         | |- context [if ?c then _ else _] => destruct c
         | |- context [match ?o with Some _ => _ | None => _ end] => destruct o
         end;
    intros H; inversion H; reflexivity.
Qed.

Lemma load_input_no_file (w : world) (cfg : config) :
  nonempty (input cfg) = false -> load_input w cfg = inr 0.
Proof.
  unfold load_input, nonempty.
  destruct (input cfg) as [path | ]; [ | reflexivity].
  destruct (String.length path =? 0)%nat; [reflexivity | discriminate].
Qed.

(** What [load_input] leaves in [data] when control falls through. *)
Lemma load_input_data (w : world) (cfg : config) (data : Z) :
  load_input w cfg = inr data ->
  (nonempty (input cfg) = false /\ data = 0)
  \/ (nonempty (input cfg) = true
      /\ data = nvme_alloc_huge w (u32 (Z.shiftl (numd cfg) 2))
      /\ data <> 0).
Proof.
  unfold load_input, nonempty.
  destruct (input cfg) as [path | ].
  - destruct (String.length path =? 0)%nat; cbn [negb].
    + intros H; inversion H; left; split; reflexivity.
    + destruct (fopen w path "r"); cbn [negb]; [ | discriminate].
      destruct (nvme_alloc_huge w (u32 (Z.shiftl (numd cfg) 2)) =? 0) eqn:Hnull;
        [discriminate | ].
      destruct (fread w path (u32 (Z.shiftl (numd cfg) 2))
                =? u32 (Z.shiftl (numd cfg) 2)); cbn [negb]; [ | discriminate].
      intros H; inversion H; right.
      apply Z.eqb_neq in Hnull.
      repeat split; assumption.
  - intros H; inversion H; left; split; reflexivity.
Qed.

(** Every command the handler submits is [make_cmd] applied to the request
    and to the buffer left by [load_input], after both checks fell through. *)
Lemma migration_send_submitted (w : world) (cfg : config) (cmd : nvme_passthru_cmd) :
  In cmd (submitted (snd (lm_migration_send w cfg))) ->
  sanity_check cfg = None
  /\ exists data, load_input w cfg = inr data /\ cmd = make_cmd cfg data.
Proof.
  unfold lm_migration_send.
  destruct (negb (parse_and_open w =? 0)); [intros [] | ].
  destruct (sel cfg =? -1); [intros [] | ].
  destruct (sanity_check cfg) as [r | ] eqn:Hcheck.
  { rewrite (sanity_check_submits_nothing cfg r Hcheck); intros []. }
  destruct (load_input w cfg) as [r | data] eqn:Hload.
  { rewrite (load_input_submits_nothing w cfg r Hload); intros []. }
  destruct (nvme_submit_admin_passthru w (make_cmd cfg data)) as [err res].
  cbn [snd submitted].
  rewrite report_submit_submits_nothing by reflexivity.
  intros [<- | []].
  split; [reflexivity | ].
  exists data; split; reflexivity.
Qed.

(** C1.  Every command Migration Send submits for select =
    SetControllerState has cdw11 = (uuid-index << 24) | (version-index << 16)
    | controller-id. *)
Theorem migration_send_set_state_cdw11 (w : world) (cfg : config)
  (cmd : nvme_passthru_cmd) :
  config_ok cfg ->
  sel cfg = MIGRATION_SEND_SET_CONTROLLER_STATE ->
  In cmd (submitted (snd (lm_migration_send w cfg))) ->
  cdw11 cmd
  = Z.lor (Z.lor (Z.shiftl (csuuidi cfg) 24) (Z.shiftl (csvi cfg) 16))
          (cntlid cfg).
Proof.
  intros (_ & _ & _ & Huuid & Hver & Hid & _) Hsel Hin.
  destruct (migration_send_submitted w cfg cmd Hin) as (_ & data & _ & ->).
  unfold make_cmd; cbn [cdw11].
  rewrite Hsel, Z.eqb_refl.
  rewrite !u32_lor.
  rewrite (u32_int_shl_u8_24 _ Huuid), (u32_int_shl_u8_16 _ Hver), (u32_u16 _ Hid).
  reflexivity.
Qed.

(** uuid-index 1, version-index 2, controller-id 5: the command is
    submitted and its cdw11 is 0x01020005. *)
Lemma migration_send_set_state_cdw11_witness :
  submitted (snd (lm_migration_send Examples.w0 Examples.set_state_request))
  = [make_cmd Examples.set_state_request 0x1000]
  /\ cdw11 (make_cmd Examples.set_state_request 0x1000) = 0x01020005.
Proof.
  split; [reflexivity | ].
  apply (migration_send_set_state_cdw11 Examples.w0 Examples.set_state_request
           (make_cmd Examples.set_state_request 0x1000)).
  - solve_ranges.
  - reflexivity.
  - left; reflexivity.
Defined.

(** Conditions under which the SetControllerState command does reach the
    transport. *)
Lemma migration_send_set_state_submits (w : world) (cfg : config) (path : string) :
  is_u8 (sel cfg) ->
  parse_and_open w = 0 ->
  sel cfg = MIGRATION_SEND_SET_CONTROLLER_STATE ->
  delete cfg = false ->
  stype cfg = 0 ->
  input cfg = Some path ->
  String.length path <> 0%nat ->
  fopen w path "r" = true ->
  nvme_alloc_huge w (u32 (Z.shiftl (numd cfg) 2)) <> 0 ->
  fread w path (u32 (Z.shiftl (numd cfg) 2)) = u32 (Z.shiftl (numd cfg) 2) ->
  submitted (snd (lm_migration_send w cfg))
  = [make_cmd cfg (nvme_alloc_huge w (u32 (Z.shiftl (numd cfg) 2)))].
Proof.
  intros Hu8 Hparse Hsel Hdel Hstype Hinput Hlen Hopen Halloc Hread.
  unfold lm_migration_send, sanity_check, load_input.
  rewrite Hparse, (u8_never_minus_one _ Hu8), Hsel, Hdel, Hstype, Hinput.
  apply Nat.eqb_neq in Hlen; apply Z.eqb_neq in Halloc.
  cbn [negb Z.eqb orb].
  change (MIGRATION_SEND_SET_CONTROLLER_STATE =? MIGRATION_SEND_SUSPEND) with false.
  change (MIGRATION_SEND_SET_CONTROLLER_STATE =? MIGRATION_SEND_RESUME) with false.
  rewrite Z.eqb_refl, Hlen, Hopen, Halloc, Hread, Z.eqb_refl.
  cbn [negb orb].
  destruct (nvme_submit_admin_passthru w _) as [err res].
  cbn [snd submitted].
  f_equal; apply report_submit_submits_nothing; reflexivity.
Qed.

(** C7, as the code has it.  Whatever the select code, a submitted
    Migration Send command has data length numd * 4 (in 32 bits); its buffer
    address is zero when no input file name (or an empty one) was given and
    is the non-null buffer the file was read into otherwise.  With select =
    SetControllerState a command is only submitted when an input file was
    given. *)
Theorem migration_send_buffer (w : world) (cfg : config) (cmd : nvme_passthru_cmd) :
  In cmd (submitted (snd (lm_migration_send w cfg))) ->
  data_len cmd = u32 (Z.shiftl (numd cfg) 2)
  /\ (nonempty (input cfg) = false -> addr cmd = 0)
  /\ (nonempty (input cfg) = true ->
      nvme_alloc_huge w (u32 (Z.shiftl (numd cfg) 2)) <> 0
      /\ addr cmd = u64 (nvme_alloc_huge w (u32 (Z.shiftl (numd cfg) 2))))
  /\ (sel cfg = MIGRATION_SEND_SET_CONTROLLER_STATE ->
      nonempty (input cfg) = true).
Proof.
  intros Hin.
  destruct (migration_send_submitted w cfg cmd Hin) as (Hcheck & data & Hload & ->).
  cbn [data_len addr make_cmd].
  split; [reflexivity | ].
  destruct (load_input_data w cfg data Hload) as [(Hne & ->) | (Hne & -> & Hnz)];
    rewrite Hne.
  - split; [reflexivity | ].
    split; [discriminate | ].
    intros Hsel; exfalso.
    revert Hcheck Hne; unfold sanity_check, nonempty; rewrite Hsel.
    change (MIGRATION_SEND_SET_CONTROLLER_STATE =? MIGRATION_SEND_SUSPEND) with false.
    change (MIGRATION_SEND_SET_CONTROLLER_STATE =? MIGRATION_SEND_RESUME) with false.
    rewrite Z.eqb_refl; cbn [orb].
    destruct (delete cfg || negb (stype cfg =? 0)); [discriminate | ].
    destruct (input cfg) as [path | ]; [ | discriminate].
    destruct (String.length path =? 0)%nat; discriminate.
  - split; [discriminate | ].
    split; [ | reflexivity].
    intros _; split; [exact Hnz | reflexivity].
Qed.

Lemma migration_send_buffer_witness :
  data_len (make_cmd Examples.suspend_with_numd 0) = 4
  /\ (nonempty (input Examples.suspend_with_numd) = false ->
      addr (make_cmd Examples.suspend_with_numd 0) = 0)
  /\ (nonempty (input Examples.suspend_with_numd) = true ->
      nvme_alloc_huge Examples.w0 4 <> 0
      /\ addr (make_cmd Examples.suspend_with_numd 0) = u64 (nvme_alloc_huge Examples.w0 4))
  /\ (sel Examples.suspend_with_numd = MIGRATION_SEND_SET_CONTROLLER_STATE ->
      nonempty (input Examples.suspend_with_numd) = true).
Proof.
  apply (migration_send_buffer Examples.w0 Examples.suspend_with_numd
           (make_cmd Examples.suspend_with_numd 0)).
  left; reflexivity.
Defined.

(** C7 as stated fails: a Suspend request that names an input file is
    submitted with the address of the buffer the file was read into and a
    non-zero data length. *)
Lemma migration_send_suspend_carries_buffer :
  sel Examples.suspend_with_payload = MIGRATION_SEND_SUSPEND
  /\ config_ok Examples.suspend_with_payload
  /\ submitted (snd (lm_migration_send Examples.w0 Examples.suspend_with_payload))
     = [make_cmd Examples.suspend_with_payload 0x1000]
  /\ addr (make_cmd Examples.suspend_with_payload 0x1000) <> 0
  /\ data_len (make_cmd Examples.suspend_with_payload 0x1000) <> 0.
Proof.
  split; [reflexivity | ].
  split; [solve_ranges | ].
  split; [reflexivity | ].
  split; discriminate.
Qed.

(** Without an input file the address is zero but the length still follows
    numd. *)
Lemma migration_send_suspend_length_without_buffer :
  submitted (snd (lm_migration_send Examples.w0 Examples.suspend_with_numd))
  = [make_cmd Examples.suspend_with_numd 0]
  /\ addr (make_cmd Examples.suspend_with_numd 0) = 0
  /\ data_len (make_cmd Examples.suspend_with_numd 0) = 4.
Proof. repeat split. Qed.

(** The test [cfg.sel == -1] compares a [__u8] with -1 and never holds. *)
Lemma migration_send_select_required_is_dead (cfg : config) :
  config_ok cfg -> (sel cfg =? -1) = false.
Proof. intros (Hsel & _); apply u8_never_minus_one; exact Hsel. Qed.

(** A select code outside {0, 1, 2} passes the checks untouched. *)
Lemma migration_send_other_select_submits (w : world) (cfg : config) :
  config_ok cfg ->
  parse_and_open w = 0 ->
  sel cfg <> MIGRATION_SEND_SUSPEND ->
  sel cfg <> MIGRATION_SEND_RESUME ->
  sel cfg <> MIGRATION_SEND_SET_CONTROLLER_STATE ->
  nonempty (input cfg) = false ->
  submitted (snd (lm_migration_send w cfg)) = [make_cmd cfg 0]
  /\ fst (lm_migration_send w cfg)
     = Return (fst (nvme_submit_admin_passthru w (make_cmd cfg 0))).
Proof.
  intros Hok Hparse H0 H1 H2 Hne.
  unfold lm_migration_send, sanity_check.
  rewrite Hparse, (migration_send_select_required_is_dead cfg Hok).
  apply Z.eqb_neq in H0, H1, H2; rewrite H0, H1, H2.
  cbn [negb Z.eqb orb].
  rewrite (load_input_no_file w cfg Hne).
  destruct (nvme_submit_admin_passthru w (make_cmd cfg 0)) as [err res].
  cbn [fst snd submitted].
  split; [ | reflexivity].
  f_equal; apply report_submit_submits_nothing; reflexivity.
Qed.

(** C5, at the failing input.  A request that supplies no select code
    keeps the initializer (__u8)-1 = 255; it is not rejected: the command is
    built with select 255 in cdw10 and handed to the transport.  The same
    holds for a supplied select code of 3. *)
Theorem migration_send_without_select_is_submitted :
  sel default = 255
  /\ lm_migration_send Examples.w0 default
     = (Return 0,
        [Submit (make_cmd default 0);
         Printf "Migration Send (%s) Successful\n" [AStr "unrecognized"]])
  /\ cdw10 (make_cmd default 0) = 255
  /\ submitted (snd (lm_migration_send Examples.w0 Examples.select_3))
     = [make_cmd Examples.select_3 0]
  /\ cdw10 (make_cmd Examples.select_3 0) = 3.
Proof. repeat split. Qed.

End MigrationSendFacts.

(** ** Return values after a submit *)

Section ReturnValues.

Lemma create_cdq_returns_status (w : world) (cfg : CreateCdq.config)
  (cmd : nvme_passthru_cmd) :
  In cmd (submitted (snd (CreateCdq.lm_create_cdq w cfg))) ->
  fst (CreateCdq.lm_create_cdq w cfg)
  = Return (fst (nvme_submit_admin_passthru w cmd)).
Proof.
  unfold CreateCdq.lm_create_cdq.
  destruct (negb (parse_and_open w =? 0)); [intros [] | ].
  destruct (negb (_ mod _ =? 0)); [intros [] | ].
  destruct (nvme_alloc_huge w _ =? 0); [intros [] | ].
  destruct (nvme_submit_admin_passthru w (CreateCdq.make_cmd cfg _))
    as [err res] eqn:Hsub.
  cbn [fst snd submitted].
  rewrite report_submit_submits_nothing by reflexivity.
  intros [<- | []]; rewrite Hsub; reflexivity.
Qed.

Lemma delete_cdq_returns_status (w : world) (cfg : DeleteCdq.config)
  (cmd : nvme_passthru_cmd) :
  In cmd (submitted (snd (DeleteCdq.lm_delete_cdq w cfg))) ->
  fst (DeleteCdq.lm_delete_cdq w cfg)
  = Return (fst (nvme_submit_admin_passthru w cmd)).
Proof.
  unfold DeleteCdq.lm_delete_cdq.
  destruct (negb (parse_and_open w =? 0)); [intros [] | ].
  destruct (nvme_submit_admin_passthru w (DeleteCdq.make_cmd cfg))
    as [err res] eqn:Hsub.
  cbn [fst snd submitted].
  rewrite report_submit_submits_nothing by reflexivity.
  intros [<- | []]; rewrite Hsub; reflexivity.
Qed.

Lemma track_send_returns_status (w : world) (cfg : TrackSend.config)
  (cmd : nvme_passthru_cmd) :
  In cmd (submitted (snd (TrackSend.lm_track_send w cfg))) ->
  fst (TrackSend.lm_track_send w cfg)
  = Return (fst (nvme_submit_admin_passthru w cmd)).
Proof.
  unfold TrackSend.lm_track_send.
  destruct (negb (parse_and_open w =? 0)); [intros [] | ].
  destruct (TrackSend.select cfg =? -1); [intros [] | ].
  destruct (negb (TrackSend.select cfg =? _)); [intros [] | ].
  destruct (TrackSend.start cfg && TrackSend.stop cfg); [intros [] | ].
  destruct (nvme_submit_admin_passthru w (TrackSend.make_cmd cfg))
    as [err res] eqn:Hsub.
  cbn [fst snd submitted].
  rewrite report_submit_submits_nothing by reflexivity.
  intros [<- | []]; rewrite Hsub; reflexivity.
Qed.

Lemma migration_send_returns_status (w : world) (cfg : MigrationSend.config)
  (cmd : nvme_passthru_cmd) :
  In cmd (submitted (snd (MigrationSend.lm_migration_send w cfg))) ->
  fst (MigrationSend.lm_migration_send w cfg)
  = Return (fst (nvme_submit_admin_passthru w cmd)).
Proof.
  intros Hin.
  destruct (migration_send_submitted w cfg cmd Hin) as (Hcheck & data & Hload & ->).
  revert Hin; unfold MigrationSend.lm_migration_send.
  destruct (negb (parse_and_open w =? 0)); [intros [] | ].
  destruct (MigrationSend.sel cfg =? -1); [intros [] | ].
  rewrite Hcheck, Hload.
  destruct (nvme_submit_admin_passthru w (MigrationSend.make_cmd cfg data))
    as [err res].
  reflexivity.
Qed.

Lemma set_cdq_returns_status (w : world) (cfg : SetCdq.config) :
  parse_and_open w = 0 ->
  fst (SetCdq.lm_set_cdq w cfg)
  = Return (nvme_set_features w (SetCdq.make_args cfg)).
Proof.
  intros Hparse.
  destruct (set_cdq_issues w cfg Hparse) as [rest ->]; reflexivity.
Qed.

(** Migration Receive ends in [return 0]: once a command was submitted the
    handler never returns anything else. *)
Lemma migration_recv_returns_zero (host : byte_order) (w : world)
  (cfg : MigrationRecv.config) (cmd : nvme_passthru_cmd) :
  In cmd (submitted (snd (MigrationRecv.lm_migration_recv host w cfg))) ->
  fst (MigrationRecv.lm_migration_recv host w cfg) = Return 0
  \/ fst (MigrationRecv.lm_migration_recv host w cfg) = Undefined.
Proof.
  unfold MigrationRecv.lm_migration_recv.
  destruct (negb (parse_and_open w =? 0)); [intros [] | ].
  destruct (validate_output_format w _) as [verr flags].
  destruct (verr <? 0); [intros [] | ].
  destruct (non_null _ && _ && _); [intros [] | ].
  destruct (nvme_alloc_huge w _ =? 0); [intros [] | ].
  destruct (nvme_submit_admin_passthru w _) as [err res].
  destruct (err <? 0); [left; reflexivity | ].
  destruct (negb (err =? 0)); [left; reflexivity | ].
  destruct (MigrationRecv.on_success _ _ _ _ _ _);
    [left | right]; reflexivity.
Qed.

(** C6, at the failing input.  When the device answers Migration Receive
    with status 2, or the transport fails with -5, the handler reports the
    error and returns 0; the other handlers return the status they were
    given. *)
Theorem migration_recv_drops_submit_status :
  MigrationRecv.lm_migration_recv LittleEndian (Examples.world_of 2 [])
    MigrationRecv.default
  = (Return 0,
     [Submit (MigrationRecv.make_cmd MigrationRecv.default 0x1000);
      ShowStatus 2])
  /\ MigrationRecv.lm_migration_recv LittleEndian (Examples.world_of (-5) [])
       MigrationRecv.default
     = (Return 0,
        [Submit (MigrationRecv.make_cmd MigrationRecv.default 0x1000);
         ShowError "ERROR: nvme_submit_admin_passthru() failed %s" [AStr ""]])
  /\ fst (MigrationSend.lm_migration_send (Examples.world_of 2 [])
            Examples.suspend_with_numd) = Return 2
  /\ fst (CreateCdq.lm_create_cdq (Examples.world_of 2 [])
            (CreateCdq.mk_config 8 0 0 false)) = Return 2.
Proof. repeat split. Qed.

End ReturnValues.

(** ** Bytes, loads and conversions *)

Section WireFacts.

Lemma byte_val_range (b : byte) : 0 <= byte_val b < 2 ^ 8.
Proof.
  unfold byte_val.
  pose proof (Byte.to_N_bounded b) as H.
  change (2 ^ 8) with 256; lia.
Qed.

Lemma le_value_range (bs : list byte) :
  0 <= le_value bs < 2 ^ (8 * Z.of_nat (List.length bs)).
Proof.
  induction bs as [ | b t IH]; cbn [le_value List.length].
  - change (Z.of_nat 0) with 0; rewrite Z.mul_0_r, Z.pow_0_r; lia.
  - pose proof (byte_val_range b) as Hb.
    rewrite Nat2Z.inj_succ.
    replace (8 * Z.succ (Z.of_nat (List.length t)))
      with (8 + 8 * Z.of_nat (List.length t)) by lia.
    rewrite Z.pow_add_r by lia.
    nia.
Qed.

Lemma le_value_app (l1 l2 : list byte) :
  le_value (l1 ++ l2)
  = le_value l1 + 2 ^ (8 * Z.of_nat (List.length l1)) * le_value l2.
Proof.
  induction l1 as [ | b t IH]; cbn [le_value List.length app].
  - change (Z.of_nat 0) with 0; rewrite Z.mul_0_r, Z.pow_0_r; lia.
  - rewrite IH, Nat2Z.inj_succ.
    replace (8 * Z.succ (Z.of_nat (List.length t)))
      with (8 + 8 * Z.of_nat (List.length t)) by lia.
    rewrite Z.pow_add_r by lia.
    ring.
Qed.

Lemma swab_le_value (bs : list byte) :
  swab (List.length bs) (le_value bs) = be_value bs.
Proof.
  induction bs as [ | b t IH]; [reflexivity | ].
  cbn [List.length swab le_value].
  pose proof (byte_val_range b) as Hb.
  replace ((byte_val b + 2 ^ 8 * le_value t) mod 2 ^ 8) with (byte_val b).
  2:{ rewrite (Z.mul_comm (2 ^ 8)), Z_mod_plus_full.
      symmetry; apply Z.mod_small; exact Hb. }
  replace ((byte_val b + 2 ^ 8 * le_value t) / 2 ^ 8) with (le_value t).
  2:{ rewrite (Z.mul_comm (2 ^ 8)), Z_div_plus_full by lia.
      rewrite (Z.div_small (byte_val b)) by exact Hb; lia. }
  rewrite IH.
  unfold be_value; cbn [rev].
  rewrite le_value_app, length_rev; cbn [le_value].
  ring.
Qed.

Lemma swab_be_value (bs : list byte) :
  swab (List.length bs) (be_value bs) = le_value bs.
Proof.
  unfold be_value.
  rewrite <- (length_rev bs), swab_le_value.
  unfold be_value; rewrite rev_involutive; reflexivity.
Qed.

Lemma bytes_at_length (data : list byte) (off n : Z) (bs : list byte) :
  bytes_at data off n = Some bs -> Z.of_nat (List.length bs) = n.
Proof.
  unfold bytes_at.
  destruct ((0 <=? off) && (0 <=? n) && (off + n <=? Z.of_nat (List.length data)))
    eqn:Hc; [ | discriminate].
  apply andb_true_iff in Hc; destruct Hc as [Hc H3].
  apply andb_true_iff in Hc; destruct Hc as [H1 H2].
  apply Z.leb_le in H1, H2, H3.
  intros H; inversion H; subst bs; clear H.
  rewrite length_firstn, length_skipn; lia.
Qed.

Lemma bytes_at_some (data : list byte) (off n : Z) :
  0 <= off -> 0 <= n -> off + n <= Z.of_nat (List.length data) ->
  exists bs, bytes_at data off n = Some bs.
Proof.
  intros H1 H2 H3; unfold bytes_at.
  apply Z.leb_le in H1, H2, H3; rewrite H1, H2, H3.
  eexists; reflexivity.
Qed.

Lemma load_some (host : byte_order) (data : list byte) (off n : Z) :
  0 <= off -> 0 <= n -> off + n <= Z.of_nat (List.length data) ->
  exists v, load host data off n = Some v.
Proof.
  intros H1 H2 H3; unfold load.
  destruct (bytes_at_some data off n H1 H2 H3) as [bs ->].
  eexists; reflexivity.
Qed.

Lemma native_range (host : byte_order) (bs : list byte) :
  0 <= native host bs < 2 ^ (8 * Z.of_nat (List.length bs)).
Proof.
  destruct host; cbn [native]; [apply le_value_range | ].
  unfold be_value; rewrite <- (length_rev bs); apply le_value_range.
Qed.

Lemma load_nonneg (host : byte_order) (data : list byte) (off n v : Z) :
  load host data off n = Some v -> 0 <= v.
Proof.
  unfold load; destruct (bytes_at data off n) as [bs | ]; [ | discriminate].
  intros H; inversion H; apply native_range.
Qed.

(** Converting what the host loaded gives the little-endian value of the
    bytes, whatever the host. *)
Lemma le16_to_cpu_native (host : byte_order) (bs : list byte) :
  List.length bs = 2%nat -> le16_to_cpu host (native host bs) = le_value bs.
Proof.
  intros Hlen.
  pose proof (native_range host bs) as Hr; rewrite Hlen in Hr.
  unfold le16_to_cpu, u16.
  rewrite Z.mod_small by exact Hr.
  destruct host; [reflexivity | ].
  cbn [native]; rewrite <- Hlen; apply swab_be_value.
Qed.

Lemma le32_to_cpu_native (host : byte_order) (bs : list byte) :
  List.length bs = 4%nat -> le32_to_cpu host (native host bs) = le_value bs.
Proof.
  intros Hlen.
  pose proof (native_range host bs) as Hr; rewrite Hlen in Hr.
  unfold le32_to_cpu, u32.
  rewrite Z.mod_small by exact Hr.
  destruct host; [reflexivity | ].
  cbn [native]; rewrite <- Hlen; apply swab_be_value.
Qed.

Lemma le64_to_cpu_native (host : byte_order) (bs : list byte) :
  List.length bs = 8%nat -> le64_to_cpu host (native host bs) = le_value bs.
Proof.
  intros Hlen.
  pose proof (native_range host bs) as Hr; rewrite Hlen in Hr.
  unfold le64_to_cpu, u64.
  rewrite Z.mod_small by exact Hr.
  destruct host; [reflexivity | ].
  cbn [native]; rewrite <- Hlen; apply swab_be_value.
Qed.

(** A converted load does not depend on the host. *)
Lemma le16_to_cpu_load (host : byte_order) (data : list byte) (off v : Z) :
  load host data off 2 = Some v ->
  option_map le_value (bytes_at data off 2) = Some (le16_to_cpu host v).
Proof.
  unfold load.
  destruct (bytes_at data off 2) as [bs | ] eqn:Hbs; [ | discriminate].
  intros H; inversion H; subst v; cbn [option_map].
  rewrite le16_to_cpu_native; [reflexivity | ].
  apply bytes_at_length in Hbs; lia.
Qed.

Lemma le32_to_cpu_load (host : byte_order) (data : list byte) (off v : Z) :
  load host data off 4 = Some v ->
  option_map le_value (bytes_at data off 4) = Some (le32_to_cpu host v).
Proof.
  unfold load.
  destruct (bytes_at data off 4) as [bs | ] eqn:Hbs; [ | discriminate].
  intros H; inversion H; subst v; cbn [option_map].
  rewrite le32_to_cpu_native; [reflexivity | ].
  apply bytes_at_length in Hbs; lia.
Qed.

Lemma le64_to_cpu_load (host : byte_order) (data : list byte) (off v : Z) :
  load host data off 8 = Some v ->
  option_map le_value (bytes_at data off 8) = Some (le64_to_cpu host v).
Proof.
  unfold load.
  destruct (bytes_at data off 8) as [bs | ] eqn:Hbs; [ | discriminate].
  intros H; inversion H; subst v; cbn [option_map].
  rewrite le64_to_cpu_native; [reflexivity | ].
  apply bytes_at_length in Hbs; lia.
Qed.

End WireFacts.

(** ** Loops *)

Section LoopFacts.
Context {A : Type}.

Lemma for_loop_length (n : nat) (i : Z) (body : Z -> option A) (l : list A) :
  for_loop n i body = Some l -> List.length l = n.
Proof.
  revert i l; induction n as [ | n IH]; intros i l; cbn [for_loop].
  - intros H; inversion H; reflexivity.
  - destruct (body i) as [x | ]; [ | discriminate].
    destruct (for_loop n (i + 1) body) as [xs | ] eqn:Hrest; [ | discriminate].
    intros H; inversion H; cbn [List.length].
    f_equal; apply (IH (i + 1)); exact Hrest.
Qed.

Lemma for_loop_nth (n : nat) (i : Z) (body : Z -> option A) (l : list A) :
  for_loop n i body = Some l ->
  forall k, (k < n)%nat -> nth_error l k = body (i + Z.of_nat k).
Proof.
  revert i l; induction n as [ | n IH]; intros i l; cbn [for_loop].
  - intros _ k Hk; lia.
  - destruct (body i) as [x | ] eqn:Hx; [ | discriminate].
    destruct (for_loop n (i + 1) body) as [xs | ] eqn:Hrest; [ | discriminate].
    intros H k Hk; inversion H; subst l.
    destruct k as [ | k]; cbn [nth_error].
    + rewrite Z.add_0_r; symmetry; exact Hx.
    + rewrite (IH (i + 1) xs Hrest k) by lia.
      f_equal; lia.
Qed.

Lemma for_loop_total (n : nat) (i : Z) (body : Z -> option A) :
  (forall k, (k < n)%nat -> body (i + Z.of_nat k) <> None) ->
  for_loop n i body <> None.
Proof.
  revert i; induction n as [ | n IH]; intros i Hbody; cbn [for_loop].
  - discriminate.
  - specialize (Hbody 0%nat ltac:(lia)) as H0.
    rewrite Z.add_0_r in H0.
    destruct (body i) as [x | ]; [ | contradiction].
    assert (Hrest : for_loop n (i + 1) body <> None).
    { apply IH; intros k Hk.
      replace (i + 1 + Z.of_nat k) with (i + Z.of_nat (S k)) by lia.
      apply Hbody; lia. }
    destruct (for_loop n (i + 1) body); [discriminate | contradiction].
Qed.


Lemma for_loop_forall (P : A -> Prop) (n : nat) (i : Z) (body : Z -> option A)
  (l : list A) :
  for_loop n i body = Some l ->
  (forall j y, body j = Some y -> P y) ->
  Forall P l.
Proof.
  revert i l; induction n as [ | n IH]; intros i l; cbn [for_loop].
  - intros H _; inversion H; constructor.
  - destruct (body i) as [x | ] eqn:Hx; [ | discriminate].
    destruct (for_loop n (i + 1) body) as [xs | ] eqn:Hrest; [ | discriminate].
    intros H HP; inversion H; subst l.
    constructor; [exact (HP i x Hx) | exact (IH (i + 1) xs Hrest HP)].
Qed.

End LoopFacts.

(** ** Counting in a report *)

Section ReportFacts.

Lemma sq_records_app (a b : list event) :
  sq_records (a ++ b) = (sq_records a + sq_records b)%nat.
Proof.
  induction a as [ | e a IH]; [reflexivity | ].
  cbn [app sq_records].
  destruct e; try exact IH.
  destruct (String.eqb fmt _); [cbn [Nat.add]; f_equal | ]; exact IH.
Qed.

Lemma warnings_app (a b : list event) :
  warnings (a ++ b) = warnings a ++ warnings b.
Proof.
  induction a as [ | e a IH]; [reflexivity | ].
  cbn [app warnings].
  destruct e; try exact IH.
  cbn [app]; f_equal; exact IH.
Qed.

Lemma show_hdr_report (h : controller_state_data_header) (human : bool) :
  sq_records (TextState.show_hdr h human) = 0%nat
  /\ warnings (TextState.show_hdr h human) = [].
Proof. destruct human; split; reflexivity. Qed.

Lemma show_sq_report (host : byte_order) (sq : nvme_io_submission_queue_data)
  (i : Z) (human : bool) :
  sq_records (TextState.show_sq host sq i human) = 1%nat
  /\ warnings (TextState.show_sq host sq i human) = [].
Proof. destruct human; split; reflexivity. Qed.

Lemma show_cq_report (host : byte_order) (cq : nvme_io_completion_queue_data)
  (i : Z) (human : bool) :
  sq_records (TextState.show_cq host cq i human) = 0%nat
  /\ warnings (TextState.show_cq host cq i human) = [].
Proof. destruct human; split; reflexivity. Qed.

Lemma concat_report (k : nat) (l : list (list event)) :
  Forall (fun e => sq_records e = k /\ warnings e = []) l ->
  sq_records (List.concat l) = (k * List.length l)%nat
  /\ warnings (List.concat l) = [].
Proof.
  induction 1 as [ | e l [He1 He2] _ [IH1 IH2]]; cbn [List.concat List.length].
  - cbn [sq_records warnings]; split; [lia | reflexivity].
  - rewrite sq_records_app, warnings_app, He1, He2, IH1, IH2.
    split; [lia | reflexivity].
Qed.

End ReportFacts.

(** ** Decoding controller state: the counts of the text rendering *)

Section CountFacts.

(** The count the text rendering iterates to is min(niosq, len / 24). *)
Lemma sq_count_is_min (len niosq : Z) :
  0 <= len ->
  TextState.sq_count len niosq = Z.min niosq (len / 24).
Proof.
  intros Hlen; unfold TextState.sq_count.
  change sizeof_nvme_io_submission_queue_data with 24.
  destruct (len <? niosq * 24) eqn:Hlt.
  - apply Z.ltb_lt in Hlt.
    assert (len / 24 < niosq) by (apply Z.div_lt_upper_bound; lia).
    lia.
  - apply Z.ltb_ge in Hlt.
    assert (niosq <= len / 24) by (apply Z.div_le_lower_bound; lia).
    lia.
Qed.

(** The warning is printed exactly when the count was lowered. *)
Lemma sq_warning_iff_clamped (len niosq : Z) :
  0 <= len ->
  (TextState.sq_warning len niosq
   = [Eprintf "WARNING: I/O Submission Queues truncated\n" []]
   /\ TextState.sq_count len niosq < niosq)
  \/ (TextState.sq_warning len niosq = []
      /\ TextState.sq_count len niosq = niosq).
Proof.
  intros Hlen; unfold TextState.sq_warning, TextState.sq_count.
  change sizeof_nvme_io_submission_queue_data with 24.
  destruct (len <? niosq * 24) eqn:Hlt; [left | right]; split; try reflexivity.
  apply Z.ltb_lt in Hlt; apply Z.div_lt_upper_bound; lia.
Qed.

Lemma cq_count_is_min (len niocq : Z) :
  0 <= len ->
  TextState.cq_count len niocq = Z.min niocq (len / 24).
Proof.
  intros Hlen; unfold TextState.cq_count.
  change sizeof_nvme_io_completion_queue_data with 24.
  destruct (len <? niocq * 24) eqn:Hlt.
  - apply Z.ltb_lt in Hlt.
    assert (len / 24 < niocq) by (apply Z.div_lt_upper_bound; lia).
    lia.
  - apply Z.ltb_ge in Hlt.
    assert (niocq <= len / 24) by (apply Z.div_le_lower_bound; lia).
    lia.
Qed.

(** In the text rendering a completion-queue record is only printed when
    the submission-queue count was not lowered, so the slot it is read from,
    [sq_count + i], is slot [niosq + i]. *)
Lemma text_cq_slot_follows_all_sq (len niosq niocq : Z) :
  0 <= len -> 0 <= niosq ->
  0 < TextState.cq_count
        (len - TextState.sq_count len niosq * sizeof_nvme_io_submission_queue_data)
        niocq ->
  TextState.sq_count len niosq = niosq.
Proof.
  intros Hlen Hsq.
  destruct (sq_warning_iff_clamped len niosq Hlen) as [(_ & Hlow) | (_ & Heq)];
    [ | intros _; exact Heq].
  intros Hcq; exfalso.
  revert Hlow Hcq.
  unfold TextState.sq_count, TextState.cq_count.
  change sizeof_nvme_io_submission_queue_data with 24.
  change sizeof_nvme_io_completion_queue_data with 24.
  destruct (len <? niosq * 24) eqn:Hlt; [ | lia].
  intros _.
  assert (Hrem : len - len / 24 * 24 = len mod 24)
    by (rewrite Z.mod_eq by lia; lia).
  rewrite Hrem.
  assert (Hm : 0 <= len mod 24 < 24) by (apply Z.mod_pos_bound; lia).
  destruct (len mod 24 <? niocq * 24) eqn:Hlt2.
  - rewrite Z.div_small by exact Hm; lia.
  - apply Z.ltb_ge in Hlt2; lia.
Qed.

End CountFacts.

(** ** Decoding controller state: the text rendering *)

Section TextFacts.

Local Ltac layout_constants :=
  unfold Layout.offsetof_queues, Layout.offsetof_sdata in *;
  change sizeof_controller_state_data_header with 48 in *;
  change sizeof_nvme_controller_state_header with 8 in *;
  change sizeof_nvme_io_submission_queue_data with 24 in *;
  change sizeof_nvme_io_completion_queue_data with 24 in *.

Local Ltac loads_succeed :=
  repeat match goal with
         | |- context [load ?h ?d ?o ?n] =>
             let v := fresh "v" in
             let Hv := fresh "Hv" in
             destruct (load_some h d o n) as [v Hv]; [lia | lia | lia | ];
             rewrite Hv; clear Hv
         | |- context [bytes_at ?d ?o ?n] =>
             let v := fresh "bs" in
             let Hv := fresh "Hv" in
             destruct (bytes_at_some d o n) as [v Hv]; [lia | lia | lia | ];
             rewrite Hv; clear Hv
         end.

Lemma hdr_defined (host : byte_order) (data : list byte) :
  48 <= Z.of_nat (List.length data) -> Layout.hdr host data <> None.
Proof.
  intros Hlen; unfold Layout.hdr; loads_succeed; discriminate.
Qed.

Lemma sdata_hdr_defined (host : byte_order) (data : list byte) :
  56 <= Z.of_nat (List.length data) -> Layout.sdata_hdr host data <> None.
Proof.
  intros Hlen; unfold Layout.sdata_hdr; layout_constants; loads_succeed;
    discriminate.
Qed.

Lemma sq_defined (host : byte_order) (data : list byte) (i : Z) :
  0 <= i -> 56 + (i + 1) * 24 <= Z.of_nat (List.length data) ->
  Layout.sq host data i <> None.
Proof.
  intros Hi Hlen; unfold Layout.sq; layout_constants; cbv zeta; loads_succeed;
    discriminate.
Qed.

Lemma cq_defined (host : byte_order) (data : list byte) (i : Z) :
  0 <= i -> 56 + (i + 1) * 24 <= Z.of_nat (List.length data) ->
  Layout.cq host data i <> None.
Proof.
  intros Hi Hlen; unfold Layout.cq; layout_constants; cbv zeta; loads_succeed;
    discriminate.
Qed.

Lemma sdata_hdr_nonneg (host : byte_order) (data : list byte)
  (s : nvme_controller_state_header) :
  Layout.sdata_hdr host data = Some s -> 0 <= ncs_niosq s /\ 0 <= ncs_niocq s.
Proof.
  unfold Layout.sdata_hdr.
  destruct (load host data (Layout.offsetof_sdata + 0) 2) as [ver | ];
    [ | discriminate].
  destruct (load host data (Layout.offsetof_sdata + 2) 2) as [niosq | ] eqn:Hsq;
    [ | discriminate].
  destruct (load host data (Layout.offsetof_sdata + 4) 2) as [niocq | ] eqn:Hcq;
    [ | discriminate].
  intros H; inversion H; cbn [ncs_niosq ncs_niocq].
  split; eapply load_nonneg; eassumption.
Qed.

(** X16.  The text rendering never reads past [len] bytes: on a buffer
    that holds at least [len] bytes it is defined, whatever the counts the
    header declares and whatever the host. *)
Theorem show_text_defined (host : byte_order) (data : list byte) (len : Z)
  (human : bool) :
  0 <= len <= Z.of_nat (List.length data) ->
  TextState.show_text host data len human <> None.
Proof.
  intros [Hlen0 Hlen].
  unfold TextState.show_text; layout_constants.
  destruct (48 <=? len) eqn:H48; [ | cbn; discriminate].
  apply Z.leb_le in H48.
  destruct (Layout.hdr host data) as [h | ] eqn:Hh;
    [ | exfalso; revert Hh; apply hdr_defined; lia].
  destruct (len - 48 =? 0); [discriminate | ].
  destruct (8 <=? len - 48) eqn:H8; [ | discriminate].
  apply Z.leb_le in H8.
  assert (Hs : TextState.show_sdata host data (len - 48) human <> None).
  2:{ destruct (TextState.show_sdata host data (len - 48) human);
        [discriminate | contradiction]. }
  unfold TextState.show_sdata; layout_constants.
  destruct (Layout.sdata_hdr host data) as [s | ] eqn:Hsd;
    [ | exfalso; revert Hsd; apply sdata_hdr_defined; lia].
  destruct (sdata_hdr_nonneg host data s Hsd) as [Hsq Hcq].
  cbv zeta.
  set (len2 := len - 48 - 8).
  assert (Hlen2 : 0 <= len2) by (unfold len2; lia).
  rewrite (sq_count_is_min len2 (ncs_niosq s) Hlen2).
  set (nsq := Z.min (ncs_niosq s) (len2 / 24)).
  assert (Hdiv : 0 <= len2 / 24 /\ len2 / 24 * 24 <= len2).
  { split; [apply Z.div_pos; lia | ].
    rewrite Z.mul_comm; apply Z.mul_div_le; lia. }
  assert (Hnsq : 0 <= nsq /\ nsq * 24 <= len2) by (unfold nsq; lia).
  assert (Hlen3 : 0 <= len2 - nsq * 24) by lia.
  rewrite (cq_count_is_min (len2 - nsq * 24) (ncs_niocq s) Hlen3).
  set (ncq := Z.min (ncs_niocq s) ((len2 - nsq * 24) / 24)).
  assert (Hdiv3 : 0 <= (len2 - nsq * 24) / 24
                  /\ (len2 - nsq * 24) / 24 * 24 <= len2 - nsq * 24).
  { split; [apply Z.div_pos; lia | ].
    rewrite Z.mul_comm; apply Z.mul_div_le; lia. }
  assert (Hncq : 0 <= ncq /\ ncq * 24 <= len2 - nsq * 24) by (unfold ncq; lia).
  match goal with
  | |- context [for_loop (Z.to_nat nsq) 0 ?body] =>
      pose proof (for_loop_total (Z.to_nat nsq) 0 body) as Hloop1
  end.
  match goal with
  | |- context [for_loop (Z.to_nat ncq) 0 ?body] =>
      pose proof (for_loop_total (Z.to_nat ncq) 0 body) as Hloop2
  end.
  cbv beta in Hloop1, Hloop2.
  destruct (for_loop (Z.to_nat nsq) 0 _) as [sqs | ].
  2:{ exfalso; apply Hloop1; [ | reflexivity].
      intros k Hk.
      destruct (Layout.sq host data (0 + Z.of_nat k)) eqn:Hrec; [discriminate | ].
      exfalso; revert Hrec; apply sq_defined; unfold len2 in *; nia. }
  destruct (for_loop (Z.to_nat ncq) 0 _) as [cqs | ]; [discriminate | ].
  exfalso; apply Hloop2; [ | reflexivity].
  intros k Hk.
  destruct (Layout.cq host data (nsq + (0 + Z.of_nat k))) eqn:Hrec; [discriminate | ].
  exfalso; revert Hrec; apply cq_defined; unfold len2 in *; nia.
Qed.

(** X17.  The text rendering of a buffer that holds both headers prints
    min(niosq, remaining / 24) submission-queue records, remaining being the
    length left after the two headers, and prints the submission-queue
    warning exactly when that is fewer than niosq. *)
Theorem show_text_clamps_sq (host : byte_order) (data : list byte) (len : Z)
  (human : bool) (s : nvme_controller_state_header) (out : list event) :
  56 <= len ->
  Layout.sdata_hdr host data = Some s ->
  TextState.show_text host data len human = Some out ->
  sq_records out = Z.to_nat (Z.min (ncs_niosq s) ((len - 56) / 24))
  /\ (In "WARNING: I/O Submission Queues truncated\n"%string (warnings out)
      <-> (len - 56) / 24 < ncs_niosq s).
Proof.
  intros Hlen Hsd.
  unfold TextState.show_text; layout_constants.
  assert (H48 : (48 <=? len) = true) by (apply Z.leb_le; lia).
  assert (Hnz : (len - 48 =? 0) = false) by (apply Z.eqb_neq; lia).
  assert (H8 : (8 <=? len - 48) = true) by (apply Z.leb_le; lia).
  rewrite H48.
  destruct (Layout.hdr host data) as [h | ]; [ | discriminate].
  rewrite Hnz, H8.
  unfold TextState.show_sdata; layout_constants.
  rewrite Hsd; cbv zeta.
  replace (len - 48 - 8) with (len - 56) by lia.
  set (len2 := len - 56).
  assert (Hlen2 : 0 <= len2) by (unfold len2; lia).
  destruct (for_loop (Z.to_nat (TextState.sq_count _ _)) 0 _) as [sqs | ] eqn:Hsqs;
    [ | discriminate].
  destruct (for_loop (Z.to_nat (TextState.cq_count _ _)) 0 _) as [cqs | ] eqn:Hcqs;
    [ | discriminate].
  set (head := Printf "\nNVMe Controller State Data Structure:\n" [] :: _).
  assert (Hhead : sq_records head = 0%nat /\ warnings head = [])
    by (split; reflexivity).
  destruct Hhead as [Hd1 Hd2].
  intros H.
  assert (Hout := f_equal (fun o => match o with Some x => x | None => [] end) H).
  cbv beta iota in Hout; subst out; clear H.
  assert (Hsq_each : Forall (fun e => sq_records e = 1%nat /\ warnings e = []) sqs).
  { apply (for_loop_forall _ _ _ _ _ Hsqs).
    intros j y; destruct (Layout.sq host data j); [ | discriminate].
    intros Hy; inversion Hy; apply show_sq_report. }
  assert (Hcq_each : Forall (fun e => sq_records e = 0%nat /\ warnings e = []) cqs).
  { apply (for_loop_forall _ _ _ _ _ Hcqs).
    intros j y; destruct (Layout.cq host data _); [ | discriminate].
    intros Hy; inversion Hy; apply show_cq_report. }
  destruct (concat_report _ _ Hsq_each) as [Hsq1 Hsq2].
  destruct (concat_report _ _ Hcq_each) as [Hcq1 Hcq2].
  destruct (show_hdr_report h human) as [Hh1 Hh2].
  rewrite (for_loop_length _ _ _ _ Hsqs) in Hsq1.
  assert (Hsqw : sq_records (TextState.sq_warning len2 (ncs_niosq s)) = 0%nat)
    by (unfold TextState.sq_warning; destruct (_ <? _); reflexivity).
  assert (Hcqw : forall l n,
             sq_records (TextState.cq_warning l n) = 0%nat
             /\ ~ In "WARNING: I/O Submission Queues truncated\n"%string
                    (warnings (TextState.cq_warning l n))).
  { intros l n; unfold TextState.cq_warning; destruct (_ <? _); split;
      try reflexivity; cbn [warnings In]; [ | tauto].
    intros [Heq | []]; discriminate. }
  rewrite !sq_records_app, !warnings_app.
  rewrite Hsq1, Hsq2, Hcq1, Hcq2, Hh1, Hh2, Hd1, Hd2, Hsqw.
  rewrite (proj1 (Hcqw _ _)).
  rewrite (sq_count_is_min len2 (ncs_niosq s) Hlen2).
  split; [lia | ].
  cbn [app]; rewrite app_nil_r, in_app_iff.
  unfold TextState.sq_warning; layout_constants.
  destruct (len2 <? ncs_niosq s * 24) eqn:Hlt.
  - apply Z.ltb_lt in Hlt.
    split; [intros _; apply Z.div_lt_upper_bound; lia | ].
    intros _; left; left; reflexivity.
  - apply Z.ltb_ge in Hlt.
    assert (ncs_niosq s <= len2 / 24) by (apply Z.div_le_lower_bound; lia).
    split; [ | lia].
    intros [[] | Hin]; exfalso; revert Hin; apply Hcqw.
Qed.

(** X18.  The text rendering of the controller state structure is the
    four header lines, the submission-queue warning if any, one block per
    submission queue, the completion-queue warning if any, and one block
    per completion queue, in this order.  The k-th submission-queue block
    renders record slot k; the k-th completion-queue block renders record
    slot niosq + k, niosq being the count the header declares. *)
Theorem show_sdata_cq_slots (host : byte_order) (data : list byte) (len : Z)
  (human : bool) (s : nvme_controller_state_header) (out : list event) :
  8 <= len ->
  Layout.sdata_hdr host data = Some s ->
  TextState.show_sdata host data len human = Some out ->
  exists sqs cqs,
    out
    = [Printf "\nNVMe Controller State Data Structure:\n" [];
       Printf "%-45s: 0x%x\n"
         [AStr "Version (VER)"; AInt (le16_to_cpu host (ncs_ver s))];
       Printf "%-45s: %d\n"
         [AStr "Number of I/O Submission Queues (NIOSQ)";
          AInt (le16_to_cpu host (ncs_niosq s))];
       Printf "%-45s: %d\n"
         [AStr "Number of I/O Completion Queues (NIOCQ)";
          AInt (le16_to_cpu host (ncs_niocq s))]]
      ++ (if (len - 8) / 24 <? ncs_niosq s
          then [Eprintf "WARNING: I/O Submission Queues truncated\n" []]
          else [])
      ++ List.concat sqs
      ++ (if (len - 8 - 24 * Z.min (ncs_niosq s) ((len - 8) / 24)) / 24
             <? ncs_niocq s
          then [Eprintf "WARNING: I/O Completion Queues truncated\n" []]
          else [])
      ++ List.concat cqs
    /\ List.length sqs = Z.to_nat (Z.min (ncs_niosq s) ((len - 8) / 24))
    /\ List.length cqs
       = Z.to_nat
           (Z.min (ncs_niocq s)
              ((len - 8 - 24 * Z.min (ncs_niosq s) ((len - 8) / 24)) / 24))
    /\ (forall k, (k < List.length sqs)%nat ->
          exists sq,
            Layout.sq host data (Z.of_nat k) = Some sq
            /\ nth_error sqs k = Some (TextState.show_sq host sq (Z.of_nat k) human))
    /\ (forall k, (k < List.length cqs)%nat ->
          exists cq,
            Layout.cq host data (ncs_niosq s + Z.of_nat k) = Some cq
            /\ nth_error cqs k = Some (TextState.show_cq host cq (Z.of_nat k) human)).
Proof.
  intros Hlen Hsd.
  destruct (sdata_hdr_nonneg host data s Hsd) as [Hsq _].
  unfold TextState.show_sdata; rewrite Hsd; cbv zeta.
  change sizeof_nvme_controller_state_header with 8.
  set (len2 := len - 8).
  assert (Hlen2 : 0 <= len2) by (unfold len2; lia).
  pose proof (sq_count_is_min len2 (ncs_niosq s) Hlen2) as Hnsq.
  assert (Hsqw : TextState.sq_warning len2 (ncs_niosq s)
                 = if len2 / 24 <? ncs_niosq s
                   then [Eprintf "WARNING: I/O Submission Queues truncated\n" []]
                   else []).
  { unfold TextState.sq_warning.
    change sizeof_nvme_io_submission_queue_data with 24.
    destruct (len2 <? ncs_niosq s * 24) eqn:Hlt.
    - apply Z.ltb_lt in Hlt.
      assert (Hd : len2 / 24 < ncs_niosq s) by (apply Z.div_lt_upper_bound; lia).
      apply Z.ltb_lt in Hd; rewrite Hd; reflexivity.
    - apply Z.ltb_ge in Hlt.
      assert (Hd : ncs_niosq s <= len2 / 24) by (apply Z.div_le_lower_bound; lia).
      apply Z.ltb_ge in Hd; rewrite Hd; reflexivity. }
  set (nsq := TextState.sq_count len2 (ncs_niosq s)) in *.
  change sizeof_nvme_io_submission_queue_data with 24.
  assert (Hdiv : 0 <= len2 / 24 /\ len2 / 24 * 24 <= len2).
  { split; [apply Z.div_pos; lia | ].
    rewrite Z.mul_comm; apply Z.mul_div_le; lia. }
  set (len3 := len2 - nsq * 24).
  assert (Hlen3 : 0 <= len3) by (unfold len3; lia).
  pose proof (cq_count_is_min len3 (ncs_niocq s) Hlen3) as Hncq.
  assert (Hcqw : TextState.cq_warning len3 (ncs_niocq s)
                 = if len3 / 24 <? ncs_niocq s
                   then [Eprintf "WARNING: I/O Completion Queues truncated\n" []]
                   else []).
  { unfold TextState.cq_warning.
    change sizeof_nvme_io_completion_queue_data with 24.
    destruct (len3 <? ncs_niocq s * 24) eqn:Hlt.
    - apply Z.ltb_lt in Hlt.
      assert (Hd : len3 / 24 < ncs_niocq s) by (apply Z.div_lt_upper_bound; lia).
      apply Z.ltb_lt in Hd; rewrite Hd; reflexivity.
    - apply Z.ltb_ge in Hlt.
      assert (Hd : ncs_niocq s <= len3 / 24) by (apply Z.div_le_lower_bound; lia).
      apply Z.ltb_ge in Hd; rewrite Hd; reflexivity. }
  set (ncq := TextState.cq_count len3 (ncs_niocq s)) in *.
  destruct (for_loop (Z.to_nat nsq) 0 _) as [sqs | ] eqn:Hsqs; [ | discriminate].
  destruct (for_loop (Z.to_nat ncq) 0 _) as [cqs | ] eqn:Hcqs; [ | discriminate].
  intros H.
  assert (Hout := f_equal (fun o => match o with Some x => x | None => [] end) H).
  cbv beta iota in Hout; subst out; clear H.
  pose proof (for_loop_length _ _ _ _ Hsqs) as Hn1.
  pose proof (for_loop_length _ _ _ _ Hcqs) as Hn2.
  assert (H3 : len2 - 24 * Z.min (ncs_niosq s) (len2 / 24) = len3)
    by (unfold len3; rewrite <- Hnsq; lia).
  exists sqs, cqs.
  rewrite H3.
  split; [rewrite Hsqw, Hcqw; reflexivity | ].
  split; [rewrite Hn1, Hnsq; reflexivity | ].
  split; [rewrite Hn2, Hncq; reflexivity | ].
  split.
  - intros k Hk.
    pose proof (for_loop_nth _ _ _ _ Hsqs k ltac:(lia)) as Hnth.
    cbv beta in Hnth; rewrite Z.add_0_l in Hnth.
    destruct (Layout.sq host data (Z.of_nat k)) as [sq | ] eqn:Hrec.
    + exists sq; split; [reflexivity | exact Hnth].
    + exfalso.
      assert (Hsome : nth_error sqs k <> None) by (apply nth_error_Some; exact Hk).
      apply Hsome; exact Hnth.
  - intros k Hk.
    assert (Hpos : 0 < ncq) by lia.
    pose proof (text_cq_slot_follows_all_sq len2 (ncs_niosq s) (ncs_niocq s)
                  Hlen2 Hsq Hpos) as Hall.
    fold nsq in Hall.
    pose proof (for_loop_nth _ _ _ _ Hcqs k ltac:(lia)) as Hnth.
    cbv beta in Hnth; rewrite Hall, Z.add_0_l in Hnth.
    destruct (Layout.cq host data (ncs_niosq s + Z.of_nat k)) as [cq | ] eqn:Hrec.
    + exists cq; split; [reflexivity | exact Hnth].
    + exfalso.
      assert (Hsome : nth_error cqs k <> None) by (apply nth_error_Some; exact Hk).
      apply Hsome; exact Hnth.
Qed.

End TextFacts.

(** ** Decoding controller state: the structured rendering *)

Section JsonFacts.

(** The structured rendering does not depend on [len]. *)
Lemma json_ignores_len (host : byte_order) (data : list byte) (len len' : Z) :
  JsonState.json_controller_state_data host data len
  = JsonState.json_controller_state_data host data len'.
Proof. reflexivity. Qed.

(** X23.  The two lists of the structured rendering have as many entries
    as the header declares, whatever [len] is, and the k-th completion-queue
    entry is built from record slot k. *)
Theorem json_tree_lists (host : byte_order) (data : list byte) (len : Z)
  (root : json) :
  JsonState.tree host data len = Some root ->
  exists s,
    Layout.sdata_hdr host data = Some s
    /\ List.length (state_list "io submission queue list" root)
       = Z.to_nat (ncs_niosq s)
    /\ List.length (state_list "io completion queue list" root)
       = Z.to_nat (ncs_niocq s)
    /\ forall k, (k < Z.to_nat (ncs_niocq s))%nat ->
         nth_error (state_list "io completion queue list" root) k
         = option_map (JsonState.cq_obj host) (Layout.cq host data (Z.of_nat k)).
Proof.
  unfold JsonState.tree.
  destruct (Layout.hdr host data) as [h | ]; [ | discriminate].
  destruct (Layout.sdata_hdr host data) as [s | ]; [ | discriminate].
  destruct (for_loop (Z.to_nat (ncs_niosq s)) 0 _) as [iosqs | ] eqn:Hsq;
    [ | discriminate].
  destruct (for_loop (Z.to_nat (ncs_niocq s)) 0 _) as [iocqs | ] eqn:Hcq;
    [ | discriminate].
  intros H.
  assert (Hroot := f_equal (fun o => match o with Some x => x | None => JUint 0 end) H).
  cbv beta iota in Hroot; subst root; clear H.
  exists s; split; [reflexivity | ].
  change (state_list "io submission queue list" _) with iosqs.
  change (state_list "io completion queue list" _) with iocqs.
  split; [exact (for_loop_length _ _ _ _ Hsq) | ].
  split; [exact (for_loop_length _ _ _ _ Hcq) | ].
  intros k Hk.
  rewrite (for_loop_nth _ _ _ _ Hcq k Hk), Z.add_0_l.
  destruct (Layout.cq host data (Z.of_nat k)); reflexivity.
Qed.

End JsonFacts.

(** ** Decoding controller state: host byte order *)

Section HostOrder.

(** A load that is not converted is the little-endian value of the bytes on
    a little-endian host and their big-endian value on a big-endian host. *)
Lemma load_unconverted (data : list byte) (off n : Z) :
  load LittleEndian data off n = option_map le_value (bytes_at data off n)
  /\ load BigEndian data off n = option_map be_value (bytes_at data off n).
Proof. split; reflexivity. Qed.

Lemma le16_agree (data : list byte) (off vl vb : Z) :
  load LittleEndian data off 2 = Some vl ->
  load BigEndian data off 2 = Some vb ->
  le16_to_cpu LittleEndian vl = le16_to_cpu BigEndian vb.
Proof.
  intros Hl Hb.
  apply le16_to_cpu_load in Hl, Hb.
  congruence.
Qed.

Lemma le32_agree (data : list byte) (off vl vb : Z) :
  load LittleEndian data off 4 = Some vl ->
  load BigEndian data off 4 = Some vb ->
  le32_to_cpu LittleEndian vl = le32_to_cpu BigEndian vb.
Proof.
  intros Hl Hb.
  apply le32_to_cpu_load in Hl, Hb.
  congruence.
Qed.

Lemma le64_agree (data : list byte) (off vl vb : Z) :
  load LittleEndian data off 8 = Some vl ->
  load BigEndian data off 8 = Some vb ->
  le64_to_cpu LittleEndian vl = le64_to_cpu BigEndian vb.
Proof.
  intros Hl Hb.
  apply le64_to_cpu_load in Hl, Hb.
  congruence.
Qed.

Local Ltac split_loads H :=
  repeat match type of H with
         | context [load ?h ?d ?o ?n] =>
             let v := fresh "v" in
             let Hv := fresh "Hv" in
             destruct (load h d o n) as [v | ] eqn:Hv; [ | discriminate H]
         end.

Local Ltac agree :=
  repeat match goal with
         | Hl : load LittleEndian ?d ?o 2 = Some ?vl,
           Hb : load BigEndian ?d ?o 2 = Some ?vb |- _ =>
             rewrite (le16_agree d o vl vb Hl Hb); clear Hl Hb
         | Hl : load LittleEndian ?d ?o 4 = Some ?vl,
           Hb : load BigEndian ?d ?o 4 = Some ?vb |- _ =>
             rewrite (le32_agree d o vl vb Hl Hb); clear Hl Hb
         | Hl : load LittleEndian ?d ?o 8 = Some ?vl,
           Hb : load BigEndian ?d ?o 8 = Some ?vb |- _ =>
             rewrite (le64_agree d o vl vb Hl Hb); clear Hl Hb
         end.

(** X21.  Every member of a submission-queue record goes through a
    conversion: what is rendered for it, as text or as JSON, is the same on
    a little-endian and on a big-endian host. *)
Theorem sq_rendering_host_independent (data : list byte) (i : Z)
  (sql sqb : nvme_io_submission_queue_data) (human : bool) :
  Layout.sq LittleEndian data i = Some sql ->
  Layout.sq BigEndian data i = Some sqb ->
  TextState.show_sq LittleEndian sql i human = TextState.show_sq BigEndian sqb i human
  /\ JsonState.sq_obj LittleEndian sql = JsonState.sq_obj BigEndian sqb.
Proof.
  unfold Layout.sq; cbv zeta; intros Hl Hb.
  split_loads Hl; split_loads Hb.
  injection Hl as <-; injection Hb as <-.
  unfold TextState.show_sq, JsonState.sq_obj;
    cbn [sq_prp1 sq_qsize sq_qid sq_cqid sq_attrs sq_hp sq_tp].
  agree; split; reflexivity.
Qed.

(** X22.  Every member of a completion-queue record goes through a
    conversion: what is rendered for it, as text or as JSON, is the same on
    a little-endian and on a big-endian host. *)
Theorem cq_rendering_host_independent (data : list byte) (i k : Z)
  (cql cqb : nvme_io_completion_queue_data) (human : bool) :
  Layout.cq LittleEndian data i = Some cql ->
  Layout.cq BigEndian data i = Some cqb ->
  TextState.show_cq LittleEndian cql k human = TextState.show_cq BigEndian cqb k human
  /\ JsonState.cq_obj LittleEndian cql = JsonState.cq_obj BigEndian cqb.
Proof.
  unfold Layout.cq; cbv zeta; intros Hl Hb.
  split_loads Hl; split_loads Hb.
  injection Hl as <-; injection Hb as <-.
  unfold TextState.show_cq, JsonState.cq_obj;
    cbn [cq_prp1 cq_qsize cq_qid cq_hp cq_tp cq_attrs].
  agree; split; reflexivity.
Qed.

End HostOrder.

(** ** Decoding controller state: the renderings on concrete buffers *)

Section DecoderFacts.
Import Examples.

(** On the buffer of 48 + 8 + 24 bytes that declares two submission queues
    the text rendering prints one record and the truncation warning. *)
Lemma text_one_of_two :
  List.length one_of_two = 80%nat
  /\ exists out,
       show_controller_state_data LittleEndian one_of_two 80 0 NORMAL = Some out
       /\ sq_records out = 1%nat
       /\ warnings out = ["WARNING: I/O Submission Queues truncated\n"%string].
Proof.
  split; [reflexivity | ].
  eexists; split; [vm_compute; reflexivity | ].
  split; reflexivity.
Qed.

(** C2, at the failing input.  The structured rendering takes the record
    count from the header as it stands: on the buffer of 48 + 8 + 24 bytes
    that declares niosq = 2 it reads a second record past the end of the
    buffer; when 24 more bytes happen to lie behind the 80 it was given, it
    emits two submission-queue records and no truncation indicator. *)
Theorem json_state_does_not_clamp :
  List.length one_of_two = 80%nat
  /\ show_controller_state_data LittleEndian one_of_two 80 0 json_flags = None
  /\ exists root,
       show_controller_state_data LittleEndian (one_of_two ++ zeros 24) 80 0
         json_flags
       = Some [JsonPrint root; Printf "\n" []]
       /\ List.length (state_list "io submission queue list" root) = 2%nat.
Proof.
  split; [reflexivity | ].
  split; [vm_compute; reflexivity | ].
  eexists; split; [vm_compute; reflexivity | reflexivity].
Qed.

(** C3, at the failing input.  With one submission queue and one
    completion queue in the buffer, the structured rendering builds its
    completion-queue entry from record slot 0, the bytes of the submission
    queue (PRP 0x1111), while the completion queue lies in slot 1 (PRP
    0x2222), where the text rendering reads it. *)
Theorem json_completion_queue_read_from_slot_0 :
  Layout.cq LittleEndian sq_then_cq 1 = Some (mk_cq 0x2222 32 1 2 5 0x00030003)
  /\ Layout.cq LittleEndian sq_then_cq 0 = Some (mk_cq 0x1111 64 1 1 1 0x00070003)
  /\ (exists root,
        show_controller_state_data LittleEndian sq_then_cq 104 0 json_flags
        = Some [JsonPrint root; Printf "\n" []]
        /\ state_list "io completion queue list" root
           = [JsonState.cq_obj LittleEndian (mk_cq 0x1111 64 1 1 1 0x00070003)])
  /\ (exists out,
        show_controller_state_data LittleEndian sq_then_cq 104 0 NORMAL = Some out
        /\ printed "I/O Completion PRP Entry 1 (IOCQPRP1)" out = Some 0x2222).
Proof.
  split; [vm_compute; reflexivity | ].
  split; [vm_compute; reflexivity | ].
  split; eexists; (split; [vm_compute; reflexivity | reflexivity]).
Qed.

(** C4, at the failing input.  On a big-endian host the text rendering
    prints the outer version field without conversion (bytes 01 00 come out
    as 0x100), and it takes the loop counts from niosq and niocq as loaded:
    a buffer holding the one queue it declares is reported as truncated.
    The structured rendering has the same unconverted loop bound and runs
    past the end of the buffer. *)
Theorem counts_and_version_not_converted_on_big_endian :
  le_value (firstn 2 header_only) = 1
  /\ (exists out,
        show_controller_state_data BigEndian header_only 48 0 NORMAL = Some out
        /\ printed "Version (VER)" out = Some 0x100)
  /\ (exists out,
        show_controller_state_data LittleEndian one_sq 80 0 NORMAL = Some out
        /\ warnings out = [])
  /\ (exists out,
        show_controller_state_data BigEndian one_sq 80 0 NORMAL = Some out
        /\ warnings out = ["WARNING: I/O Submission Queues truncated\n"%string])
  /\ show_controller_state_data BigEndian one_sq 80 0 json_flags = None
  /\ Layout.sdata_hdr BigEndian one_sq = Some (mk_ncs_hdr 0x100 0x100 0).
Proof.
  split; [reflexivity | ].
  split; [eexists; split; [vm_compute; reflexivity | reflexivity] | ].
  split; [eexists; split; [vm_compute; reflexivity | reflexivity] | ].
  split; [eexists; split; [vm_compute; reflexivity | reflexivity] | ].
  split; vm_compute; reflexivity.
Qed.

End DecoderFacts.

(* ================================================================== *)
(** * Further properties of the handlers *)

(** ** Create and delete CDQ: the command words *)

Section CdqCommandFacts.

Lemma create_cdq_submitted (w : world) (cfg : CreateCdq.config)
  (cmd : nvme_passthru_cmd) :
  In cmd (submitted (snd (CreateCdq.lm_create_cdq w cfg))) ->
  CreateCdq.sz cfg mod 8 = 0
  /\ nvme_alloc_huge w (u32 (Z.shiftl (CreateCdq.sz cfg) 2)) <> 0
  /\ cmd = CreateCdq.make_cmd cfg
             (nvme_alloc_huge w (u32 (Z.shiftl (CreateCdq.sz cfg) 2))).
Proof.
  unfold CreateCdq.lm_create_cdq.
  destruct (negb (parse_and_open w =? 0)); [intros [] | ].
  rewrite entry_size_in_dwords.
  destruct (CreateCdq.sz cfg mod 8 =? 0) eqn:Hmod; cbn [negb]; [ | intros []].
  destruct (nvme_alloc_huge w _ =? 0) eqn:Hq; [intros [] | ].
  destruct (nvme_submit_admin_passthru w _) as [err res].
  cbn [snd submitted].
  rewrite report_submit_submits_nothing by reflexivity.
  intros [<- | []].
  apply Z.eqb_eq in Hmod; apply Z.eqb_neq in Hq.
  repeat split; assumption.
Qed.

(** X1.  Every Create CDQ command that reaches the transport has opcode
    0x45, cdw10 = queue-type << 16 (create selector 0), cdw11 =
    (controller-id << 16) | 1, cdw12 = the size in dwords, which is a
    multiple of 8, zero in cdw13..cdw15, the non-null queue buffer as its
    address and size * 4 in 32 bits as its length. *)
Theorem create_cdq_command_words (w : world) (cfg : CreateCdq.config)
  (cmd : nvme_passthru_cmd) :
  CreateCdq.config_ok cfg ->
  In cmd (submitted (snd (CreateCdq.lm_create_cdq w cfg))) ->
  opcode cmd = 0x45
  /\ cdw10 cmd = Z.shiftl (CreateCdq.qt cfg) 16
  /\ cdw11 cmd = Z.lor (Z.shiftl (CreateCdq.cntlid cfg) 16) 1
  /\ cdw12 cmd = CreateCdq.sz cfg
  /\ cdw12 cmd mod 8 = 0
  /\ (cdw13 cmd = 0 /\ cdw14 cmd = 0 /\ cdw15 cmd = 0)
  /\ data_len cmd = (4 * CreateCdq.sz cfg) mod 2 ^ 32
  /\ nvme_alloc_huge w (data_len cmd) <> 0
  /\ addr cmd = u64 (nvme_alloc_huge w (data_len cmd)).
Proof.
  intros (Hsz & Hid & Hqt) Hin.
  destruct (create_cdq_submitted w cfg cmd Hin) as (Hmod & Hq & ->).
  unfold CreateCdq.make_cmd;
    cbn [opcode cdw10 cdw11 cdw12 cdw13 cdw14 cdw15 addr data_len].
  split; [reflexivity | ].
  split.
  { unfold CREATE_CONTROLLER_DATA_QUEUE; rewrite Z.lor_0_r.
    apply u32_int_shl_u8_16; exact Hqt. }
  split.
  { rewrite u32_lor, (u32_int_shl_u16_16 _ Hid); reflexivity. }
  split; [reflexivity | ].
  split; [exact Hmod | ].
  split; [repeat split | ].
  split.
  { unfold u32; rewrite Z.shiftl_mul_pow2 by lia; f_equal; lia. }
  split; [exact Hq | reflexivity].
Qed.

Lemma create_cdq_command_words_witness :
  opcode (CreateCdq.make_cmd (CreateCdq.mk_config 16 0x8001 2 false) 0x1000) = 0x45
  /\ cdw10 (CreateCdq.make_cmd (CreateCdq.mk_config 16 0x8001 2 false) 0x1000)
     = 0x20000
  /\ cdw11 (CreateCdq.make_cmd (CreateCdq.mk_config 16 0x8001 2 false) 0x1000)
     = 0x80010001
  /\ cdw12 (CreateCdq.make_cmd (CreateCdq.mk_config 16 0x8001 2 false) 0x1000)
     = 16
  /\ cdw12 (CreateCdq.make_cmd (CreateCdq.mk_config 16 0x8001 2 false) 0x1000)
     mod 8 = 0
  /\ (cdw13 (CreateCdq.make_cmd (CreateCdq.mk_config 16 0x8001 2 false) 0x1000) = 0
      /\ cdw14 (CreateCdq.make_cmd (CreateCdq.mk_config 16 0x8001 2 false) 0x1000) = 0
      /\ cdw15 (CreateCdq.make_cmd (CreateCdq.mk_config 16 0x8001 2 false) 0x1000) = 0)
  /\ data_len (CreateCdq.make_cmd (CreateCdq.mk_config 16 0x8001 2 false) 0x1000)
     = 64
  /\ nvme_alloc_huge Examples.w0 64 <> 0
  /\ addr (CreateCdq.make_cmd (CreateCdq.mk_config 16 0x8001 2 false) 0x1000)
     = 0x1000.
Proof.
  apply (create_cdq_command_words Examples.w0
           (CreateCdq.mk_config 16 0x8001 2 false)
           (CreateCdq.make_cmd (CreateCdq.mk_config 16 0x8001 2 false) 0x1000)).
  - solve_ranges.
  - left; reflexivity.
Defined.

(** X2.  The length of a submitted Create CDQ command is four times the
    size in cdw12 exactly when the size is below 2^30 dwords; from 2^30 on
    the 32-bit product wraps and the buffer is shorter than the queue the
    command announces. *)
Theorem create_cdq_length_wraps (w : world) (cfg : CreateCdq.config)
  (cmd : nvme_passthru_cmd) :
  CreateCdq.config_ok cfg ->
  In cmd (submitted (snd (CreateCdq.lm_create_cdq w cfg))) ->
  (data_len cmd = 4 * cdw12 cmd <-> cdw12 cmd < 2 ^ 30)
  /\ data_len cmd <= 4 * cdw12 cmd.
Proof.
  intros (Hsz & _) Hin.
  destruct (create_cdq_submitted w cfg cmd Hin) as (_ & _ & ->).
  unfold CreateCdq.make_cmd; cbn [cdw12 data_len].
  unfold u32, is_u32 in *.
  rewrite Z.shiftl_mul_pow2 by lia.
  replace (CreateCdq.sz cfg * 2 ^ 2) with (4 * CreateCdq.sz cfg) by lia.
  pose proof (Z.mod_pos_bound (4 * CreateCdq.sz cfg) (2 ^ 32) ltac:(lia)) as Hb.
  pose proof (Z.mod_le (4 * CreateCdq.sz cfg) (2 ^ 32) ltac:(lia) ltac:(lia)) as Hle.
  split; [ | exact Hle].
  split.
  - intros Heq; rewrite Heq in Hb; lia.
  - intros Hlt; apply Z.mod_small; lia.
Qed.

Lemma create_cdq_length_wraps_witness :
  (data_len (CreateCdq.make_cmd (CreateCdq.mk_config (2 ^ 30) 0 0 false) 0x1000)
   = 4 * cdw12 (CreateCdq.make_cmd (CreateCdq.mk_config (2 ^ 30) 0 0 false) 0x1000)
   <-> cdw12 (CreateCdq.make_cmd (CreateCdq.mk_config (2 ^ 30) 0 0 false) 0x1000)
       < 2 ^ 30)
  /\ data_len (CreateCdq.make_cmd (CreateCdq.mk_config (2 ^ 30) 0 0 false) 0x1000)
     <= 4 * cdw12 (CreateCdq.make_cmd (CreateCdq.mk_config (2 ^ 30) 0 0 false) 0x1000).
Proof.
  apply (create_cdq_length_wraps Examples.w0
           (CreateCdq.mk_config (2 ^ 30) 0 0 false)
           (CreateCdq.make_cmd (CreateCdq.mk_config (2 ^ 30) 0 0 false) 0x1000)).
  - solve_ranges.
  - left; reflexivity.
Defined.

(** X3.  Delete CDQ checks nothing: once the arguments are parsed it
    submits exactly one command, opcode 0x45 with the delete selector 1 in
    cdw10 and the queue id in cdw11, no buffer and every other word zero,
    and returns the status of that submit. *)
Theorem delete_cdq_always_submits (w : world) (cfg : DeleteCdq.config) :
  parse_and_open w = 0 ->
  exists cmd,
    submitted (snd (DeleteCdq.lm_delete_cdq w cfg)) = [cmd]
    /\ fst (DeleteCdq.lm_delete_cdq w cfg)
       = Return (fst (nvme_submit_admin_passthru w cmd))
    /\ opcode cmd = 0x45
    /\ cdw10 cmd = 1
    /\ cdw11 cmd = DeleteCdq.cdqid cfg
    /\ (cdw12 cmd = 0 /\ cdw13 cmd = 0 /\ cdw14 cmd = 0 /\ cdw15 cmd = 0)
    /\ addr cmd = 0
    /\ data_len cmd = 0.
Proof.
  intros Hparse.
  exists (DeleteCdq.make_cmd cfg).
  unfold DeleteCdq.lm_delete_cdq; rewrite Hparse; cbn [negb Z.eqb].
  destruct (nvme_submit_admin_passthru w (DeleteCdq.make_cmd cfg)) as [err res].
  cbn [fst snd submitted].
  rewrite report_submit_submits_nothing by reflexivity.
  repeat split.
Qed.

Lemma delete_cdq_always_submits_witness :
  exists cmd,
    submitted (snd (DeleteCdq.lm_delete_cdq (Examples.world_of 7 [])
                      (DeleteCdq.mk_config 3))) = [cmd]
    /\ fst (DeleteCdq.lm_delete_cdq (Examples.world_of 7 []) (DeleteCdq.mk_config 3))
       = Return 7
    /\ opcode cmd = 0x45
    /\ cdw10 cmd = 1
    /\ cdw11 cmd = 3
    /\ (cdw12 cmd = 0 /\ cdw13 cmd = 0 /\ cdw14 cmd = 0 /\ cdw15 cmd = 0)
    /\ addr cmd = 0
    /\ data_len cmd = 0.
Proof.
  apply (delete_cdq_always_submits (Examples.world_of 7 []) (DeleteCdq.mk_config 3)).
  reflexivity.
Defined.

End CdqCommandFacts.

(** ** Track Send: select codes and the command words *)

Section TrackSendCommandFacts.
Import TrackSend.

(** X4.  Track Send refuses every select code other than 0 with -EINVAL
    and the unsupported-select diagnostic, submitting nothing.  A request
    without a select code keeps the initializer 255 and is refused on this
    path too: the select-required test never applies to a [__u8]. *)
Theorem track_send_other_select_rejected (w : world) (cfg : config) :
  parse_and_open w = 0 ->
  is_u8 (select cfg) ->
  select cfg <> TRACK_SEND_SELECT_LOG_USER_DATA_CHANGES ->
  lm_track_send w cfg
  = (Return (- EINVAL),
     [ShowError "Unsupported select option %d (%s)"
        [AInt (select cfg);
         AStr (arg_str lm_track_send_select_argstr (select cfg))]]).
Proof.
  intros Hparse Hu8 Hsel.
  unfold lm_track_send.
  rewrite Hparse, (u8_never_minus_one _ Hu8).
  apply Z.eqb_neq in Hsel; rewrite Hsel.
  reflexivity.
Qed.

Lemma track_send_other_select_rejected_witness :
  lm_track_send Examples.w0 default
  = (Return (- EINVAL),
     [ShowError "Unsupported select option %d (%s)"
        [AInt 255; AStr "unrecognized"]]).
Proof.
  apply (track_send_other_select_rejected Examples.w0 default);
    [reflexivity | solve_ranges | discriminate].
Defined.

Lemma track_send_submitted (w : world) (cfg : config) (cmd : nvme_passthru_cmd) :
  In cmd (submitted (snd (lm_track_send w cfg))) ->
  select cfg = TRACK_SEND_SELECT_LOG_USER_DATA_CHANGES
  /\ start cfg && stop cfg = false
  /\ cmd = make_cmd cfg.
Proof.
  unfold lm_track_send.
  destruct (negb (parse_and_open w =? 0)); [intros [] | ].
  destruct (select cfg =? -1); [intros [] | ].
  destruct (select cfg =? TRACK_SEND_SELECT_LOG_USER_DATA_CHANGES) eqn:Hsel;
    cbn [negb]; [ | intros []].
  destruct (start cfg && stop cfg) eqn:Hflags; [intros [] | ].
  destruct (nvme_submit_admin_passthru w (make_cmd cfg)) as [err res].
  cbn [snd submitted].
  rewrite report_submit_submits_nothing by reflexivity.
  intros [<- | []].
  apply Z.eqb_eq in Hsel.
  repeat split; assumption.
Qed.

(** X5.  A Track Send command that reaches the transport has select 0 and
    at most one of start and stop; its cdw10 is the management operation
    shifted to bit 16, where --start stands for operation 1 and --stop for
    operation 0 and either one replaces a value given with --mos; cdw11 is
    the queue id, and there is no buffer. *)
Theorem track_send_command_words (w : world) (cfg : config)
  (cmd : nvme_passthru_cmd) :
  config_ok cfg ->
  In cmd (submitted (snd (lm_track_send w cfg))) ->
  select cfg = 0
  /\ start cfg && stop cfg = false
  /\ opcode cmd = 0x3D
  /\ cdw10 cmd
     = Z.shiftl (if start cfg then 1 else if stop cfg then 0 else mos cfg) 16
  /\ cdw11 cmd = cdqid cfg
  /\ (cdw12 cmd = 0 /\ cdw13 cmd = 0 /\ cdw14 cmd = 0 /\ cdw15 cmd = 0)
  /\ addr cmd = 0
  /\ data_len cmd = 0.
Proof.
  intros (_ & Hmos & _) Hin.
  destruct (track_send_submitted w cfg cmd Hin) as (Hsel & Hflags & ->).
  split; [exact Hsel | ].
  split; [exact Hflags | ].
  unfold make_cmd, effective_mos;
    cbn [opcode cdw10 cdw11 cdw12 cdw13 cdw14 cdw15 addr data_len].
  rewrite Hsel, Z.eqb_refl.
  split; [reflexivity | ].
  split; [ | repeat split].
  change (Z.lor TRACK_SEND_SELECT_LOG_USER_DATA_CHANGES ?x) with x.
  apply u32_int_shl_u8_16.
  destruct (start cfg); [solve_ranges | ].
  destruct (stop cfg); [solve_ranges | exact Hmos].
Qed.

Lemma track_send_command_words_witness :
  select (mk_config 0 7 3 true false) = 0
  /\ start (mk_config 0 7 3 true false) && stop (mk_config 0 7 3 true false) = false
  /\ opcode (make_cmd (mk_config 0 7 3 true false)) = 0x3D
  /\ cdw10 (make_cmd (mk_config 0 7 3 true false)) = 0x10000
  /\ cdw11 (make_cmd (mk_config 0 7 3 true false)) = 3
  /\ (cdw12 (make_cmd (mk_config 0 7 3 true false)) = 0
      /\ cdw13 (make_cmd (mk_config 0 7 3 true false)) = 0
      /\ cdw14 (make_cmd (mk_config 0 7 3 true false)) = 0
      /\ cdw15 (make_cmd (mk_config 0 7 3 true false)) = 0)
  /\ addr (make_cmd (mk_config 0 7 3 true false)) = 0
  /\ data_len (make_cmd (mk_config 0 7 3 true false)) = 0.
Proof.
  apply (track_send_command_words Examples.w0 (mk_config 0 7 3 true false)
           (make_cmd (mk_config 0 7 3 true false))).
  - solve_ranges.
  - left; reflexivity.
Defined.

End TrackSendCommandFacts.

(** ** Migration Send: what is refused, and the command words *)

Section MigrationSendCommandFacts.
Import MigrationSend.

Lemma testbit_above (x k n : Z) :
  0 <= k <= n -> 0 <= x < 2 ^ k -> Z.testbit x n = false.
Proof.
  intros Hn Hx.
  destruct (Z.eq_dec x 0) as [-> | Hnz]; [apply Z.testbit_0_l | ].
  apply Z.bits_above_log2; [lia | ].
  assert (Z.log2 x < k) by (apply Z.log2_lt_pow2; lia).
  lia.
Qed.

(** X6.  Suspend and Resume are refused with -EINVAL, before any file is
    opened or command built, as soon as the UUID index or the version index
    is not zero. *)
Theorem migration_send_suspend_resume_rejects_state_fields (w : world)
  (cfg : config) :
  parse_and_open w = 0 ->
  sel cfg = MIGRATION_SEND_SUSPEND \/ sel cfg = MIGRATION_SEND_RESUME ->
  csuuidi cfg <> 0 \/ csvi cfg <> 0 ->
  lm_migration_send w cfg
  = (Return (- EINVAL),
     [ShowError "Unexpected fields for %s"
        [AStr (arg_str lm_migration_send_select_argstr (sel cfg))]]).
Proof.
  intros Hparse Hsel Hfields.
  unfold lm_migration_send, sanity_check.
  rewrite Hparse; cbn [negb Z.eqb].
  assert (Hm1 : (sel cfg =? -1) = false)
    by (destruct Hsel as [-> | ->]; reflexivity).
  assert (Hsr : (sel cfg =? MIGRATION_SEND_SUSPEND)
                || (sel cfg =? MIGRATION_SEND_RESUME) = true)
    by (destruct Hsel as [-> | ->]; reflexivity).
  assert (Hnz : negb (csuuidi cfg =? 0) || negb (csvi cfg =? 0) = true).
  { destruct Hfields as [H | H]; apply Z.eqb_neq in H; rewrite H; cbn [negb orb];
      [reflexivity | apply orb_true_r]. }
  rewrite Hm1, Hsr, Hnz; reflexivity.
Qed.

Lemma migration_send_suspend_resume_rejects_state_fields_witness :
  lm_migration_send Examples.w0 (mk_config 1 0 0 0 4 5 0 0 None false)
  = (Return (- EINVAL), [ShowError "Unexpected fields for %s" [AStr "Resume"]]).
Proof.
  apply (migration_send_suspend_resume_rejects_state_fields Examples.w0
           (mk_config 1 0 0 0 4 5 0 0 None false));
    [reflexivity | right; reflexivity | right; discriminate].
Defined.

(** X7.  Set Controller State is refused with -EINVAL when the delete flag
    or a suspend type is given, and when the input file name is empty.
    When no input file option was given at all the pointer is NULL and the
    check takes its length: the handler does not return. *)
Theorem migration_send_set_state_validation (w : world) (cfg : config) :
  parse_and_open w = 0 ->
  sel cfg = MIGRATION_SEND_SET_CONTROLLER_STATE ->
  (delete cfg = true \/ stype cfg <> 0 ->
   lm_migration_send w cfg
   = (Return (- EINVAL),
      [ShowError "Unexpected fields for %s" [AStr "Set Controller State"]]))
  /\ (delete cfg = false -> stype cfg = 0 -> input cfg = Some EmptyString ->
      lm_migration_send w cfg
      = (Return (- EINVAL),
         [ShowError "Expected file for %s" [AStr "Set Controller State"]]))
  /\ (delete cfg = false -> stype cfg = 0 -> input cfg = None ->
      lm_migration_send w cfg = (Undefined, [])).
Proof.
  intros Hparse Hsel.
  unfold lm_migration_send, sanity_check, unexpected_fields.
  rewrite Hparse, Hsel; cbn [negb Z.eqb].
  change (MIGRATION_SEND_SET_CONTROLLER_STATE =? -1) with false.
  change (MIGRATION_SEND_SET_CONTROLLER_STATE =? MIGRATION_SEND_SUSPEND) with false.
  change (MIGRATION_SEND_SET_CONTROLLER_STATE =? MIGRATION_SEND_RESUME) with false.
  rewrite Z.eqb_refl; cbn [orb].
  split; [ | split].
  - intros Hbad.
    assert (Hc : delete cfg || negb (stype cfg =? 0) = true).
    { destruct Hbad as [-> | H]; [reflexivity | ].
      apply Z.eqb_neq in H; rewrite H; apply orb_true_r. }
    rewrite Hc; reflexivity.
  - intros -> -> ->; reflexivity.
  - intros -> -> ->; reflexivity.
Qed.

Lemma migration_send_set_state_validation_witness :
  lm_migration_send Examples.w0 (mk_config 2 0 0 1 2 5 0 4 None false)
  = (Undefined, []).
Proof.
  apply (migration_send_set_state_validation Examples.w0
           (mk_config 2 0 0 1 2 5 0 4 None false)); reflexivity.
Defined.

(** X8.  Once a request with an input file has passed the field checks,
    a file that cannot be opened gives -EINVAL, a failed allocation
    -ENOMEM, and a read that returns fewer than numd * 4 bytes returns
    -errno, which is 0 when the file simply ended early; in none of these
    cases is a command submitted. *)
Theorem migration_send_input_failures (w : world) (cfg : config) (path : string) :
  parse_and_open w = 0 ->
  is_u8 (sel cfg) ->
  sanity_check cfg = None ->
  input cfg = Some path ->
  String.length path <> 0%nat ->
  (fopen w path "r" = false ->
   lm_migration_send w cfg = (Return (- EINVAL), [ShowPerror path]))
  /\ (fopen w path "r" = true ->
      nvme_alloc_huge w (u32 (Z.shiftl (numd cfg) 2)) = 0 ->
      lm_migration_send w cfg = (Return (- ENOMEM), []))
  /\ (fopen w path "r" = true ->
      nvme_alloc_huge w (u32 (Z.shiftl (numd cfg) 2)) <> 0 ->
      fread w path (u32 (Z.shiftl (numd cfg) 2)) <> u32 (Z.shiftl (numd cfg) 2) ->
      fst (lm_migration_send w cfg) = Return (- errno w)
      /\ submitted (snd (lm_migration_send w cfg)) = []).
Proof.
  intros Hparse Hu8 Hcheck Hinput Hlen.
  unfold lm_migration_send, load_input.
  rewrite Hparse, (u8_never_minus_one _ Hu8), Hcheck, Hinput.
  apply Nat.eqb_neq in Hlen; rewrite Hlen.
  cbn [negb Z.eqb].
  split; [ | split].
  - intros ->; reflexivity.
  - intros -> ->; reflexivity.
  - intros -> Halloc Hread.
    apply Z.eqb_neq in Halloc, Hread; rewrite Halloc, Hread.
    split; reflexivity.
Qed.

Lemma migration_send_input_failures_witness :
  lm_migration_send
    (mk_world 0 (fun _ => (0, NORMAL)) (fun _ => 0x1000) (fun _ _ => false)
       (fun _ n => n) (fun n => n) 0 (fun _ => EmptyString) (fun _ => EmptyString)
       (fun _ => (0, 0)) (fun _ => []) (fun _ => 0) (fun _ => (0, [])))
    Examples.set_state_request
  = (Return (- EINVAL), [ShowPerror "state.bin"]).
Proof.
  apply (migration_send_input_failures
           (mk_world 0 (fun _ => (0, NORMAL)) (fun _ => 0x1000) (fun _ _ => false)
              (fun _ n => n) (fun n => n) 0 (fun _ => EmptyString)
              (fun _ => EmptyString) (fun _ => (0, 0)) (fun _ => [])
              (fun _ => 0) (fun _ => (0, [])))
           Examples.set_state_request "state.bin");
    [reflexivity | solve_ranges | reflexivity | reflexivity | discriminate
    | reflexivity].
Defined.

(** X9.  A submitted Migration Send command has opcode 0x41, cdw10 =
    (sequence-indicator << 16) | select, the 64-bit offset split into its
    low half in cdw12 and its high half in cdw13, so that cdw12 + 2^32 *
    cdw13 gives the offset back, zero in cdw14 and numd in cdw15. *)
Theorem migration_send_command_words (w : world) (cfg : config)
  (cmd : nvme_passthru_cmd) :
  config_ok cfg ->
  In cmd (submitted (snd (lm_migration_send w cfg))) ->
  opcode cmd = 0x41
  /\ cdw10 cmd = Z.lor (Z.shiftl (seqind cfg) 16) (sel cfg)
  /\ 0 <= cdw12 cmd < 2 ^ 32
  /\ 0 <= cdw13 cmd < 2 ^ 32
  /\ cdw12 cmd + 2 ^ 32 * cdw13 cmd = offset cfg
  /\ cdw14 cmd = 0
  /\ cdw15 cmd = numd cfg.
Proof.
  intros (Hsel & _ & Hseq & _ & _ & _ & Hoff & _) Hin.
  destruct (migration_send_submitted w cfg cmd Hin) as (_ & data & _ & ->).
  unfold make_cmd; cbn [opcode cdw10 cdw12 cdw13 cdw14 cdw15].
  split; [reflexivity | ].
  split.
  { rewrite u32_lor, (u32_int_shl_u8_16 _ Hseq), (u32_u8 _ Hsel); reflexivity. }
  unfold u32, is_u64 in *.
  rewrite Z.shiftr_div_pow2 by lia.
  assert (Hhi : 0 <= offset cfg / 2 ^ 32 < 2 ^ 32).
  { split; [apply Z.div_pos; lia | ].
    apply Z.div_lt_upper_bound; [lia | ].
    change (2 ^ 32 * 2 ^ 32) with (2 ^ 64); lia. }
  rewrite (Z.mod_small (offset cfg / 2 ^ 32)) by exact Hhi.
  split; [apply Z.mod_pos_bound; lia | ].
  split; [exact Hhi | ].
  split; [ | split; reflexivity].
  rewrite (Z.div_mod (offset cfg) (2 ^ 32)) at 3 by lia.
  lia.
Qed.

Lemma migration_send_command_words_witness :
  opcode (make_cmd (mk_config 0 1 3 0 0 5 0x100000002 0 None true) 0) = 0x41
  /\ cdw10 (make_cmd (mk_config 0 1 3 0 0 5 0x100000002 0 None true) 0) = 0x30000
  /\ 0 <= cdw12 (make_cmd (mk_config 0 1 3 0 0 5 0x100000002 0 None true) 0) < 2 ^ 32
  /\ 0 <= cdw13 (make_cmd (mk_config 0 1 3 0 0 5 0x100000002 0 None true) 0) < 2 ^ 32
  /\ cdw12 (make_cmd (mk_config 0 1 3 0 0 5 0x100000002 0 None true) 0)
     + 2 ^ 32 * cdw13 (make_cmd (mk_config 0 1 3 0 0 5 0x100000002 0 None true) 0)
     = 0x100000002
  /\ cdw14 (make_cmd (mk_config 0 1 3 0 0 5 0x100000002 0 None true) 0) = 0
  /\ cdw15 (make_cmd (mk_config 0 1 3 0 0 5 0x100000002 0 None true) 0) = 0.
Proof.
  apply (migration_send_command_words Examples.w0
           (mk_config 0 1 3 0 0 5 0x100000002 0 None true)
           (make_cmd (mk_config 0 1 3 0 0 5 0x100000002 0 None true) 0)).
  - solve_ranges.
  - left; reflexivity.
Defined.

(** X10.  For every select code other than Set Controller State a
    submitted Migration Send command has cdw11 = (delete << 31) |
    (suspend-type << 16) | controller-id; bit 31 is the delete flag and the
    low 16 bits are the controller id. *)
Theorem migration_send_suspend_cdw11 (w : world) (cfg : config)
  (cmd : nvme_passthru_cmd) :
  config_ok cfg ->
  sel cfg <> MIGRATION_SEND_SET_CONTROLLER_STATE ->
  In cmd (submitted (snd (lm_migration_send w cfg))) ->
  cdw11 cmd
  = Z.lor (Z.lor (Z.shiftl (int_of_bool (delete cfg)) 31)
                 (Z.shiftl (stype cfg) 16))
          (cntlid cfg)
  /\ Z.testbit (cdw11 cmd) 31 = delete cfg
  /\ Z.land (cdw11 cmd) 0xFFFF = cntlid cfg.
Proof.
  intros (_ & Hstype & _ & _ & _ & Hid & _) Hsel Hin.
  destruct (migration_send_submitted w cfg cmd Hin) as (_ & data & _ & ->).
  unfold make_cmd; cbn [cdw11].
  apply Z.eqb_neq in Hsel; rewrite Hsel.
  assert (Hb : 0 <= int_of_bool (delete cfg) <= 1)
    by (destruct (delete cfg); cbn; lia).
  rewrite !u32_lor, (u32_int_shl_u8_16 _ Hstype), (u32_u16 _ Hid).
  rewrite (u32_int_shl (int_of_bool (delete cfg)) 31) by lia.
  split; [reflexivity | ].
  unfold is_u8, is_u16 in *.
  split.
  - rewrite !Z.lor_spec, !Z.shiftl_spec by lia.
    rewrite (testbit_above (stype cfg) 8 (31 - 16)) by lia.
    rewrite (testbit_above (cntlid cfg) 16 31) by lia.
    rewrite !orb_false_r.
    destruct (delete cfg); reflexivity.
  - change 0xFFFF with (Z.ones 16).
    rewrite Z.land_ones by lia.
    rewrite <- (Z.land_ones _ 16) by lia.
    apply Z.bits_inj'; intros n Hn.
    rewrite Z.land_spec, !Z.lor_spec, !Z.shiftl_spec by lia.
    destruct (Z.ltb_spec n 16) as [Hlt | Hge].
    + rewrite Z.ones_spec_low by lia.
      rewrite (Z.testbit_neg_r _ (n - 31)), (Z.testbit_neg_r _ (n - 16)) by lia.
      rewrite andb_true_r; reflexivity.
    + rewrite Z.ones_spec_high by lia.
      rewrite andb_false_r.
      symmetry; apply (testbit_above (cntlid cfg) 16 n); lia.
Qed.

Lemma migration_send_suspend_cdw11_witness :
  cdw11 (make_cmd (mk_config 0 1 3 0 0 5 0x100000002 0 None true) 0) = 0x80010005
  /\ Z.testbit (cdw11 (make_cmd (mk_config 0 1 3 0 0 5 0x100000002 0 None true) 0)) 31
     = true
  /\ Z.land (cdw11 (make_cmd (mk_config 0 1 3 0 0 5 0x100000002 0 None true) 0)) 0xFFFF
     = 5.
Proof.
  apply (migration_send_suspend_cdw11 Examples.w0
           (mk_config 0 1 3 0 0 5 0x100000002 0 None true)
           (make_cmd (mk_config 0 1 3 0 0 5 0x100000002 0 None true) 0)).
  - solve_ranges.
  - discriminate.
  - left; reflexivity.
Defined.

End MigrationSendCommandFacts.

(** ** What the handlers return after a submit *)

Section SubmitStatusFacts.

(** X11.  Create CDQ, Delete CDQ, Track Send and Migration Send return
    the value nvme_submit_admin_passthru gave for the command they
    submitted, whatever its sign, and Set CDQ returns the value of
    nvme_set_features. *)
Theorem submit_status_is_returned (w : world) (cmd : nvme_passthru_cmd) :
  (forall cfg,
     In cmd (submitted (snd (CreateCdq.lm_create_cdq w cfg))) ->
     fst (CreateCdq.lm_create_cdq w cfg)
     = Return (fst (nvme_submit_admin_passthru w cmd)))
  /\ (forall cfg,
        In cmd (submitted (snd (DeleteCdq.lm_delete_cdq w cfg))) ->
        fst (DeleteCdq.lm_delete_cdq w cfg)
        = Return (fst (nvme_submit_admin_passthru w cmd)))
  /\ (forall cfg,
        In cmd (submitted (snd (TrackSend.lm_track_send w cfg))) ->
        fst (TrackSend.lm_track_send w cfg)
        = Return (fst (nvme_submit_admin_passthru w cmd)))
  /\ (forall cfg,
        In cmd (submitted (snd (MigrationSend.lm_migration_send w cfg))) ->
        fst (MigrationSend.lm_migration_send w cfg)
        = Return (fst (nvme_submit_admin_passthru w cmd)))
  /\ (forall cfg,
        parse_and_open w = 0 ->
        fst (SetCdq.lm_set_cdq w cfg)
        = Return (nvme_set_features w (SetCdq.make_args cfg))).
Proof.
  split; [intros cfg; apply create_cdq_returns_status | ].
  split; [intros cfg; apply delete_cdq_returns_status | ].
  split; [intros cfg; apply track_send_returns_status | ].
  split; [intros cfg; apply migration_send_returns_status | ].
  intros cfg; apply set_cdq_returns_status.
Qed.

Lemma submit_status_is_returned_witness :
  fst (TrackSend.lm_track_send (Examples.world_of (-5) [])
         (TrackSend.mk_config 0 0 3 true false))
  = Return (-5).
Proof.
  apply (submit_status_is_returned (Examples.world_of (-5) [])
           (TrackSend.make_cmd (TrackSend.mk_config 0 0 3 true false))).
  left; reflexivity.
Defined.

End SubmitStatusFacts.

(** ** Migration Receive: what is refused, the command words, the buffer *)

Section MigrationRecvFacts.
Import MigrationRecv.

(** The path from the entry of the handler to the submit. *)
Lemma migration_recv_reaches_submit (host : byte_order) (w : world) (cfg : config) :
  parse_and_open w = 0 ->
  0 <= fst (validate_output_format w (output_format cfg)) ->
  offset cfg = 0
  \/ BINARY (snd (validate_output_format w (output_format cfg))) = true ->
  nvme_alloc_huge w (buffer_len cfg) <> 0 ->
  exists rest,
    snd (lm_migration_recv host w cfg)
    = Submit (make_cmd cfg (nvme_alloc_huge w (buffer_len cfg))) :: rest.
Proof.
  intros Hparse Hfmt Hoff Halloc.
  unfold lm_migration_recv.
  rewrite Hparse; cbn [negb Z.eqb].
  destruct (validate_output_format w (output_format cfg)) as [verr flags].
  cbn [fst snd] in Hfmt, Hoff.
  apply Z.ltb_ge in Hfmt; rewrite Hfmt.
  assert (Hgate : non_null (output_format cfg) && negb (offset cfg =? 0)
                  && negb (BINARY flags) = false).
  { destruct Hoff as [-> | ->]; cbn [Z.eqb negb];
      [rewrite andb_false_r | rewrite andb_false_r]; reflexivity. }
  rewrite Hgate.
  apply Z.eqb_neq in Halloc; rewrite Halloc.
  destruct (nvme_submit_admin_passthru w _) as [err res].
  destruct (err <? 0); [eexists; reflexivity | ].
  destruct (negb (err =? 0)); [eexists; reflexivity | ].
  destruct (on_success _ _ _ _ _ _); eexists; reflexivity.
Qed.

(** X12.  When the arguments parse, the output format is accepted, the
    offset is zero or the format is binary, and the buffer is allocated,
    Migration Receive submits a command with opcode 0x42, cdw10 =
    version-index << 16 (selector 0), cdw11 = (uuid-index << 16) |
    controller-id, the offset split into its low 32 bits in cdw12 and its
    high 32 bits in cdw13, numd in cdw15 and (numd + 1) * 4 in 32 bits as
    its length. *)
Theorem migration_recv_command_words (host : byte_order) (w : world)
  (cfg : config) :
  config_ok cfg ->
  parse_and_open w = 0 ->
  0 <= fst (validate_output_format w (output_format cfg)) ->
  offset cfg = 0
  \/ BINARY (snd (validate_output_format w (output_format cfg))) = true ->
  nvme_alloc_huge w (buffer_len cfg) <> 0 ->
  exists cmd rest,
    snd (lm_migration_recv host w cfg) = Submit cmd :: rest
    /\ opcode cmd = 0x42
    /\ cdw10 cmd = Z.shiftl (csvi cfg) 16
    /\ cdw11 cmd = Z.lor (Z.shiftl (csuuidi cfg) 16) (cntlid cfg)
    /\ cdw12 cmd = offset cfg mod 2 ^ 32
    /\ cdw13 cmd = offset cfg / 2 ^ 32
    /\ 0 <= cdw12 cmd < 2 ^ 32
    /\ 0 <= cdw13 cmd < 2 ^ 32
    /\ cdw12 cmd + 2 ^ 32 * cdw13 cmd = offset cfg
    /\ cdw14 cmd = 0
    /\ cdw15 cmd = numd cfg
    /\ data_len cmd = (4 * ((numd cfg + 1) mod 2 ^ 32)) mod 2 ^ 32
    /\ addr cmd = u64 (nvme_alloc_huge w (data_len cmd)).
Proof.
  intros (Hid & Huuid & Hver & Hoffr & Hnumd) Hparse Hfmt Hoff Halloc.
  destruct (migration_recv_reaches_submit host w cfg Hparse Hfmt Hoff Halloc)
    as [rest Hrun].
  exists (make_cmd cfg (nvme_alloc_huge w (buffer_len cfg))), rest.
  split; [exact Hrun | ].
  unfold make_cmd;
    cbn [opcode cdw10 cdw11 cdw12 cdw13 cdw14 cdw15 addr data_len].
  split; [reflexivity | ].
  split.
  { unfold MIGRATION_RECV_GET_CONTROLLER_STATE; rewrite Z.lor_0_r.
    apply u32_int_shl_u8_16; exact Hver. }
  split.
  { rewrite u32_lor, (u32_int_shl_u8_16 _ Huuid), (u32_u16 _ Hid); reflexivity. }
  assert (Hhi : 0 <= offset cfg / 2 ^ 32 < 2 ^ 32).
  { unfold is_u64 in Hoffr.
    split; [apply Z.div_pos; lia | ].
    apply Z.div_lt_upper_bound; [lia | ].
    change (2 ^ 32 * 2 ^ 32) with (2 ^ 64); lia. }
  assert (H13 : u32 (Z.shiftr (offset cfg) 32) = offset cfg / 2 ^ 32).
  { unfold u32; rewrite Z.shiftr_div_pow2 by lia.
    apply Z.mod_small; exact Hhi. }
  assert (H12 : u32 (offset cfg) = offset cfg mod 2 ^ 32) by reflexivity.
  rewrite H13, H12.
  split; [reflexivity | ].
  split; [reflexivity | ].
  split; [apply Z.mod_pos_bound; lia | ].
  split; [exact Hhi | ].
  split.
  { pose proof (Z.div_mod (offset cfg) (2 ^ 32) ltac:(lia)) as Hdm; lia. }
  split; [reflexivity | ].
  split; [reflexivity | ].
  split; [ | reflexivity].
  unfold buffer_len, u32.
  rewrite Z.shiftl_mul_pow2 by lia.
  f_equal; lia.
Qed.

Lemma migration_recv_command_words_witness :
  exists cmd rest,
    snd (lm_migration_recv LittleEndian
           (Examples.with_flags (Examples.world_of 2 []) (mk_flags false false true))
           (mk_config 5 1 2 0x100000002 19 None (Some "binary"%string) false))
    = Submit cmd :: rest
    /\ opcode cmd = 0x42
    /\ cdw10 cmd = 0x20000
    /\ cdw11 cmd = 0x10005
    /\ cdw12 cmd = 2
    /\ cdw13 cmd = 1
    /\ 0 <= cdw12 cmd < 2 ^ 32
    /\ 0 <= cdw13 cmd < 2 ^ 32
    /\ cdw12 cmd + 2 ^ 32 * cdw13 cmd = 0x100000002
    /\ cdw14 cmd = 0
    /\ cdw15 cmd = 19
    /\ data_len cmd = 80
    /\ addr cmd
       = u64 (nvme_alloc_huge
                (Examples.with_flags (Examples.world_of 2 [])
                   (mk_flags false false true))
                (data_len cmd)).
Proof.
  apply (migration_recv_command_words LittleEndian
           (Examples.with_flags (Examples.world_of 2 []) (mk_flags false false true))
           (mk_config 5 1 2 0x100000002 19 None (Some "binary"%string) false)).
  - solve_ranges.
  - reflexivity.
  - discriminate.
  - right; reflexivity.
  - discriminate.
Defined.

(** X13.  A Migration Receive request with a non-zero offset is refused
    with -EINVAL before anything is allocated or submitted unless the
    output format is binary; this holds whether or not an output file was
    named. *)
Theorem migration_recv_offset_needs_binary (host : byte_order) (w : world)
  (cfg : config) (fmt : string) :
  parse_and_open w = 0 ->
  0 <= fst (validate_output_format w (output_format cfg)) ->
  output_format cfg = Some fmt ->
  offset cfg <> 0 ->
  BINARY (snd (validate_output_format w (output_format cfg))) = false ->
  lm_migration_recv host w cfg
  = (Return (- EINVAL), [ShowError "cannot parse non-zero offset" []]).
Proof.
  intros Hparse Hfmt Hout Hoff Hbin.
  unfold lm_migration_recv.
  rewrite Hparse; cbn [negb Z.eqb].
  destruct (validate_output_format w (output_format cfg)) as [verr flags].
  cbn [fst snd] in Hfmt, Hbin.
  apply Z.ltb_ge in Hfmt; rewrite Hfmt.
  apply Z.eqb_neq in Hoff; rewrite Hout, Hoff, Hbin.
  reflexivity.
Qed.

Lemma migration_recv_offset_needs_binary_witness :
  lm_migration_recv BigEndian Examples.w0
    (mk_config 5 0 0 8 19 (Some "out.bin"%string) (Some "normal"%string) false)
  = (Return (- EINVAL), [ShowError "cannot parse non-zero offset" []]).
Proof.
  apply (migration_recv_offset_needs_binary BigEndian Examples.w0
           (mk_config 5 0 0 8 19 (Some "out.bin"%string) (Some "normal"%string) false)
           "normal");
    [reflexivity | discriminate | reflexivity | discriminate | reflexivity].
Defined.

(** The two lengths in 32-bit arithmetic. *)
Lemma buffer_len_and_write_length (cfg : config) :
  is_u32 (numd cfg) ->
  ((numd cfg + 1) mod 2 ^ 30 <> 0 ->
   buffer_len cfg = u32 (Z.shiftl (numd cfg) 2) + 4)
  /\ ((numd cfg + 1) mod 2 ^ 30 = 0 ->
      buffer_len cfg = 0 /\ u32 (Z.shiftl (numd cfg) 2) = 2 ^ 32 - 4).
Proof.
  unfold is_u32, buffer_len, u32.
  rewrite !Z.shiftl_mul_pow2 by lia.
  change (2 ^ 2) with 4; change (2 ^ 30) with 1073741824;
    change (2 ^ 32) with 4294967296.
  intros Hn; split; intros Hmod; Z.div_mod_to_equations; lia.
Qed.

(** The run of the handler up to the branch taken when the submit
    returned zero, for a request that names an output file. *)
Lemma migration_recv_to_output (host : byte_order) (w : world) (cfg : config)
  (path : string) :
  parse_and_open w = 0 ->
  0 <= fst (validate_output_format w (output_format cfg)) ->
  offset cfg = 0
  \/ BINARY (snd (validate_output_format w (output_format cfg))) = true ->
  output cfg = Some path ->
  String.length path <> 0%nat ->
  nvme_alloc_huge w (buffer_len cfg) <> 0 ->
  fst (nvme_submit_admin_passthru w
         (make_cmd cfg (nvme_alloc_huge w (buffer_len cfg)))) = 0 ->
  lm_migration_recv host w cfg
  = let cmd := make_cmd cfg (nvme_alloc_huge w (buffer_len cfg)) in
    let flags := snd (validate_output_format w (output_format cfg)) in
    let flags := if human_readable cfg
                 then mk_flags true (JSON flags) (BINARY flags)
                 else flags in
    let line := cdw0_line flags (snd (nvme_submit_admin_passthru w cmd)) in
    if fopen w path "w" then
      match bytes_at (buffer_after w cmd) 0 (u32 (Z.shiftl (numd cfg) 2)) with
      | Some bytes =>
          (Return 0,
           Submit cmd :: line ++ [FWrite bytes] ++
           (if negb (fwrite w (u32 (Z.shiftl (numd cfg) 2))
                     =? u32 (Z.shiftl (numd cfg) 2))
            then [ShowError "ERROR: %s: failed to write buffer to output file"
                    [AStr (strerror w (errno w))]]
            else []))
      | None => (Undefined, Submit cmd :: line)
      end
    else (Undefined, Submit cmd :: line).
Proof.
  intros Hparse Hfmt Hoff Hout Hlen Halloc Hsub.
  unfold lm_migration_recv.
  rewrite Hparse; cbn [negb Z.eqb].
  destruct (validate_output_format w (output_format cfg)) as [verr flags].
  cbn [fst snd] in Hfmt, Hoff |- *.
  apply Z.ltb_ge in Hfmt; rewrite Hfmt.
  assert (Hgate : non_null (output_format cfg) && negb (offset cfg =? 0)
                  && negb (BINARY flags) = false).
  { destruct Hoff as [-> | ->]; cbn [Z.eqb negb];
      [rewrite andb_false_r | rewrite andb_false_r]; reflexivity. }
  rewrite Hgate.
  apply Z.eqb_neq in Halloc; rewrite Halloc.
  cbv zeta.
  destruct (nvme_submit_admin_passthru w _) as [err res].
  cbn [fst snd] in Hsub |- *; subst err; cbn [Z.ltb Z.eqb Z.compare negb].
  unfold on_success, nonempty.
  rewrite Hout.
  apply Nat.eqb_neq in Hlen; rewrite Hlen; cbn [negb andb].
  destruct (fopen w path "w"); [ | reflexivity].
  destruct (bytes_at _ 0 _); reflexivity.
Qed.

(** X14.  With an output file named and the command completed with
    status 0, Migration Receive has allocated and announced (numd + 1) << 2
    bytes and writes the first numd << 2 bytes of that buffer to the file:
    four bytes fewer than the buffer holds.  When numd + 1 is a multiple of
    2^30 the 32-bit buffer length wraps to 0 while the write still asks for
    2^32 - 4 bytes, and the handler reads past the buffer. *)
Theorem migration_recv_buffer_length (host : byte_order) (w : world)
  (cfg : config) (path : string) :
  is_u32 (numd cfg) ->
  parse_and_open w = 0 ->
  0 <= fst (validate_output_format w (output_format cfg)) ->
  offset cfg = 0
  \/ BINARY (snd (validate_output_format w (output_format cfg))) = true ->
  output cfg = Some path ->
  String.length path <> 0%nat ->
  fopen w path "w" = true ->
  nvme_alloc_huge w (buffer_len cfg) <> 0 ->
  fst (nvme_submit_admin_passthru w
         (make_cmd cfg (nvme_alloc_huge w (buffer_len cfg)))) = 0 ->
  Z.of_nat (List.length
              (buffer_after w (make_cmd cfg (nvme_alloc_huge w (buffer_len cfg)))))
  = buffer_len cfg ->
  exists cmd,
    submitted (snd (lm_migration_recv host w cfg)) = [cmd]
    /\ data_len cmd = (4 * ((numd cfg + 1) mod 2 ^ 32)) mod 2 ^ 32
    /\ addr cmd = u64 (nvme_alloc_huge w (data_len cmd))
    /\ nvme_alloc_huge w (data_len cmd) <> 0
    /\ ((numd cfg + 1) mod 2 ^ 30 <> 0 ->
        fst (lm_migration_recv host w cfg) = Return 0
        /\ In (FWrite (firstn (Z.to_nat (data_len cmd - 4)) (buffer_after w cmd)))
              (snd (lm_migration_recv host w cfg))
        /\ data_len cmd - 4 = (4 * numd cfg) mod 2 ^ 32)
    /\ ((numd cfg + 1) mod 2 ^ 30 = 0 ->
        data_len cmd = 0
        /\ (4 * numd cfg) mod 2 ^ 32 = 2 ^ 32 - 4
        /\ fst (lm_migration_recv host w cfg) = Undefined).
Proof.
  intros Hnumd Hparse Hfmt Hoff Hout Hlen Hopen Halloc Hsub Hbuf.
  rewrite (migration_recv_to_output host w cfg path Hparse Hfmt Hoff Hout Hlen
             Halloc Hsub).
  cbv zeta; rewrite Hopen.
  set (cmd := make_cmd cfg (nvme_alloc_huge w (buffer_len cfg))) in *.
  set (line := cdw0_line _ _).
  assert (Hline : submitted line = [])
    by (unfold line, cdw0_line; destruct (is_NORMAL _); reflexivity).
  assert (Hsubm : forall l, submitted (line ++ l) = submitted l).
  { intros l; unfold line, cdw0_line; destruct (is_NORMAL _); reflexivity. }
  destruct (buffer_len_and_write_length cfg Hnumd) as [Hfit Hwrap].
  assert (Hn : u32 (Z.shiftl (numd cfg) 2) = (4 * numd cfg) mod 2 ^ 32).
  { unfold u32; rewrite Z.shiftl_mul_pow2 by lia; f_equal; lia. }
  assert (Hdl : data_len cmd = buffer_len cfg) by reflexivity.
  assert (Hbl : buffer_len cfg = (4 * ((numd cfg + 1) mod 2 ^ 32)) mod 2 ^ 32).
  { unfold buffer_len, u32; rewrite Z.shiftl_mul_pow2 by lia; f_equal; lia. }
  exists cmd.
  unfold bytes_at; rewrite Hbuf.
  assert (Hn0 : 0 <= u32 (Z.shiftl (numd cfg) 2))
    by (unfold u32; apply Z.mod_pos_bound; lia).
  apply Z.leb_le in Hn0 as Hn0b; rewrite Hn0b; cbn [Z.leb Z.compare andb].
  destruct (Z.eq_dec ((numd cfg + 1) mod 2 ^ 30) 0) as [Hz | Hnz].
  - destruct (Hwrap Hz) as [Hb0 Hw].
    assert (Hgt : (0 + u32 (Z.shiftl (numd cfg) 2) <=? buffer_len cfg) = false)
      by (apply Z.leb_gt; rewrite Hb0, Hw; reflexivity).
    rewrite Hgt; cbn [fst snd submitted].
    rewrite Hline.
    split; [reflexivity | ].
    split; [rewrite Hdl; exact Hbl | ].
    split; [reflexivity | ].
    split; [rewrite Hdl; exact Halloc | ].
    split; [intros Hc; contradiction | ].
    intros _.
    split; [rewrite Hdl; exact Hb0 | ].
    split; [rewrite <- Hn; exact Hw | reflexivity].
  - pose proof (Hfit Hnz) as Hb4.
    assert (Hle : (0 + u32 (Z.shiftl (numd cfg) 2) <=? buffer_len cfg) = true)
      by (apply Z.leb_le; lia).
    rewrite Hle; cbn [fst snd submitted].
    rewrite Hsubm; cbn [app submitted].
    assert (Htail : forall c e, submitted (if c : bool then [ShowError e
                      [AStr (strerror w (errno w))]] else []) = [])
      by (intros [] e; reflexivity).
    rewrite Htail.
    split; [reflexivity | ].
    split; [rewrite Hdl; exact Hbl | ].
    split; [reflexivity | ].
    split; [rewrite Hdl; exact Halloc | ].
    split; [ | intros Hc; contradiction].
    intros _.
    split; [reflexivity | ].
    split; [ | rewrite Hdl, Hb4, <- Hn; lia].
    right; apply in_or_app; right; left.
    rewrite Hdl, Hb4.
    replace (u32 (Z.shiftl (numd cfg) 2) + 4 - 4)
      with (u32 (Z.shiftl (numd cfg) 2)) by lia.
    reflexivity.
Qed.

Lemma migration_recv_buffer_length_witness :
  exists cmd,
    submitted
      (snd (lm_migration_recv LittleEndian (Examples.world_of 0 Examples.one_of_two)
              (mk_config 5 0 0 0 19 (Some "out.bin"%string)
                 (Some "normal"%string) false)))
    = [cmd]
    /\ data_len cmd = 80
    /\ addr cmd
       = u64 (nvme_alloc_huge (Examples.world_of 0 Examples.one_of_two)
                (data_len cmd))
    /\ nvme_alloc_huge (Examples.world_of 0 Examples.one_of_two) (data_len cmd) <> 0
    /\ ((19 + 1) mod 2 ^ 30 <> 0 ->
        fst (lm_migration_recv LittleEndian (Examples.world_of 0 Examples.one_of_two)
               (mk_config 5 0 0 0 19 (Some "out.bin"%string)
                  (Some "normal"%string) false))
        = Return 0
        /\ In (FWrite (firstn (Z.to_nat (data_len cmd - 4))
                         (buffer_after (Examples.world_of 0 Examples.one_of_two) cmd)))
              (snd (lm_migration_recv LittleEndian
                      (Examples.world_of 0 Examples.one_of_two)
                      (mk_config 5 0 0 0 19 (Some "out.bin"%string)
                         (Some "normal"%string) false)))
        /\ data_len cmd - 4 = 76)
    /\ ((19 + 1) mod 2 ^ 30 = 0 ->
        data_len cmd = 0
        /\ 76 = 2 ^ 32 - 4
        /\ fst (lm_migration_recv LittleEndian
                  (Examples.world_of 0 Examples.one_of_two)
                  (mk_config 5 0 0 0 19 (Some "out.bin"%string)
                     (Some "normal"%string) false))
           = Undefined).
Proof.
  apply (migration_recv_buffer_length LittleEndian
           (Examples.world_of 0 Examples.one_of_two)
           (mk_config 5 0 0 0 19 (Some "out.bin"%string) (Some "normal"%string) false)
           "out.bin");
    [solve_ranges | reflexivity | discriminate | left; reflexivity | reflexivity
    | discriminate | reflexivity | discriminate | reflexivity | reflexivity].
Defined.

(** X15.  A failed fopen of the output file goes unnoticed, since the
    test [fd < 0] on the stream pointer never holds: the command is
    submitted all the same, and when the device completes it with status 0
    the handler prints the CDW0 line (in the normal format) and then writes
    to the stream that was never opened. *)
Theorem migration_recv_unopened_output (host : byte_order) (w : world)
  (cfg : config) (path : string) :
  parse_and_open w = 0 ->
  0 <= fst (validate_output_format w (output_format cfg)) ->
  offset cfg = 0
  \/ BINARY (snd (validate_output_format w (output_format cfg))) = true ->
  output cfg = Some path ->
  String.length path <> 0%nat ->
  fopen w path "w" = false ->
  nvme_alloc_huge w (buffer_len cfg) <> 0 ->
  fst (nvme_submit_admin_passthru w
         (make_cmd cfg (nvme_alloc_huge w (buffer_len cfg)))) = 0 ->
  lm_migration_recv host w cfg
  = (Undefined,
     Submit (make_cmd cfg (nvme_alloc_huge w (buffer_len cfg))) ::
     (if negb (human_readable cfg)
         && is_NORMAL (snd (validate_output_format w (output_format cfg)))
      then [Printf "CDW0: 0x%x: Controller %sSuspended\n"
              [AInt (snd (nvme_submit_admin_passthru w
                            (make_cmd cfg (nvme_alloc_huge w (buffer_len cfg)))));
               AStr (if Z.land
                          (snd (nvme_submit_admin_passthru w
                                  (make_cmd cfg
                                     (nvme_alloc_huge w (buffer_len cfg)))))
                          0x1 =? 0x1
                     then ""%string else "NOT "%string)]]
      else [])).
Proof.
  intros Hparse Hfmt Hoff Hout Hlen Hopen Halloc Hsub.
  rewrite (migration_recv_to_output host w cfg path Hparse Hfmt Hoff Hout Hlen
             Halloc Hsub).
  cbv zeta; rewrite Hopen.
  unfold cdw0_line.
  destruct (human_readable cfg); reflexivity.
Qed.

Lemma migration_recv_unopened_output_witness :
  lm_migration_recv LittleEndian
    (mk_world 0 (fun _ => (0, NORMAL)) (fun _ => 0x1000) (fun _ _ => false)
       (fun _ n => n) (fun n => n) 0 (fun _ => EmptyString) (fun _ => EmptyString)
       (fun _ => (0, 0)) (fun _ => []) (fun _ => 0) (fun _ => (0, [])))
    (mk_config 5 0 0 0 19 (Some "out.bin"%string) (Some "normal"%string) false)
  = (Undefined,
     [Submit (make_cmd
                (mk_config 5 0 0 0 19 (Some "out.bin"%string)
                   (Some "normal"%string) false) 0x1000);
      Printf "CDW0: 0x%x: Controller %sSuspended\n" [AInt 0; AStr "NOT "]]).
Proof.
  apply (migration_recv_unopened_output LittleEndian
           (mk_world 0 (fun _ => (0, NORMAL)) (fun _ => 0x1000) (fun _ _ => false)
              (fun _ n => n) (fun n => n) 0 (fun _ => EmptyString)
              (fun _ => EmptyString) (fun _ => (0, 0)) (fun _ => [])
              (fun _ => 0) (fun _ => (0, [])))
           (mk_config 5 0 0 0 19 (Some "out.bin"%string) (Some "normal"%string) false)
           "out.bin");
    [reflexivity | discriminate | left; reflexivity | reflexivity | discriminate
    | reflexivity | discriminate | reflexivity].
Defined.

End MigrationRecvFacts.

(** ** The decoder: exits, truncation, completion queues *)

Section DecoderEdgeFacts.
Import Examples.

Lemma show_text_defined_witness :
  TextState.show_text BigEndian one_of_two 80 true <> None.
Proof.
  apply (show_text_defined BigEndian one_of_two 80 true).
  vm_compute; split; discriminate.
Defined.

Lemma show_text_clamps_sq_witness :
  exists out,
    TextState.show_text LittleEndian one_of_two 80 false = Some out
    /\ sq_records out = 1%nat
    /\ (In "WARNING: I/O Submission Queues truncated\n"%string (warnings out)
        <-> (80 - 56) / 24 < 2).
Proof.
  destruct (TextState.show_text LittleEndian one_of_two 80 false) as [out | ] eqn:Hout;
    [ | vm_compute in Hout; discriminate Hout].
  exists out; split; [reflexivity | ].
  apply (show_text_clamps_sq LittleEndian one_of_two 80 false (mk_ncs_hdr 1 2 0) out);
    [vm_compute; discriminate | vm_compute; reflexivity | exact Hout].
Defined.

Lemma show_sdata_cq_slots_witness :
  exists out sqs cqs,
    TextState.show_sdata LittleEndian sq_then_cq 56 false = Some out
    /\ out
       = [Printf "\nNVMe Controller State Data Structure:\n" [];
          Printf "%-45s: 0x%x\n" [AStr "Version (VER)"; AInt 1];
          Printf "%-45s: %d\n"
            [AStr "Number of I/O Submission Queues (NIOSQ)"; AInt 1];
          Printf "%-45s: %d\n"
            [AStr "Number of I/O Completion Queues (NIOCQ)"; AInt 1]]
         ++ [] ++ List.concat sqs ++ [] ++ List.concat cqs
    /\ List.length sqs = 1%nat
    /\ List.length cqs = 1%nat
    /\ (forall k, (k < List.length sqs)%nat ->
          exists sq,
            Layout.sq LittleEndian sq_then_cq (Z.of_nat k) = Some sq
            /\ nth_error sqs k
               = Some (TextState.show_sq LittleEndian sq (Z.of_nat k) false))
    /\ (forall k, (k < List.length cqs)%nat ->
          exists cq,
            Layout.cq LittleEndian sq_then_cq (1 + Z.of_nat k) = Some cq
            /\ nth_error cqs k
               = Some (TextState.show_cq LittleEndian cq (Z.of_nat k) false)).
Proof.
  destruct (TextState.show_sdata LittleEndian sq_then_cq 56 false) as [out | ] eqn:Hout;
    [ | vm_compute in Hout; discriminate Hout].
  destruct (show_sdata_cq_slots LittleEndian sq_then_cq 56 false (mk_ncs_hdr 1 1 1)
              out) as (sqs & cqs & Hall);
    [vm_compute; discriminate | vm_compute; reflexivity | exact Hout | ].
  exists out, sqs, cqs.
  split; [reflexivity | exact Hall].
Defined.

Lemma sq_rendering_host_independent_witness :
  TextState.show_sq LittleEndian (mk_sq 0xA000 64 1 1 1 3 7) 0 true
  = TextState.show_sq BigEndian
      (mk_sq 0xA0000000000000 0x4000 0x100 0x100 0x100 0x300 0x700) 0 true
  /\ JsonState.sq_obj LittleEndian (mk_sq 0xA000 64 1 1 1 3 7)
     = JsonState.sq_obj BigEndian
         (mk_sq 0xA0000000000000 0x4000 0x100 0x100 0x100 0x300 0x700).
Proof.
  apply (sq_rendering_host_independent one_of_two 0); vm_compute; reflexivity.
Defined.

Lemma cq_rendering_host_independent_witness :
  TextState.show_cq LittleEndian (mk_cq 0x2222 32 1 2 5 0x00030003) 0 true
  = TextState.show_cq BigEndian
      (mk_cq 0x2222000000000000 0x2000 0x100 0x200 0x500 0x03000300) 0 true
  /\ JsonState.cq_obj LittleEndian (mk_cq 0x2222 32 1 2 5 0x00030003)
     = JsonState.cq_obj BigEndian
         (mk_cq 0x2222000000000000 0x2000 0x100 0x200 0x500 0x03000300).
Proof.
  apply (cq_rendering_host_independent sq_then_cq 1 0); vm_compute; reflexivity.
Defined.

Lemma json_tree_lists_witness :
  exists root s,
    JsonState.tree LittleEndian sq_then_cq 0 = Some root
    /\ Layout.sdata_hdr LittleEndian sq_then_cq = Some s
    /\ List.length (state_list "io submission queue list" root)
       = Z.to_nat (ncs_niosq s)
    /\ List.length (state_list "io completion queue list" root)
       = Z.to_nat (ncs_niocq s)
    /\ forall k, (k < Z.to_nat (ncs_niocq s))%nat ->
         nth_error (state_list "io completion queue list" root) k
         = option_map (JsonState.cq_obj LittleEndian)
             (Layout.cq LittleEndian sq_then_cq (Z.of_nat k)).
Proof.
  destruct (JsonState.tree LittleEndian sq_then_cq 0) as [root | ] eqn:Hroot;
    [ | vm_compute in Hroot; discriminate Hroot].
  destruct (json_tree_lists LittleEndian sq_then_cq 0 root Hroot) as (s & Hs).
  exists root, s; split; [reflexivity | exact Hs].
Defined.

(** X19.  With the binary flag the buffer is passed through as it is,
    [len] bytes of it, whatever the offset, the other flags and the host;
    nothing is decoded. *)
Theorem show_binary_is_raw (host : byte_order) (data : list byte) (len offset : Z)
  (flags : nvme_print_flags) :
  BINARY flags = true ->
  0 <= len <= Z.of_nat (List.length data) ->
  show_controller_state_data host data len offset flags
  = Some [DRaw (firstn (Z.to_nat len) data)].
Proof.
  intros Hbin [Hlen0 Hlen].
  unfold show_controller_state_data, bytes_at; rewrite Hbin.
  apply Z.leb_le in Hlen0; rewrite Hlen0.
  change (0 + len) with len.
  apply Z.leb_le in Hlen; rewrite Hlen.
  reflexivity.
Qed.

Lemma show_binary_is_raw_witness :
  show_controller_state_data BigEndian one_sq 80 4 (mk_flags true true true)
  = Some [DRaw one_sq].
Proof.
  apply (show_binary_is_raw BigEndian one_sq 80 4 (mk_flags true true true));
    [reflexivity | vm_compute; split; discriminate].
Defined.

(** Without the binary flag a non-zero offset ends the function
    with the diagnostic alone: no byte of the buffer is read, in the
    structured as in the text format. *)
Theorem show_nonzero_offset_decodes_nothing (host : byte_order)
  (data : list byte) (len offset : Z) (flags : nvme_print_flags) :
  BINARY flags = false ->
  offset <> 0 ->
  show_controller_state_data host data len offset flags
  = Some [ShowError "Cannot parse non-zero offset" []].
Proof.
  intros Hbin Hoff.
  unfold show_controller_state_data; rewrite Hbin.
  apply Z.eqb_neq in Hoff; rewrite Hoff.
  reflexivity.
Qed.

Lemma show_nonzero_offset_decodes_nothing_witness :
  show_controller_state_data LittleEndian [] 80 8 json_flags
  = Some [ShowError "Cannot parse non-zero offset" []].
Proof.
  apply (show_nonzero_offset_decodes_nothing LittleEndian [] 80 8 json_flags);
    [reflexivity | discriminate].
Defined.

(** X20.  The text rendering of a short buffer: below 48 bytes it prints
    the header-truncated warning and reads nothing; at exactly 48 bytes it
    prints the outer header and no warning; from 49 to 55 bytes it prints
    the outer header followed by the warning that the controller state
    structure is truncated. *)
Theorem show_text_short_buffer (host : byte_order) (data : list byte) (len : Z)
  (human : bool) :
  (len < 48 ->
   TextState.show_text host data len human
   = Some [Eprintf "WARNING: Header truncated\n" []])
  /\ (len = 48 ->
      TextState.show_text host data len human
      = option_map (fun h => TextState.show_hdr h human) (Layout.hdr host data))
  /\ (48 < len < 56 ->
      TextState.show_text host data len human
      = option_map
          (fun h =>
             TextState.show_hdr h human ++
             [Eprintf "WARNING: NVMe Controller State Data Structure truncated\n" []])
          (Layout.hdr host data)).
Proof.
  unfold TextState.show_text.
  change sizeof_controller_state_data_header with 48.
  change sizeof_nvme_controller_state_header with 8.
  split; [ | split].
  - intros Hlt.
    apply Z.leb_gt in Hlt; rewrite Hlt; reflexivity.
  - intros ->; cbn [Z.leb Z.compare Pos.compare Pos.compare_cont].
    destruct (Layout.hdr host data); reflexivity.
  - intros [Hlo Hhi].
    assert (H48 : (48 <=? len) = true) by (apply Z.leb_le; lia).
    assert (Hnz : (len - 48 =? 0) = false) by (apply Z.eqb_neq; lia).
    assert (H8 : (8 <=? len - 48) = false) by (apply Z.leb_gt; lia).
    rewrite H48.
    destruct (Layout.hdr host data); [ | reflexivity].
    rewrite Hnz, H8; reflexivity.
Qed.

Lemma show_text_short_buffer_witness :
  TextState.show_text BigEndian [] 4 true
  = Some [Eprintf "WARNING: Header truncated\n" []].
Proof.
  apply (show_text_short_buffer BigEndian [] 4 true); reflexivity.
Defined.

Lemma cq_records_app (a b : list event) :
  cq_records (a ++ b) = (cq_records a + cq_records b)%nat.
Proof.
  induction a as [ | e a IH]; [reflexivity | ].
  cbn [app cq_records].
  destruct e; try exact IH.
  destruct (String.eqb fmt _); [cbn [Nat.add]; f_equal | ]; exact IH.
Qed.

Lemma concat_cq_report (k : nat) (l : list (list event)) :
  Forall (fun e => cq_records e = k /\ warnings e = []) l ->
  cq_records (List.concat l) = (k * List.length l)%nat
  /\ warnings (List.concat l) = [].
Proof.
  induction 1 as [ | e l [He1 He2] _ [IH1 IH2]]; cbn [List.concat List.length].
  - cbn [cq_records warnings]; split; [lia | reflexivity].
  - rewrite cq_records_app, warnings_app, He1, He2, IH1, IH2.
    split; [lia | reflexivity].
Qed.

(** X24.  After the submission queues the text rendering prints
    min(niocq, rest / 24) completion-queue records, rest being the length
    left after the two headers and the submission-queue records it printed,
    and it prints the completion-queue warning exactly when that is fewer
    than niocq. *)
Theorem show_text_clamps_cq (host : byte_order) (data : list byte) (len : Z)
  (human : bool) (s : nvme_controller_state_header) (out : list event) :
  56 <= len ->
  Layout.sdata_hdr host data = Some s ->
  TextState.show_text host data len human = Some out ->
  cq_records out
  = Z.to_nat
      (Z.min (ncs_niocq s)
         ((len - 56 - 24 * Z.min (ncs_niosq s) ((len - 56) / 24)) / 24))
  /\ (In "WARNING: I/O Completion Queues truncated\n"%string (warnings out)
      <-> (len - 56 - 24 * Z.min (ncs_niosq s) ((len - 56) / 24)) / 24
          < ncs_niocq s).
Proof.
  intros Hlen Hsd.
  destruct (sdata_hdr_nonneg host data s Hsd) as [Hsq0 _].
  unfold TextState.show_text.
  change sizeof_controller_state_data_header with 48.
  change sizeof_nvme_controller_state_header with 8.
  assert (H48 : (48 <=? len) = true) by (apply Z.leb_le; lia).
  assert (Hnz : (len - 48 =? 0) = false) by (apply Z.eqb_neq; lia).
  assert (H8 : (8 <=? len - 48) = true) by (apply Z.leb_le; lia).
  rewrite H48.
  destruct (Layout.hdr host data) as [h | ]; [ | discriminate].
  rewrite Hnz, H8.
  unfold TextState.show_sdata.
  change sizeof_nvme_controller_state_header with 8.
  change sizeof_nvme_io_submission_queue_data with 24.
  rewrite Hsd; cbv zeta.
  replace (len - 48 - 8) with (len - 56) by lia.
  set (len2 := len - 56).
  assert (Hlen2 : 0 <= len2) by (unfold len2; lia).
  rewrite (sq_count_is_min len2 (ncs_niosq s) Hlen2).
  set (nsq := Z.min (ncs_niosq s) (len2 / 24)).
  assert (Hdiv : 0 <= len2 / 24 /\ len2 / 24 * 24 <= len2).
  { split; [apply Z.div_pos; lia | ].
    rewrite Z.mul_comm; apply Z.mul_div_le; lia. }
  assert (Hnsq : 0 <= nsq /\ nsq * 24 <= len2) by (unfold nsq; lia).
  replace (len2 - 24 * nsq) with (len2 - nsq * 24) by lia.
  set (len3 := len2 - nsq * 24).
  assert (Hlen3 : 0 <= len3) by (unfold len3; lia).
  destruct (for_loop (Z.to_nat nsq) 0 _) as [sqs | ] eqn:Hsqs; [ | discriminate].
  destruct (for_loop (Z.to_nat (TextState.cq_count _ _)) 0 _) as [cqs | ] eqn:Hcqs;
    [ | discriminate].
  set (head := Printf "\nNVMe Controller State Data Structure:\n" [] :: _).
  assert (Hhead : cq_records head = 0%nat /\ warnings head = [])
    by (split; reflexivity).
  destruct Hhead as [Hd1 Hd2].
  intros H.
  assert (Hout := f_equal (fun o => match o with Some x => x | None => [] end) H).
  cbv beta iota in Hout; subst out; clear H.
  assert (Hsq_each : Forall (fun e => cq_records e = 0%nat /\ warnings e = []) sqs).
  { apply (for_loop_forall _ _ _ _ _ Hsqs).
    intros j y; destruct (Layout.sq host data j); [ | discriminate].
    intros Hy; inversion Hy; destruct human; split; reflexivity. }
  assert (Hcq_each : Forall (fun e => cq_records e = 1%nat /\ warnings e = []) cqs).
  { apply (for_loop_forall _ _ _ _ _ Hcqs).
    intros j y; destruct (Layout.cq host data _); [ | discriminate].
    intros Hy; inversion Hy; destruct human; split; reflexivity. }
  destruct (concat_cq_report _ _ Hsq_each) as [Hsq1 Hsq2].
  destruct (concat_cq_report _ _ Hcq_each) as [Hcq1 Hcq2].
  assert (Hh : cq_records (TextState.show_hdr h human) = 0%nat
               /\ warnings (TextState.show_hdr h human) = [])
    by (destruct human; split; reflexivity).
  destruct Hh as [Hh1 Hh2].
  rewrite (for_loop_length _ _ _ _ Hcqs) in Hcq1.
  assert (Hsqw : cq_records (TextState.sq_warning len2 (ncs_niosq s)) = 0%nat
                 /\ ~ In "WARNING: I/O Completion Queues truncated\n"%string
                        (warnings (TextState.sq_warning len2 (ncs_niosq s)))).
  { unfold TextState.sq_warning; destruct (_ <? _); split;
      try reflexivity; cbn [warnings In]; [ | tauto].
    intros [Heq | []]; discriminate. }
  assert (Hcqw : cq_records (TextState.cq_warning len3 (ncs_niocq s)) = 0%nat)
    by (unfold TextState.cq_warning; destruct (_ <? _); reflexivity).
  rewrite !cq_records_app, !warnings_app.
  rewrite Hsq1, Hsq2, Hcq1, Hcq2, Hh1, Hh2, Hd1, Hd2, Hcqw, (proj1 Hsqw).
  rewrite (cq_count_is_min len3 (ncs_niocq s) Hlen3).
  split; [lia | ].
  cbn [app]; rewrite app_nil_r, in_app_iff.
  unfold TextState.cq_warning.
  change sizeof_nvme_io_completion_queue_data with 24.
  destruct (len3 <? ncs_niocq s * 24) eqn:Hlt.
  - apply Z.ltb_lt in Hlt.
    split; [intros _; apply Z.div_lt_upper_bound; lia | ].
    intros _; right; left; reflexivity.
  - apply Z.ltb_ge in Hlt.
    assert (ncs_niocq s <= len3 / 24) by (apply Z.div_le_lower_bound; lia).
    split; [ | lia].
    intros [Hin | []]; exfalso; revert Hin; apply Hsqw.
Qed.

Lemma show_text_clamps_cq_witness :
  exists out,
    TextState.show_text LittleEndian sq_then_cq 100 false = Some out
    /\ cq_records out = 0%nat
    /\ (In "WARNING: I/O Completion Queues truncated\n"%string (warnings out)
        <-> (100 - 56 - 24 * Z.min 1 ((100 - 56) / 24)) / 24 < 1).
Proof.
  destruct (TextState.show_text LittleEndian sq_then_cq 100 false) as [out | ] eqn:Hout;
    [ | vm_compute in Hout; discriminate Hout].
  exists out; split; [reflexivity | ].
  apply (show_text_clamps_cq LittleEndian sq_then_cq 100 false (mk_ncs_hdr 1 1 1) out);
    [vm_compute; discriminate | vm_compute; reflexivity | exact Hout].
Defined.

(** X25.  The structured rendering is defined whenever the buffer holds
    the two headers and as many 24-byte records as the larger of the two
    declared counts; [len] plays no part. *)
Theorem json_defined_when_records_present (host : byte_order) (data : list byte)
  (len : Z) (s : nvme_controller_state_header) :
  Layout.sdata_hdr host data = Some s ->
  56 + 24 * Z.max (ncs_niosq s) (ncs_niocq s) <= Z.of_nat (List.length data) ->
  JsonState.json_controller_state_data host data len <> None.
Proof.
  intros Hsd Hlen.
  destruct (sdata_hdr_nonneg host data s Hsd) as [Hsq0 Hcq0].
  unfold JsonState.json_controller_state_data, JsonState.tree.
  destruct (Layout.hdr host data) as [h | ] eqn:Hh;
    [ | exfalso; revert Hh; apply hdr_defined; lia].
  rewrite Hsd.
  match goal with
  | |- context [for_loop (Z.to_nat (ncs_niosq s)) 0 ?body] =>
      pose proof (for_loop_total (Z.to_nat (ncs_niosq s)) 0 body) as Hloop1
  end.
  match goal with
  | |- context [for_loop (Z.to_nat (ncs_niocq s)) 0 ?body] =>
      pose proof (for_loop_total (Z.to_nat (ncs_niocq s)) 0 body) as Hloop2
  end.
  cbv beta in Hloop1, Hloop2.
  destruct (for_loop (Z.to_nat (ncs_niosq s)) 0 _) as [sqs | ].
  2:{ exfalso; apply Hloop1; [ | reflexivity].
      intros k Hk.
      destruct (Layout.sq host data (0 + Z.of_nat k)) eqn:Hrec; [discriminate | ].
      exfalso; revert Hrec; apply sq_defined; lia. }
  destruct (for_loop (Z.to_nat (ncs_niocq s)) 0 _) as [cqs | ]; [discriminate | ].
  exfalso; apply Hloop2; [ | reflexivity].
  intros k Hk.
  destruct (Layout.cq host data (0 + Z.of_nat k)) eqn:Hrec; [discriminate | ].
  exfalso; revert Hrec; apply cq_defined; lia.
Qed.

Lemma json_defined_when_records_present_witness :
  JsonState.json_controller_state_data LittleEndian sq_then_cq 0 <> None.
Proof.
  apply (json_defined_when_records_present LittleEndian sq_then_cq 0
           (mk_ncs_hdr 1 1 1)).
  - vm_compute; reflexivity.
  - vm_compute; discriminate.
Defined.

End DecoderEdgeFacts.

(** ** The CDQ feature: what can be read back *)

Section CdqFeatureFacts.

Lemma s32_u32 (x : Z) : is_s32 x -> s32 (u32 x) = x.
Proof.
  unfold is_s32, s32, u32; intros Hx.
  rewrite Zplus_mod_idemp_l.
  rewrite Z.mod_small by lia.
  lia.
Qed.

(** X26.  The Set Features arguments built by Set CDQ determine the
    request: the feature id is 0x21, the low 16 bits of cdw11 are the queue
    id, bit 31 of cdw11 tells whether a trigger was given (tpt >= 0), cdw12
    is the head pointer, and cdw13 read as a signed 32-bit number is the
    trigger, which for a trigger that was given is cdw13 itself. *)
Theorem set_cdq_fields_recoverable (w : world) (cfg : SetCdq.config) :
  SetCdq.config_ok cfg ->
  parse_and_open w = 0 ->
  exists args rest,
    snd (SetCdq.lm_set_cdq w cfg) = SetFeatures args :: rest
    /\ fid args = 0x21
    /\ Z.land (f_cdw11 args) 0xFFFF = SetCdq.cdqid cfg
    /\ Z.testbit (f_cdw11 args) 31 = (0 <=? SetCdq.tpt cfg)
    /\ f_cdw12 args = SetCdq.hp cfg
    /\ s32 (f_cdw13 args) = SetCdq.tpt cfg
    /\ (0 <= SetCdq.tpt cfg -> f_cdw13 args = SetCdq.tpt cfg).
Proof.
  intros (Hid & Hhp & Htpt) Hparse.
  destruct (set_cdq_issues w cfg Hparse) as [rest Hrun].
  exists (SetCdq.make_args cfg), rest.
  rewrite Hrun; cbn [snd].
  destruct (set_cdq_trigger_bit cfg Hid) as (Hbit & H13 & H12).
  split; [reflexivity | ].
  split; [reflexivity | ].
  split.
  { unfold SetCdq.make_args; cbn [f_cdw11].
    rewrite u32_lor, (u32_u16 _ Hid).
    change 0xFFFF with (Z.ones 16).
    rewrite Z.land_lor_distr_l, !Z.land_ones by lia.
    unfold is_u16 in Hid; rewrite (Z.mod_small (SetCdq.cdqid cfg)) by exact Hid.
    destruct (0 <=? SetCdq.tpt cfg);
      [change (u32 (int_shl 1 31) mod 2 ^ 16) with 0
      | change (u32 0 mod 2 ^ 16) with 0];
      apply Z.lor_0_r. }
  split; [exact Hbit | ].
  split; [exact H12 | ].
  rewrite H13.
  split; [apply s32_u32; exact Htpt | ].
  intros Hpos; apply u32_small.
  unfold is_s32 in Htpt; unfold is_u32; lia.
Qed.

Lemma set_cdq_fields_recoverable_witness :
  exists args rest,
    snd (SetCdq.lm_set_cdq Examples.w0 (SetCdq.mk_config 9 4 6))
    = SetFeatures args :: rest
    /\ fid args = 0x21
    /\ Z.land (f_cdw11 args) 0xFFFF = 9
    /\ Z.testbit (f_cdw11 args) 31 = true
    /\ f_cdw12 args = 4
    /\ s32 (f_cdw13 args) = 6
    /\ (0 <= 6 -> f_cdw13 args = 6).
Proof.
  apply (set_cdq_fields_recoverable Examples.w0 (SetCdq.mk_config 9 4 6));
    [solve_ranges | reflexivity].
Defined.

Lemma first_eight (b0 b1 b2 b3 b4 b5 b6 b7 : byte) (rest : list byte) :
  bytes_at (b0 :: b1 :: b2 :: b3 :: b4 :: b5 :: b6 :: b7 :: rest) 0 4
  = Some [b0; b1; b2; b3]
  /\ bytes_at (b0 :: b1 :: b2 :: b3 :: b4 :: b5 :: b6 :: b7 :: rest) 4 4
     = Some [b4; b5; b6; b7].
Proof.
  unfold bytes_at.
  assert (H1 : (0 + 4 <=? Z.of_nat
                  (List.length (b0 :: b1 :: b2 :: b3 :: b4 :: b5 :: b6 :: b7 :: rest)))
               = true)
    by (apply Z.leb_le; cbn [List.length]; lia).
  assert (H2 : (4 + 4 <=? Z.of_nat
                  (List.length (b0 :: b1 :: b2 :: b3 :: b4 :: b5 :: b6 :: b7 :: rest)))
               = true)
    by (apply Z.leb_le; cbn [List.length]; lia).
  rewrite H1, H2; split; reflexivity.
Qed.

(** X27.  Get CDQ shows the first four bytes of the feature payload as
    the head pointer and the next four as the tail pointer trigger, both
    read as little-endian 32-bit numbers on a host of either byte order, in
    the text format and in JSON alike. *)
Theorem get_cdq_decodes_little_endian (host : byte_order)
  (b0 b1 b2 b3 b4 b5 b6 b7 : byte) (rest : list byte) (flags : nvme_print_flags) :
  (JSON flags = true ->
   GetCdq.lm_show_controller_data_queue host
     (b0 :: b1 :: b2 :: b3 :: b4 :: b5 :: b6 :: b7 :: rest) flags
   = Some [JsonPrint
             (JObject [("head_pointer"%string, JUint (le_value [b0; b1; b2; b3]));
                       ("tail_pointer_trigger"%string,
                        JUint (le_value [b4; b5; b6; b7]))]);
           Printf "\n" []])
  /\ (JSON flags = false -> BINARY flags = false ->
      GetCdq.lm_show_controller_data_queue host
        (b0 :: b1 :: b2 :: b3 :: b4 :: b5 :: b6 :: b7 :: rest) flags
      = Some [Printf "Head Pointer: 0x%x\n" [AInt (le_value [b0; b1; b2; b3])];
              Printf "Tail Pointer Trigger: 0x%x\n"
                [AInt (le_value [b4; b5; b6; b7])]]).
Proof.
  destruct (first_eight b0 b1 b2 b3 b4 b5 b6 b7 rest) as [Hhp Htpt].
  unfold GetCdq.lm_show_controller_data_queue, GetCdq.json_lm_controller_data_queue,
    load.
  split.
  - intros ->.
    rewrite Hhp, Htpt; cbn [option_map].
    rewrite !le32_to_cpu_native by reflexivity.
    reflexivity.
  - intros -> ->.
    rewrite Hhp, Htpt; cbn [option_map].
    rewrite !le32_to_cpu_native by reflexivity.
    reflexivity.
Qed.

Lemma get_cdq_decodes_little_endian_witness :
  GetCdq.lm_show_controller_data_queue BigEndian
    (x04 :: x00 :: x00 :: x00 :: xff :: xff :: xff :: xff :: Examples.zeros 504)
    NORMAL
  = Some [Printf "Head Pointer: 0x%x\n" [AInt 4];
          Printf "Tail Pointer Trigger: 0x%x\n" [AInt 0xFFFFFFFF]].
Proof.
  apply (get_cdq_decodes_little_endian BigEndian x04 x00 x00 x00 xff xff xff xff
           (Examples.zeros 504) NORMAL); reflexivity.
Defined.

(** X28.  Get CDQ returns a negative result of the format check without
    issuing anything.  Otherwise it always issues Get Features for feature
    0x21 with the queue id in cdw11 and a 512-byte buffer: when that call
    reports a status other than 0 it returns the status and shows nothing
    of the buffer; when it reports 0 it shows the buffer through
    lm_show_controller_data_queue in the format that was selected and
    returns 0. *)
Theorem get_cdq_paths (host : byte_order) (w : world) (cfg : GetCdq.config) :
  parse_and_open w = 0 ->
  (fst (validate_output_format w (GetCdq.output_format cfg)) < 0 ->
   GetCdq.lm_get_cdq host w cfg
   = (Return (fst (validate_output_format w (GetCdq.output_format cfg))),
      [ShowError "Invalid output format" []]))
  /\ (0 <= fst (validate_output_format w (GetCdq.output_format cfg)) ->
      exists rest,
        snd (GetCdq.lm_get_cdq host w cfg)
        = GetFeatures (mk_fargs 0x21 (GetCdq.cdqid cfg) 0 0 512) :: rest)
  /\ (0 <= fst (validate_output_format w (GetCdq.output_format cfg)) ->
      fst (nvme_get_features w (mk_fargs 0x21 (GetCdq.cdqid cfg) 0 0 512)) <> 0 ->
      GetCdq.lm_get_cdq host w cfg
      = (Return (fst (nvme_get_features w
                        (mk_fargs 0x21 (GetCdq.cdqid cfg) 0 0 512))),
         [GetFeatures (mk_fargs 0x21 (GetCdq.cdqid cfg) 0 0 512);
          if 0 <? fst (nvme_get_features w
                         (mk_fargs 0x21 (GetCdq.cdqid cfg) 0 0 512))
          then ShowStatus (fst (nvme_get_features w
                                  (mk_fargs 0x21 (GetCdq.cdqid cfg) 0 0 512)))
          else ShowError "ERROR: nvme_get_features() failed %s"
                 [AStr (nvme_strerror w (errno w))]]))
  /\ (0 <= fst (validate_output_format w (GetCdq.output_format cfg)) ->
      fst (nvme_get_features w (mk_fargs 0x21 (GetCdq.cdqid cfg) 0 0 512)) = 0 ->
      GetCdq.lm_get_cdq host w cfg
      = match GetCdq.lm_show_controller_data_queue host
                (snd (nvme_get_features w
                        (mk_fargs 0x21 (GetCdq.cdqid cfg) 0 0 512)))
                (snd (validate_output_format w (GetCdq.output_format cfg)))
        with
        | Some out =>
            (Return 0,
             GetFeatures (mk_fargs 0x21 (GetCdq.cdqid cfg) 0 0 512) :: out)
        | None =>
            (Undefined, [GetFeatures (mk_fargs 0x21 (GetCdq.cdqid cfg) 0 0 512)])
        end).
Proof.
  intros Hparse.
  unfold GetCdq.lm_get_cdq.
  rewrite Hparse; cbn [negb Z.eqb].
  change (GetCdq.make_args cfg) with (mk_fargs 0x21 (GetCdq.cdqid cfg) 0 0 512).
  destruct (validate_output_format w (GetCdq.output_format cfg)) as [verr flags].
  cbn [fst snd].
  split; [ | split; [ | split]].
  - intros Hneg; apply Z.ltb_lt in Hneg; rewrite Hneg; reflexivity.
  - intros Hfmt.
    apply Z.ltb_ge in Hfmt; rewrite Hfmt.
    destruct (nvme_get_features w _) as [err data].
    destruct (err =? 0); [ | eexists; reflexivity].
    destruct (GetCdq.lm_show_controller_data_queue host data flags);
      eexists; reflexivity.
  - intros Hfmt Herr.
    apply Z.ltb_ge in Hfmt; rewrite Hfmt.
    destruct (nvme_get_features w _) as [err data].
    cbn [fst] in Herr |- *.
    apply Z.eqb_neq in Herr; rewrite Herr.
    unfold report_submit; rewrite Herr.
    destruct (0 <? err); reflexivity.
  - intros Hfmt Herr.
    apply Z.ltb_ge in Hfmt; rewrite Hfmt.
    destruct (nvme_get_features w _) as [err data].
    cbn [fst snd] in Herr |- *; subst err; cbn [Z.eqb].
    destruct (GetCdq.lm_show_controller_data_queue host data flags); reflexivity.
Qed.

Lemma get_cdq_paths_witness :
  GetCdq.lm_get_cdq BigEndian
    (Examples.world_of 0
       (x04 :: x00 :: x00 :: x00 :: xff :: xff :: xff :: xff :: Examples.zeros 504))
    (GetCdq.mk_config 3 None)
  = (Return 0,
     [GetFeatures (mk_fargs 0x21 3 0 0 512);
      Printf "Head Pointer: 0x%x\n" [AInt 4];
      Printf "Tail Pointer Trigger: 0x%x\n" [AInt 0xFFFFFFFF]]).
Proof.
  pose proof (get_cdq_paths BigEndian
                (Examples.world_of 0
                   (x04 :: x00 :: x00 :: x00 :: xff :: xff :: xff :: xff
                    :: Examples.zeros 504))
                (GetCdq.mk_config 3 None) eq_refl) as (_ & _ & _ & Hok).
  exact (Hok ltac:(discriminate) eq_refl).
Defined.

End CdqFeatureFacts.

(** ** Track Send: the requests that go through *)

Section TrackSendAccepted.

Lemma track_send_one_flag_submits_witness :
  submitted (snd (TrackSend.lm_track_send (Examples.world_of 3 [])
                    (TrackSend.mk_config 0 7 3 false true)))
  = [TrackSend.make_cmd (TrackSend.mk_config 0 7 3 false true)]
  /\ fst (TrackSend.lm_track_send (Examples.world_of 3 [])
            (TrackSend.mk_config 0 7 3 false true))
     = Return 3.
Proof.
  apply (track_send_one_flag_submits (Examples.world_of 3 [])
           (TrackSend.mk_config 0 7 3 false true)); reflexivity.
Defined.

End TrackSendAccepted.
